(** * Activity Assignment Algorithm (auto_assign.py): a shallow embedding

    The allocator of [src/auto_assign.py] is embedded function by function.
    Python dictionaries are insertion-ordered association lists with unique
    keys, Python integers are [Z], node labels of the flow networks are the
    very strings the program builds ([f"{student_id}_{day}"],
    [f"{day}_{activity}"]) and they are taken apart again with models of
    [str.split].  The maximum-flow routine of networkx is an external
    capability: it is a section variable constrained by the usual flow
    contract (capacity constraint and conservation). *)

From Stdlib Require Import List String Ascii ZArith Bool Lia.
Import ListNotations.

Local Open Scope string_scope.
Local Open Scope Z_scope.

(** ** Python strings *)

Module PyStr.

Definition underscore : ascii := "_"%char.

(** ['_' in s] *)
Fixpoint has_underscore (s : string) : bool :=
  match s with
  | EmptyString => false
  | String c r => Ascii.eqb c underscore || has_underscore r
  end.

(** [s.split('_')]: never empty, one more piece than there are
    underscores. *)
Fixpoint split (s : string) : list string :=
  match s with
  | EmptyString => [EmptyString]
  | String c r =>
      if Ascii.eqb c underscore then EmptyString :: split r
      else match split r with
           | [] => [String c EmptyString]
           | h :: t => String c h :: t
           end
  end.

(** [s.split('_', 1)] when it yields two pieces: the text before the first
    underscore and everything after it; [None] when [s] has no underscore
    (the split then has a single piece and unpacking it into two names
    raises [ValueError]). *)
Fixpoint split_first (s : string) : option (string * string) :=
  match s with
  | EmptyString => None
  | String c r =>
      if Ascii.eqb c underscore then Some (EmptyString, r)
      else match split_first r with
           | None => None
           | Some (h, t) => Some (String c h, t)
           end
  end.

(** [s.startswith('S')] *)
Definition startswith_S (s : string) : bool :=
  match s with
  | String c _ => Ascii.eqb c "S"%char
  | EmptyString => false
  end.

(** [f"{a}_{b}"] *)
Definition join_ (a b : string) : string := a ++ String underscore b.

End PyStr.

(** ** Python dictionaries

    A [dict] keeps its keys in insertion order; assigning to a key that is
    present keeps the key's position. *)

Module Dict.
Section WithValue.
Context {V : Type}.

Definition t := list (string * V).

Definition empty : t := [].

Fixpoint get (k : string) (d : t) : option V :=
  match d with
  | [] => None
  | (k', v) :: r => if String.eqb k k' then Some v else get k r
  end.

Definition mem (k : string) (d : t) : bool :=
  match get k d with Some _ => true | None => false end.

(** [d[k] = v] *)
Fixpoint set (k : string) (v : V) (d : t) : t :=
  match d with
  | [] => [(k, v)]
  | (k', v') :: r =>
      if String.eqb k k' then (k, v) :: r else (k', v') :: set k v r
  end.

Definition keys (d : t) : list string := map fst d.
Definition values (d : t) : list V := map snd d.

(** [d.update(other)] *)
Definition update (d other : t) : t :=
  fold_left (fun acc kv => set (fst kv) (snd kv) acc) other d.

(** The invariant of every Python dictionary: no key twice. *)
Definition wf (d : t) : Prop := NoDup (keys d).

End WithValue.
Arguments t : clear implicits.
End Dict.

(** ** Control flow: loops whose body may raise

    A [for] loop over a list threads a state through its body.  When the body
    raises, the loop stops and the mutations made so far stay in the (shared,
    mutable) state: [Raised] carries that state. *)

Inductive result (S : Type) : Type :=
| Done (s : S)
| Raised (s : S).
Arguments Done {S} s.
Arguments Raised {S} s.

Definition state_of {S : Type} (r : result S) : S :=
  match r with Done s => s | Raised s => s end.

Fixpoint for_each {A S : Type} (body : A -> S -> result S) (l : list A) (s : S)
  : result S :=
  match l with
  | [] => Done s
  | a :: r =>
      match body a s with
      | Done s' => for_each body r s'
      | Raised s' => Raised s'
      end
  end.

(** A loop that builds a local value and whose exception discards it. *)
Fixpoint fold_opt {A S : Type} (body : S -> A -> option S) (l : list A) (s : S)
  : option S :=
  match l with
  | [] => Some s
  | a :: r =>
      match body s a with
      | Some s' => fold_opt body r s'
      | None => None
      end
  end.

(** ** Data model *)

(** The value of [preferences[student]['days'][day]]: a dictionary with the
    three keys ['1st_preference'], ['2nd_preference'], ['3rd_preference']. *)
Record Prefs : Type := mkPrefs {
  pref_1st : string;
  pref_2nd : string;
  pref_3rd : string
}.

(** [prefs.values()] and [prefs.items()] *)
Definition prefs_values (p : Prefs) : list string :=
  [pref_1st p; pref_2nd p; pref_3rd p].

Definition prefs_items (p : Prefs) : list (string * string) :=
  [("1st_preference", pref_1st p);
   ("2nd_preference", pref_2nd p);
   ("3rd_preference", pref_3rd p)].

(** [prefs[key]] *)
Definition prefs_get (key : string) (p : Prefs) : option string :=
  Dict.get key (prefs_items p).

(** The value of [preferences[student]]: ['weight'] is the priority tier as
    read from the input, ['days'] maps a day to the ranked choices. *)
Record Student : Type := mkStudent {
  weight : string;
  days : Dict.t Prefs
}.

Definition Preferences := Dict.t Student.

(** [DAYS = frozenset(['mon', 'tue', 'wed', 'thu'])]; the iteration order of
    a frozenset is not fixed by Python, the allocator only looks days up. *)
Definition DAYS : list string := ["mon"; "tue"; "wed"; "thu"].

Definition PREFERENCE_WEIGHTS : Dict.t Z := [("1st", 0); ("2nd", 1); ("3rd", 2)].

Definition STUDENT_WEIGHTS : Dict.t Z :=
  [("high", 1); ("medium", 100); ("low", 1000)].

(** ** networkx directed graphs

    [nx.DiGraph] keeps, per node and in insertion order, the dictionary of its
    successors with the attributes of each edge. *)

Record EdgeData : Type := mkEdge {
  capacity : Z;
  edge_weight : Z
}.

Definition DiGraph := Dict.t (Dict.t EdgeData).

Definition add_node (n : string) (G : DiGraph) : DiGraph :=
  if Dict.mem n G then G else (G ++ [(n, Dict.empty)])%list.

Definition successors (G : DiGraph) (u : string) : Dict.t EdgeData :=
  match Dict.get u G with Some adj => adj | None => Dict.empty end.

(** [G.add_edge(u, v, capacity=c, weight=w)]: both end points become nodes
    ([u] first), an edge that exists gets its attributes overwritten. *)
Definition add_edge (u v : string) (c w : Z) (G : DiGraph) : DiGraph :=
  let G1 := add_node v (add_node u G) in
  Dict.set u (Dict.set v (mkEdge c w) (successors G1 u)) G1.

(** [G[u][v]['capacity']] when the edge exists. *)
Definition edge_capacity (G : DiGraph) (u v : string) : option Z :=
  match Dict.get u G with
  | Some adj => option_map capacity (Dict.get v adj)
  | None => None
  end.

Definition empty_network : DiGraph :=
  add_node "sink" (add_node "source" Dict.empty).

(** ** The capacity ledger and the assignment mapping *)

(** [activity_capacity[day][activity]] *)
Definition Ledger := Dict.t (Dict.t Z).

(** [assignments[student][day]] *)
Definition Assignments := Dict.t (Dict.t string).

Definition remaining (day activity : string) (cap : Ledger) : option Z :=
  match Dict.get day cap with
  | Some row => Dict.get activity row
  | None => None
  end.

Definition assigned (student day : string) (a : Assignments) : option string :=
  match Dict.get student a with
  | Some row => Dict.get day row
  | None => None
  end.

(** [activity_capacity[day][activity] -= 1]; [None] is the [KeyError] of a
    missing day or activity.  There is no test on the value. *)
Definition ledger_commit (day activity : string) (cap : Ledger) : option Ledger :=
  match Dict.get day cap with
  | None => None
  | Some row =>
      match Dict.get activity row with
      | None => None
      | Some r => Some (Dict.set day (Dict.set activity (r - 1) row) cap)
      end
  end.

(** ** create_priority_network *)

(** The body of the loop over [student_data['days'].items()]. *)
Definition add_student_day (remaining_capacity : Ledger) (pref_level : string)
    (student_id : string) (G : DiGraph) (item : string * Prefs)
  : option DiGraph :=
  let (day, prefs) := item in
  let student_day_node := PyStr.join_ student_id day in
  let G1 := add_edge "source" student_day_node 1 0 G in
  match prefs_get (pref_level ++ "_preference") prefs with
  | None => None
  | Some activity =>
      match remaining day activity remaining_capacity with
      | None => None
      | Some r =>
          let G2 :=
            if 0 <? r
            then add_edge student_day_node (PyStr.join_ day activity) 1 0 G1
            else G1 in
          Some (add_edge (PyStr.join_ day activity) "sink" r 0 G2)
      end
  end.

(** The body of the loop over [priority_students.items()]. *)
Definition add_student (remaining_capacity : Ledger) (pref_level : string)
    (G : DiGraph) (item : string * Student) : option DiGraph :=
  fold_opt (add_student_day remaining_capacity pref_level (fst item))
           (days (snd item)) G.

(** [None]: a [KeyError] left the function. *)
Definition create_priority_network (priority_students : Preferences)
    (remaining_capacity : Ledger) (pref_level : string) : option DiGraph :=
  fold_opt (add_student remaining_capacity pref_level)
           priority_students empty_network.

(** ** The flow dictionary and the extraction of assignments *)

(** [flow_dict[u][v]]: the flow on the edge from [u] to [v]. *)
Definition FlowDict := Dict.t (Dict.t Z).

(** The two dictionaries [assign_priority_group] mutates: its local
    [group_assignments] and the shared [activity_capacity]. *)
Record AllocState : Type := mkState {
  group_assignments : Assignments;
  ledger : Ledger
}.

(** The body of [for target, flow in flows.items()], lines 109-115. *)
Definition commit_target (student_id day : string) (item : string * Z)
    (st : AllocState) : result AllocState :=
  let (target, flow) := item in
  if (0 <? flow) && negb (String.eqb target "sink") then
    match PyStr.split_first target with
    | None => Raised st
    | Some (_, activity) =>
        let ga :=
          if Dict.mem student_id (group_assignments st)
          then group_assignments st
          else Dict.set student_id Dict.empty (group_assignments st) in
        let row := match Dict.get student_id ga with
                   | Some row => row
                   | None => Dict.empty
                   end in
        if Dict.mem day row then Done (mkState ga (ledger st))
        else
          let ga' := Dict.set student_id (Dict.set day activity row) ga in
          match ledger_commit day activity (ledger st) with
          | None => Raised (mkState ga' (ledger st))
          | Some cap' => Done (mkState ga' cap')
          end
    end
  else Done st.

(** The body of [for node, flows in flow_dict.items()], lines 105-115. *)
Definition commit_node (item : string * Dict.t Z) (st : AllocState)
  : result AllocState :=
  let (node, flows) := item in
  if negb (String.eqb node "source") && PyStr.has_underscore node then
    match PyStr.split node with
    | [student_id; day] =>
        if PyStr.startswith_S student_id
        then for_each (commit_target student_id day) flows st
        else Done st
    | _ => Raised st
    end
  else Done st.

Definition commit_flows (flow_dict : FlowDict) (st : AllocState)
  : result AllocState :=
  for_each commit_node flow_dict st.

(** ** The contract of the maximum-flow solver

    [nx.maximum_flow(G, s, t)[1]] is a dictionary of dictionaries of integer
    flows.  What the allocator relies on is that it is a feasible flow of
    [G]: a well-formed dictionary, every flow between zero and the capacity
    of an edge of [G], and conservation at every node but [s] and [t]. *)

(** [sum(w(a) for a in l)] *)
Definition total {A : Type} (w : A -> Z) (l : list A) : Z :=
  fold_right (fun a acc => w a + acc) 0 l.

(** The flow into and out of a node. *)
Definition flow_in (fd : FlowDict) (x : string) : Z :=
  total (fun row : string * Dict.t Z =>
           total (fun e : string * Z =>
                    if String.eqb (fst e) x then snd e else 0) (snd row))
        fd.

Definition flow_out (fd : FlowDict) (x : string) : Z :=
  total (fun row : string * Dict.t Z =>
           if String.eqb (fst row) x then total snd (snd row) else 0)
        fd.

Fixpoint nodupb (l : list string) : bool :=
  match l with
  | [] => true
  | x :: r => negb (existsb (String.eqb x) r) && nodupb r
  end.

Definition edge_flow_ok (G : DiGraph) (u : string) (e : string * Z) : bool :=
  (snd e =? 0) ||
  ((0 <? snd e) &&
   match edge_capacity G u (fst e) with
   | Some c => snd e <=? c
   | None => false
   end).

Definition flow_nodes (fd : FlowDict) : list string :=
  (Dict.keys fd ++ flat_map (fun row => Dict.keys (snd row)) fd)%list.

Definition feasible_flow (G : DiGraph) (s t : string) (fd : FlowDict) : bool :=
  nodupb (Dict.keys fd) &&
  forallb (fun row : string * Dict.t Z => nodupb (Dict.keys (snd row))) fd &&
  forallb (fun row : string * Dict.t Z =>
             forallb (edge_flow_ok G (fst row)) (snd row)) fd &&
  forallb (fun x => String.eqb x s || String.eqb x t ||
                    (flow_in fd x =? flow_out fd x))
          (flow_nodes fd).

(** ** assign_priority_group and assign_students_to_activities *)

Record Satisfaction : Type := mkSat {
  sat_1st : Z;
  sat_2nd : Z;
  sat_3rd : Z;
  sat_other : Z
}.

Section Allocator.

(** [nx.maximum_flow(G, s, t)[1]]; [None] when the call raises. *)
Variable maximum_flow : DiGraph -> string -> string -> option FlowDict.

(** One preference level of [assign_priority_group], lines 94-119: the
    network is built outside the [try], so its [KeyError] leaves the
    function ([None]); whatever is raised inside the [try] is caught and
    the loop goes on with the state as it is. *)
Definition assign_pref_level (priority_students : Preferences)
    (st : AllocState) (pref_level : string) : option AllocState :=
  match create_priority_network priority_students (ledger st)
                                pref_level with
  | None => None
  | Some G_pref =>
      match maximum_flow G_pref "source" "sink" with
      | None => Some st
      | Some flow_dict => Some (state_of (commit_flows flow_dict st))
      end
  end.

Definition assign_levels (priority_students : Preferences)
    (levels : list string) (st : AllocState) : option AllocState :=
  fold_opt (assign_pref_level priority_students) levels st.

(** Returns the group's assignments together with the ledger, which the
    Python function mutates in place. *)
Definition assign_priority_group (priority_students : Preferences)
    (label : string) (activity_capacity : Ledger)
  : option (Assignments * Ledger) :=
  match assign_levels priority_students ["1st"; "2nd"; "3rd"]
                      (mkState Dict.empty activity_capacity) with
  | Some st => Some (group_assignments st, ledger st)
  | None => None
  end.

(** [{sid: data for sid, data in preferences.items()
      if data['weight'] == label}] *)
Definition priority_group (label : string) (preferences : Preferences)
  : Preferences :=
  filter (fun item => String.eqb (weight (snd item)) label) preferences.

(** Lines 168-169. *)
Definition init_activity (day : string) (cap : Ledger) (activity : string)
  : option Ledger :=
  match Dict.get day cap with
  | None => None
  | Some row =>
      if Dict.mem activity row then Some cap
      else Some (Dict.set day (Dict.set activity 15 row) cap)
  end.

(** Lines 166-169: [student_data['days'][day]] raises [KeyError] when the
    student has no record for [day]. *)
Definition init_student (day : string) (cap : Ledger)
    (item : string * Student) : option Ledger :=
  match Dict.get day (days (snd item)) with
  | None => None
  | Some prefs => fold_opt (init_activity day) (prefs_values prefs) cap
  end.

Definition init_day (preferences : Preferences) (cap : Ledger) (day : string)
  : option Ledger :=
  fold_opt (init_student day) preferences cap.

(** Lines 162-169. *)
Definition init_capacity (preferences : Preferences) : option Ledger :=
  fold_opt (init_day preferences) DAYS
           (map (fun day => (day, Dict.empty)) DAYS).

(** The body of the loop of lines 172-180. *)
Definition process_group (preferences : Preferences)
    (acc : Assignments * Ledger) (label : string)
  : option (Assignments * Ledger) :=
  match assign_priority_group (priority_group label preferences) label
                              (snd acc) with
  | None => None
  | Some (new_assignments, cap) =>
      Some (Dict.update (fst acc) new_assignments, cap)
  end.

Definition process_groups (preferences : Preferences) (labels : list string)
    (acc : Assignments * Ledger) : option (Assignments * Ledger) :=
  fold_opt (process_group preferences) labels acc.

(** Lines 157-180: the assignment mapping and the ledger at the end of the
    three tiers; [None] when an exception reached the outer handler. *)
Definition allocate (preferences : Preferences)
  : option (Assignments * Ledger) :=
  match init_capacity preferences with
  | None => None
  | Some cap =>
      process_groups preferences ["high"; "medium"; "low"] (Dict.empty, cap)
  end.

(** Lines 190-198. *)
Definition classify (preferences : Preferences) (student_id : string)
    (sat : Satisfaction) (item : string * string) : option Satisfaction :=
  let (day, assigned_activity) := item in
  match Dict.get student_id preferences with
  | None => None
  | Some data =>
      match Dict.get day (days data) with
      | None => None
      | Some student_prefs =>
          if String.eqb assigned_activity (pref_1st student_prefs) then
            Some (mkSat (sat_1st sat + 1) (sat_2nd sat) (sat_3rd sat)
                        (sat_other sat))
          else if String.eqb assigned_activity (pref_2nd student_prefs) then
            Some (mkSat (sat_1st sat) (sat_2nd sat + 1) (sat_3rd sat)
                        (sat_other sat))
          else if String.eqb assigned_activity (pref_3rd student_prefs) then
            Some (mkSat (sat_1st sat) (sat_2nd sat) (sat_3rd sat + 1)
                        (sat_other sat))
          else
            Some (mkSat (sat_1st sat) (sat_2nd sat) (sat_3rd sat)
                        (sat_other sat + 1))
      end
  end.

(** Lines 187-198. *)
Definition preference_satisfaction (preferences : Preferences)
    (assignments : Assignments) : option Satisfaction :=
  fold_opt (fun sat (item : string * Dict.t string) =>
              fold_opt (classify preferences (fst item)) (snd item) sat)
           assignments (mkSat 0 0 0 0).

(** [None] is the pair [(None, None)] the function returns when no
    assignment was made or when an exception was caught. *)
Definition assign_students_to_activities (G : DiGraph)
    (preferences : Preferences) : option (Assignments * Satisfaction) :=
  match allocate preferences with
  | None => None
  | Some (assignments, _) =>
      match assignments with
      | [] => None
      | _ :: _ =>
          match preference_satisfaction preferences assignments with
          | None => None
          | Some sat => Some (assignments, sat)
          end
      end
  end.

End Allocator.

(** ** build_flow_network

    The weighted network of lines 46-87.  [activities_by_day] maps a day to a
    Python set, kept here as a duplicate-free list (a set's iteration order
    is not fixed by Python).  [None]: a [KeyError] left the function. *)

Definition set_add (x : string) (s : list string) : list string :=
  if existsb (String.eqb x) s then s else (s ++ [x])%list.

Definition note_activities (acts : Dict.t (list string))
    (item : string * Prefs) : option (Dict.t (list string)) :=
  let (day, prefs) := item in
  match Dict.get day acts with
  | None => None
  | Some known =>
      Some (Dict.set day
              (fold_left (fun s a => set_add a s) (prefs_values prefs) known)
              acts)
  end.

Definition add_weighted_choice (student_weight : Z) (node day : string)
    (G : DiGraph) (item : string * string) : option DiGraph :=
  let (pref_type, activity) := item in
  match Dict.get (hd EmptyString (PyStr.split pref_type)) PREFERENCE_WEIGHTS with
  | None => None
  | Some base_weight =>
      let edge_weight := base_weight + student_weight in
      Some (add_edge node (PyStr.join_ day activity) 1 edge_weight G)
  end.

Definition add_weighted_day (student_id : string) (student_weight : Z)
    (G : DiGraph) (item : string * Prefs) : option DiGraph :=
  let (day, prefs) := item in
  let student_day_node := PyStr.join_ student_id day in
  fold_opt (add_weighted_choice student_weight student_day_node day)
           (prefs_items prefs)
           (add_edge "source" student_day_node 1 0 G).

Definition add_weighted_student (G : DiGraph) (item : string * Student)
  : option DiGraph :=
  match Dict.get (weight (snd item)) STUDENT_WEIGHTS with
  | None => None
  | Some student_weight =>
      fold_opt (add_weighted_day (fst item) student_weight) (days (snd item)) G
  end.

Definition add_sink_edges (max_capacity_per_activity : Z) (G : DiGraph)
    (item : string * list string) : DiGraph :=
  fold_left (fun G activity =>
               add_edge (PyStr.join_ (fst item) activity) "sink"
                        max_capacity_per_activity 0 G)
            (snd item) G.

Definition build_flow_network (preferences : Preferences) (days_ : list string)
    (max_capacity_per_activity : Z) : option DiGraph :=
  match fold_opt (fun acts (item : string * Student) =>
                    fold_opt note_activities (days (snd item)) acts)
                 preferences (map (fun day => (day, [])) days_) with
  | None => None
  | Some activities_by_day =>
      match fold_opt add_weighted_student preferences empty_network with
      | None => None
      | Some G =>
          Some (fold_left (add_sink_edges max_capacity_per_activity)
                          activities_by_day G)
      end
  end.

(** ** A maximum-flow solver

    An instance of the external capability, used to run the allocator on
    concrete inputs: Ford-Fulkerson with depth-first augmenting paths of one
    unit, nodes and arcs visited in insertion order.  Its answer is returned
    only after it passed [feasible_flow] and no augmenting path is left.
    Where a network has more than one maximum flow, the one this search
    finds need not be the one networkx returns; the general theorems hold
    for every solver that meets the contract. *)

Module Solver.

(** The flow dictionary networkx starts from: every node, every successor,
    flow 0. *)
Definition zero_flow (G : DiGraph) : FlowDict :=
  map (fun node : string * Dict.t EdgeData =>
         (fst node, map (fun e : string * EdgeData => (fst e, 0)) (snd node)))
      G.

Definition flow_at (fd : FlowDict) (u v : string) : Z :=
  match Dict.get u fd with
  | Some row => match Dict.get v row with Some f => f | None => 0 end
  | None => 0
  end.

Definition push (fd : FlowDict) (u v : string) (d : Z) : FlowDict :=
  match Dict.get u fd with
  | Some row => Dict.set u (Dict.set v (flow_at fd u v + d) row) fd
  | None => fd
  end.

(** An arc of the residual network: along an edge with spare capacity
    ([true]) or against an edge that carries flow ([false]). *)
Definition Arc := (string * string * bool)%type.

Definition residual_arcs (G : DiGraph) (fd : FlowDict) (u : string)
  : list Arc :=
  (map (fun e : string * EdgeData => (u, fst e, true))
       (filter (fun e : string * EdgeData =>
                  flow_at fd u (fst e) <? capacity (snd e))
               (successors G u))
   ++
   map (fun node : string * Dict.t EdgeData => (u, fst node, false))
       (filter (fun node : string * Dict.t EdgeData =>
                  Dict.mem u (snd node) && (0 <? flow_at fd (fst node) u))
               G))%list.

Fixpoint search (fuel : nat) (G : DiGraph) (fd : FlowDict) (t u : string)
    (visited : list string) : option (list Arc) * list string :=
  match fuel with
  | O => (None, visited)
  | S fuel' =>
      if String.eqb u t then (Some [], visited)
      else
        (fix try (arcs : list Arc) (visited : list string)
           : option (list Arc) * list string :=
           match arcs with
           | [] => (None, visited)
           | (a, v, fwd) :: rest =>
               if existsb (String.eqb v) visited then try rest visited
               else
                 match search fuel' G fd t v (v :: visited) with
                 | (Some path, visited') =>
                     (Some ((a, v, fwd) :: path), visited')
                 | (None, visited') => try rest visited'
                 end
           end) (residual_arcs G fd u) visited
  end.

Definition apply_arc (fd : FlowDict) (arc : Arc) : FlowDict :=
  match arc with
  | (u, v, true) => push fd u v 1
  | (u, v, false) => push fd v u (-1)
  end.

Fixpoint augment (fuel : nat) (G : DiGraph) (s t : string) (fd : FlowDict)
  : FlowDict :=
  match fuel with
  | O => fd
  | S fuel' =>
      match fst (search (S (List.length G)) G fd t s [s]) with
      | Some path => augment fuel' G s t (fold_left apply_arc path fd)
      | None => fd
      end
  end.

Definition source_capacity (G : DiGraph) (s : string) : Z :=
  fold_right Z.add 0
    (map (fun e : string * EdgeData => Z.max 0 (capacity (snd e)))
         (successors G s)).

Definition ford_fulkerson (G : DiGraph) (s t : string) : FlowDict :=
  augment (Z.to_nat (source_capacity G s)) G s t (zero_flow G).

(** No augmenting path is left: the flow is maximum. *)
Definition saturated (G : DiGraph) (s t : string) (fd : FlowDict) : bool :=
  match fst (search (S (List.length G)) G fd t s [s]) with
  | Some _ => false
  | None => true
  end.

Definition maximum_flow (G : DiGraph) (s t : string) : option FlowDict :=
  let fd := ford_fulkerson G s t in
  if feasible_flow G s t fd && saturated G s t fd then Some fd else None.

End Solver.

(** ** load_student_preferences

    [csv.DictReader] yields one dictionary per row; a field of a row that is
    shorter than the header holds [None].  The whole loop sits in one
    [try]: the first exception ends the loading, the rows read so far stay
    in [preferences], and the message that reports the number of students
    is skipped. *)

Module Loader.

(** The value of a field of a row. *)
Inductive Cell : Type :=
| CNone
| CStr (s : string).

Definition Row := Dict.t Cell.

Definition cell_eqb (a b : Cell) : bool :=
  match a, b with
  | CNone, CNone => true
  | CStr x, CStr y => String.eqb x y
  | _, _ => false
  end.

(** A loaded student: [weight] is whatever [row.get('priority', 'medium')]
    gave. *)
Record Loaded : Type := mkLoaded {
  loaded_weight : Cell;
  loaded_days : Dict.t Prefs
}.

(** [preferences], keyed by the value of the [student_id] field. *)
Definition Table := list (Cell * Loaded).

Fixpoint find (k : Cell) (t : Table) : option Loaded :=
  match t with
  | [] => None
  | (k', v) :: r => if cell_eqb k k' then Some v else find k r
  end.

Fixpoint store (k : Cell) (v : Loaded) (t : Table) : Table :=
  match t with
  | [] => [(k, v)]
  | (k', v') :: r =>
      if cell_eqb k k' then (k, v) :: r else (k', v') :: store k v r
  end.

(** ASCII models of [str.strip] and [str.lower]: on text of ASCII
    characters they are the two methods.  Python also strips the white
    space of Unicode beyond ASCII (U+0085, U+00A0, ...) and lowers capitals
    beyond ASCII; the model leaves such characters alone, and a statement
    that depends on the value of [strip] or [lower] is made for ASCII
    text. *)
Definition is_space (c : ascii) : bool :=
  let n := nat_of_ascii c in
  (Nat.eqb n 32 || (Nat.leb 9 n && Nat.leb n 13) ||
   (Nat.leb 28 n && Nat.leb n 31))%bool.

Fixpoint lstrip (s : string) : string :=
  match s with
  | String c r => if is_space c then lstrip r else s
  | EmptyString => EmptyString
  end.

Fixpoint rstrip (s : string) : string :=
  match s with
  | EmptyString => EmptyString
  | String c r =>
      match rstrip r with
      | EmptyString => if is_space c then EmptyString
                       else String c EmptyString
      | r' => String c r'
      end
  end.

Definition strip (s : string) : string := rstrip (lstrip s).

Definition lower_char (c : ascii) : ascii :=
  let n := nat_of_ascii c in
  if (Nat.leb 65 n && Nat.leb n 90)%bool then ascii_of_nat (n + 32) else c.

Fixpoint lower (s : string) : string :=
  match s with
  | EmptyString => EmptyString
  | String c r => String (lower_char c) (lower r)
  end.

(** [row[key].strip()]: [KeyError] without the column, [AttributeError] on
    [None]. *)
Definition stripped (key : string) (row : Row) : option string :=
  match Dict.get key row with
  | Some (CStr s) => Some (strip s)
  | _ => None
  end.

(** [row.get('priority', 'medium')] *)
Definition priority_of (row : Row) : Cell :=
  match Dict.get "priority" row with
  | Some c => c
  | None => CStr "medium"
  end.

(** The body of the loop, lines 27-39. *)
Definition load_row (row : Row) (preferences : Table) : result Table :=
  match Dict.get "student_id" row with
  | None => Raised preferences
  | Some student_id =>
      let preferences1 :=
        match find student_id preferences with
        | Some _ => preferences
        | None => store student_id (mkLoaded (priority_of row) Dict.empty)
                        preferences
        end in
      match stripped "day" row with
      | None => Raised preferences1
      | Some d =>
          let day := lower d in
          match stripped "1st_preference" row,
                stripped "2nd_preference" row,
                stripped "3rd_preference" row with
          | Some p1, Some p2, Some p3 =>
              match find student_id preferences1 with
              | None => Raised preferences1
              | Some rec =>
                  Done (store student_id
                          (mkLoaded (loaded_weight rec)
                             (Dict.set day (mkPrefs p1 p2 p3)
                                       (loaded_days rec)))
                          preferences1)
              end
          | _, _, _ => Raised preferences1
          end
      end
  end.

(** What the function prints. *)
Inductive Report : Type :=
| LoadedCount (n : nat)
| LoadError.

(** [csv_file] is the content of the file as rows, [None] when the file
    cannot be opened. *)
Definition load_student_preferences (csv_file : option (list Row))
  : Table * Report :=
  match csv_file with
  | None => ([], LoadError)
  | Some rows =>
      match for_each load_row rows [] with
      | Done preferences => (preferences, LoadedCount (List.length preferences))
      | Raised preferences => (preferences, LoadError)
      end
  end.

Definition good_row (sid day : string) : Row :=
  [("student_id", CStr sid); ("priority", CStr "high"); ("day", CStr day);
   ("1st_preference", CStr "chess"); ("2nd_preference", CStr "drama");
   ("3rd_preference", CStr "soccer")].

(** A row cut short after the priority: the other fields hold [None]. *)
Definition short_row (sid : string) : Row :=
  [("student_id", CStr sid); ("priority", CStr "high"); ("day", CNone);
   ("1st_preference", CNone); ("2nd_preference", CNone);
   ("3rd_preference", CNone)].

Definition three_rows : list Row :=
  [good_row "S1" " Mon "; short_row "S2"; good_row "S3" "mon"].

End Loader.

(** ** Auxiliary notions used in the statements *)

(** The effect of lines 111-114 on the assignment mapping when the pair
    [(student, day)] is new. *)
Definition record_assignment (student day activity : string)
    (a : Assignments) : Assignments :=
  Dict.set student
    (Dict.set day activity
       (match Dict.get student a with Some row => row | None => Dict.empty end))
    a.

(** Sample inputs. *)

Definition week (p : Prefs) : Dict.t Prefs :=
  [("mon", p); ("tue", p); ("wed", p); ("thu", p)].

Definition sample_roster : Preferences :=
  [("S1", mkStudent "high" (week (mkPrefs "chess" "drama" "soccer")));
   ("S2", mkStudent "medium" (week (mkPrefs "chess" "soccer" "drama")));
   ("X9", mkStudent "high" (week (mkPrefs "drama" "chess" "soccer")));
   ("S3", mkStudent "low" (week (mkPrefs "soccer" "soccer" "chess")))].


(** The three kinds of edges [create_priority_network] puts into the network
    of a pass: source to student-day (line 132), student-day to the
    activity-day of the level when seats remain (lines 136-142), activity-day
    to sink with the remaining seats as capacity (lines 145-150). *)
Inductive network_edge (priority_students : Preferences) (cap : Ledger)
    (pref_level : string) : string -> string -> Z -> Prop :=
| source_edge sid st day prefs :
    In (sid, st) priority_students -> In (day, prefs) (days st) ->
    network_edge priority_students cap pref_level
                 "source" (PyStr.join_ sid day) 1
| choice_edge sid st day prefs activity r :
    In (sid, st) priority_students -> In (day, prefs) (days st) ->
    prefs_get (pref_level ++ "_preference") prefs = Some activity ->
    remaining day activity cap = Some r -> 0 < r ->
    network_edge priority_students cap pref_level
                 (PyStr.join_ sid day) (PyStr.join_ day activity) 1
| sink_edge sid st day prefs activity r :
    In (sid, st) priority_students -> In (day, prefs) (days st) ->
    prefs_get (pref_level ++ "_preference") prefs = Some activity ->
    remaining day activity cap = Some r ->
    network_edge priority_students cap pref_level
                 (PyStr.join_ day activity) "sink" r.


Definition S1_alone : Preferences :=
  [("S1", mkStudent "high" (week (mkPrefs "chess" "drama" "soccer")))].

Definition full_ledger : Ledger :=
  map (fun day => (day, [("chess", 15); ("drama", 15); ("soccer", 15)])) DAYS.

(** The ledger once S1 holds a seat of chess on each day. *)
Definition ledger_after_S1 : Ledger :=
  map (fun day => (day, [("chess", 14); ("drama", 15); ("soccer", 15)])) DAYS.

Definition S1_chess : Assignments :=
  [("S1", [("mon", "chess"); ("tue", "chess"); ("wed", "chess");
           ("thu", "chess")])].

(** A roster in which S2 has a record for Monday only. *)
Definition roster_with_gap : Preferences :=
  [("S1", mkStudent "high" (week (mkPrefs "chess" "drama" "soccer")));
   ("S2", mkStudent "high" [("mon", mkPrefs "chess" "drama" "soccer")])].


(** [entry s d act a]: the mapping [a] holds the item [(d, act)] in the row
    of student [s]. *)
Definition entry (student day activity : string) (a : Assignments) : Prop :=
  exists row, In (student, row) a /\ In (day, activity) row.

(** A sum over the items of a dictionary. *)
Definition dict_sum {V : Type} (f : string -> V -> Z) (d : Dict.t V) : Z :=
  fold_right (fun kv acc => f (fst kv) (snd kv) + acc) 0 d.

(** The number of assignments of the mapping to the activity-day
    [(day, activity)]. *)
Definition committed_count (day activity : string) (a : Assignments) : Z :=
  dict_sum (fun _ row =>
              dict_sum (fun d act =>
                          if String.eqb d day && String.eqb act activity
                          then 1 else 0) row) a.

(** The preference levels in the order of line 93, the tiers in the order
    of lines 172-176. *)
Definition LEVELS : list string := ["1st"; "2nd"; "3rd"].
Definition TIERS : list string := ["high"; "medium"; "low"].

(** An assignment that comes from a student's own record: the activity is
    the student's choice of some level for that day. *)
Definition justified (ps : Preferences) (student day activity : string) : Prop :=
  exists st prefs level,
    In (student, st) ps /\ In (day, prefs) (days st) /\ In level LEVELS /\
    prefs_get (level ++ "_preference") prefs = Some activity.

(** The invariant of the input dictionaries: no student twice, no day twice
    in a student's record. *)
Definition wf_preferences (preferences : Preferences) : Prop :=
  Dict.wf preferences /\
  forall sid st, In (sid, st) preferences -> Dict.wf (days st).

Definition wf_preferencesb (preferences : Preferences) : bool :=
  nodupb (Dict.keys preferences) &&
  forallb (fun item : string * Student => nodupb (Dict.keys (days (snd item))))
          preferences.

(** No student-day label [f"{sid}_{day}"] can be read as an activity-day
    label [f"{d}_{activity}"] of a configured day [d]: no student identifier
    is a day label or starts with a day label followed by an underscore. *)
Definition clash_free (preferences : Preferences) : bool :=
  forallb (fun sid =>
             forallb (fun d => negb (String.prefix (PyStr.join_ d "")
                                                   (PyStr.join_ sid "")))
                     DAYS)
          (Dict.keys preferences).


(** [accounts cap0 a cap]: the ledger [cap] is the ledger [cap0] less one
    seat for every assignment of [a]; no assignment is to an activity-day
    the ledger does not know. *)
Definition accounts (cap0 : Ledger) (a : Assignments) (cap : Ledger) : Prop :=
  forall d act,
    match remaining d act cap0 with
    | Some r0 => remaining d act cap = Some (r0 - committed_count d act a)
    | None => remaining d act cap = None /\ committed_count d act a = 0
    end.

(** What holds of the state of a tier between two commitments: [ps] is the
    tier's roster, [cap0] the ledger the tier started from. *)
Record tier_inv (ps : Preferences) (cap0 : Ledger) (st : AllocState) : Prop := {
  ti_wf : Dict.wf (group_assignments st);
  ti_rows : forall k row, In (k, row) (group_assignments st) -> Dict.wf row;
  ti_keys : forall k, In k (Dict.keys (group_assignments st)) ->
                      exists stu, In (k, stu) ps;
  ti_justified : forall s d act, entry s d act (group_assignments st) ->
                                 justified ps s d act;
  ti_accounts : accounts cap0 (group_assignments st) (ledger st);
  ti_seat : forall s d act, entry s d act (group_assignments st) ->
                            exists r0, remaining d act cap0 = Some r0 /\ 0 < r0
}.


(** What holds of the merged assignment mapping and the ledger between two
    tiers: [done] are the tiers processed so far, [cap0] the initial
    ledger. *)
Record run_inv (preferences : Preferences) (cap0 : Ledger)
    (done : list string) (acc : Assignments * Ledger) : Prop := {
  ri_wf : Dict.wf (fst acc);
  ri_rows : forall k row, In (k, row) (fst acc) -> Dict.wf row;
  ri_keys : forall k, In k (Dict.keys (fst acc)) ->
                      exists stu, In (k, stu) preferences /\ In (weight stu) done;
  ri_justified : forall s d act, entry s d act (fst acc) ->
                                 justified preferences s d act;
  ri_accounts : accounts cap0 (fst acc) (snd acc)
}.


(** The label of a node read the way [commit_node] reads it: the student
    and the day, when the node is treated as a student-day node. *)
Definition student_day_of (node : string) : option (string * string) :=
  if negb (String.eqb node "source") && PyStr.has_underscore node then
    match PyStr.split node with
    | [s; d] => if PyStr.startswith_S s then Some (s, d) else None
    | _ => None
    end
  else None.



(** The seats of [(d, a)] in a ledger, [0] where the ledger has no entry. *)
Definition seats (d a : string) (cap : Ledger) : Z :=
  match remaining d a cap with Some r => r | None => 0 end.







(** The result of the allocator on [sample_roster]. *)
Definition sample_assignments : Assignments :=
  [("S1", [("mon", "chess"); ("tue", "chess"); ("wed", "chess");
           ("thu", "chess")]);
   ("S2", [("mon", "chess"); ("tue", "chess"); ("wed", "chess");
           ("thu", "chess")]);
   ("S3", [("mon", "soccer"); ("tue", "soccer"); ("wed", "soccer");
           ("thu", "soccer")])].

Definition sample_ledger : Ledger :=
  map (fun day => (day, [("chess", 13); ("drama", 15); ("soccer", 14)])) DAYS.

Definition sample_satisfaction : Satisfaction := mkSat 12 0 0 0.

(** The network of the 2nd-level pass over [S1_alone] once S1 holds chess. *)
Definition second_level_network : DiGraph :=
  Eval vm_compute in
    match create_priority_network S1_alone ledger_after_S1 "2nd" with
    | Some G => G
    | None => Dict.empty
    end.










Definition empty_ledger_entry : Ledger := [("mon", [("chess", 0)])].




(** Every edge of the network is of one of the three kinds. *)
Definition only_network_edges (ps : Preferences) (cap : Ledger)
    (level : string) (G : DiGraph) : Prop :=
  forall u v c, edge_capacity G u v = Some c -> network_edge ps cap level u v c.

(** The network has the edge from [u] to [v], with capacity 1. *)
Definition keeps_unit_edge (u v : string) (G : DiGraph) : Prop :=
  edge_capacity G u v = Some 1.

(** A ledger in which every entry is a configured day's and holds 15. *)
Definition fresh_ledger (cap : Ledger) : Prop :=
  forall d a r, remaining d a cap = Some r -> In d DAYS /\ r = 15.

(** Every edge of the network carries weight 0. *)
Definition all_weights_zero (G : DiGraph) : Prop :=
  forall u adj v e, In (u, adj) G -> In (v, e) adj -> edge_weight e = 0.


(** [ledger_below cap cap']: the ledger [cap'] has the entries of [cap] and
    no others, none of them larger. *)
Definition ledger_below (cap cap' : Ledger) : Prop :=
  forall d a,
    match remaining d a cap with
    | Some r => exists r', remaining d a cap' = Some r' /\ r' <= r
    | None => remaining d a cap' = None
    end.

(** The number of (student, day) items of an assignment mapping. *)
Definition entries (a : Assignments) : Z :=
  total (fun row : string * Dict.t string => Z.of_nat (List.length (snd row))) a.

Definition sat_total (sat : Satisfaction) : Z :=
  sat_1st sat + sat_2nd sat + sat_3rd sat + sat_other sat.

(** No student of the mapping has an empty row. *)
Definition rows_filled (a : Assignments) : Prop :=
  forall s row, In (s, row) a -> row <> [].

(** Every configured day has a row in the ledger. *)
Definition days_present (cap : Ledger) : Prop :=
  forall d, In d DAYS -> Dict.get d cap <> None.

(** Some student of the input lists the activity among the three choices of
    the day. *)
Definition listed (preferences : Preferences) (d a : string) : Prop :=
  exists sid st p,
    In (sid, st) preferences /\ Dict.get d (days st) = Some p /\
    In a (prefs_values p).

(** The ledger has an entry for the activity-day. *)
Definition has_entry (i : string * string) (cap : Ledger) : Prop :=
  exists r, remaining (fst i) (snd i) cap = Some r.

(** A row in which the five fields the loader reads hold strings. *)
Definition complete_row (row : Loader.Row) (sid : Loader.Cell)
    (d p1 p2 p3 : string) : Prop :=
  Dict.get "student_id" row = Some sid /\
  Dict.get "day" row = Some (Loader.CStr d) /\
  Dict.get "1st_preference" row = Some (Loader.CStr p1) /\
  Dict.get "2nd_preference" row = Some (Loader.CStr p2) /\
  Dict.get "3rd_preference" row = Some (Loader.CStr p3).

Definition complete (row : Loader.Row) : Prop :=
  exists sid d p1 p2 p3, complete_row row sid d p1 p2 p3.

(** ** print_results

    The figures [print_results] prints, lines 238-265 and 292; the layout of
    the text and the percentages are left out.  [activities_by_day] and
    [unassigned_students] are Python sets, kept as lists. *)

Record Summary : Type := mkSummary {
  total_assignments : Z;
  overall_satisfaction : Satisfaction;
  priority_satisfaction : Dict.t Satisfaction;
  activity_count : Dict.t (Dict.t Z)
}.

(** The branch of lines 250-261 that is taken. *)
Definition level_of (assigned_activity : string) (student_prefs : Prefs)
  : string :=
  if String.eqb assigned_activity (pref_1st student_prefs) then "1st"
  else if String.eqb assigned_activity (pref_2nd student_prefs) then "2nd"
  else if String.eqb assigned_activity (pref_3rd student_prefs) then "3rd"
  else "other".

(** [counts[level] += 1] *)
Definition sat_incr (level : string) (sat : Satisfaction) : Satisfaction :=
  if String.eqb level "1st" then
    mkSat (sat_1st sat + 1) (sat_2nd sat) (sat_3rd sat) (sat_other sat)
  else if String.eqb level "2nd" then
    mkSat (sat_1st sat) (sat_2nd sat + 1) (sat_3rd sat) (sat_other sat)
  else if String.eqb level "3rd" then
    mkSat (sat_1st sat) (sat_2nd sat) (sat_3rd sat + 1) (sat_other sat)
  else
    mkSat (sat_1st sat) (sat_2nd sat) (sat_3rd sat) (sat_other sat + 1).

(** Lines 263-265. *)
Definition count_activity (day assigned_activity : string)
    (counts : Dict.t (Dict.t Z)) : option (Dict.t (Dict.t Z)) :=
  match Dict.get day counts with
  | None => None
  | Some row =>
      let row1 := if Dict.mem assigned_activity row then row
                  else Dict.set assigned_activity 0 row in
      match Dict.get assigned_activity row1 with
      | None => None
      | Some c =>
          Some (Dict.set day (Dict.set assigned_activity (c + 1) row1) counts)
      end
  end.

(** The body of the loop of line 246. *)
Definition tally_item (preferences : Preferences)
    (student student_priority : string) (s : Summary) (item : string * string)
  : option Summary :=
  let (day, assigned_activity) := item in
  match Dict.get student preferences with
  | None => None
  | Some data =>
      match Dict.get day (days data) with
      | None => None
      | Some student_prefs =>
          let level := level_of assigned_activity student_prefs in
          match Dict.get student_priority (priority_satisfaction s) with
          | None => None
          | Some tier_counts =>
              match count_activity day assigned_activity (activity_count s) with
              | None => None
              | Some counts =>
                  Some (mkSummary
                          (total_assignments s + 1)
                          (sat_incr level (overall_satisfaction s))
                          (Dict.set student_priority
                             (sat_incr level tier_counts)
                             (priority_satisfaction s))
                          counts)
              end
          end
      end
  end.

(** The body of the loop of line 244. *)
Definition tally_student (preferences : Preferences) (s : Summary)
    (item : string * Dict.t string) : option Summary :=
  match Dict.get (fst item) preferences with
  | None => None
  | Some data =>
      fold_opt (tally_item preferences (fst item) (weight data)) (snd item) s
  end.

Definition empty_summary : Summary :=
  mkSummary 0 (mkSat 0 0 0 0)
    (map (fun priority => (priority, mkSat 0 0 0 0))
         (Dict.keys STUDENT_WEIGHTS))
    (map (fun day => (day, Dict.empty)) DAYS).

(** Lines 238-265; [None]: a [KeyError]. *)
Definition summary_statistics (preferences : Preferences)
    (assignments : Assignments) : option Summary :=
  fold_opt (tally_student preferences) assignments empty_summary.

(** What [print_results] does: the message of line 210, an exception, or
    the figures together with the students of line 292. *)
Inductive Printed : Type :=
| NoResults
| Raises
| Report (s : Summary) (unassigned_students : list string).

(** The first loop (lines 219-235) makes, for some of the students, the
    look-ups the second loop makes for all of them, so it raises only where
    the second would; the division of line 278 raises when nothing was
    counted. *)
Definition print_results (assignments : option Assignments)
    (preferences : Preferences) : Printed :=
  match assignments with
  | None => NoResults
  | Some a =>
      match summary_statistics preferences a with
      | None => Raises
      | Some s =>
          if total_assignments s =? 0 then Raises
          else Report s (filter (fun sid => negb (Dict.mem sid a))
                                (Dict.keys preferences))
      end
  end.

(** What a run of the summary keeps: the tables have a row for every tier
    and every configured day. *)
Definition summary_rows (s : Summary) : Prop :=
  (forall p, In p TIERS -> Dict.get p (priority_satisfaction s) <> None) /\
  (forall d, In d DAYS -> Dict.get d (activity_count s) <> None).

(** [activities_by_day] has exactly the days [build_flow_network] was
    given as keys. *)
Definition keyed (days_ : list string) (acts : Dict.t (list string)) : Prop :=
  Dict.keys acts = days_.

(** The counts of the three tiers taken together. *)
Definition tier_total (s : Summary) : Z :=
  dict_sum (fun _ sat => sat_total sat) (priority_satisfaction s).

(** The rows on which the body of the loading loop raises.  [row[key]]
    raises [KeyError] when the row lacks the column; [.strip()] raises
    [AttributeError] on [None], the value [csv.DictReader] gives to the
    fields a short row does not reach.  The value of [student_id] is only
    used as a key, so [None] is as good as a string there. *)
Definition has_text (key : string) (row : Loader.Row) : bool :=
  match Dict.get key row with
  | Some (Loader.CStr _) => true
  | _ => false
  end.

Definition malformed (row : Loader.Row) : bool :=
  match Dict.get "student_id" row with
  | None => true
  | Some _ =>
      negb (has_text "day" row && has_text "1st_preference" row &&
            has_text "2nd_preference" row && has_text "3rd_preference" row)
  end.

(** What lines 27-32 have done to the table when a later line of the body
    raises: a student that was not known has an entry without days. *)
Definition table_at_failure (row : Loader.Row) (t : Loader.Table)
  : Loader.Table :=
  match Dict.get "student_id" row with
  | None => t
  | Some student_id =>
      match Loader.find student_id t with
      | Some _ => t
      | None =>
          Loader.store student_id
            (Loader.mkLoaded (Loader.priority_of row) Dict.empty) t
      end
  end.

(** Text of ASCII characters only.  On such text [Loader.strip] and
    [Loader.lower] compute what [str.strip] and [str.lower] compute. *)
Definition ascii_text (s : string) : bool :=
  forallb (fun c => Nat.ltb (nat_of_ascii c) 128) (list_ascii_of_string s).


(** [same_seats ps cap cap']: the two ledgers agree on every activity-day
    that a student of [ps] lists. *)
Definition same_seats (ps : Preferences) (cap cap' : Ledger) : Prop :=
  forall sid stu d prefs a,
    In (sid, stu) ps -> In (d, prefs) (days stu) -> In a (prefs_values prefs) ->
    remaining d a cap = remaining d a cap'.



(** * Properties *)

(** ** Strings *)

Module PyStrFacts.
Import PyStr.

Lemma split_nonempty (s : string) : split s <> [].
Proof.
  induction s as [|c r IH]; simpl; [discriminate|].
  destruct (Ascii.eqb c underscore); [discriminate|].
  destruct (split r); [contradiction | discriminate].
Qed.

(** A single piece: the string has no underscore and is that piece. *)
Lemma split_single (s x : string) :
  split s = [x] -> s = x /\ has_underscore s = false.
Proof.
  revert x; induction s as [|c r IH]; simpl; intros x H.
  - inversion H; auto.
  - destruct (Ascii.eqb c underscore) eqn:E.
    + inversion H as [[Hx Hr]]. exfalso. exact (split_nonempty r Hr).
    + destruct (split r) as [|h t] eqn:Er; [exfalso; exact (split_nonempty r Er)|].
      inversion H; subst. destruct (IH h eq_refl) as [-> ->]. auto.
Qed.

Lemma split_join (a b : string) : split (join_ a b) = (split a ++ split b)%list.
Proof.
  unfold join_. induction a as [|c r IH]; simpl.
  - reflexivity.
  - destruct (Ascii.eqb c underscore) eqn:E.
    + rewrite IH. reflexivity.
    + rewrite IH. destruct (split r) as [|h t] eqn:Er.
      * exfalso; exact (split_nonempty r Er).
      * reflexivity.
Qed.

(** [student_id, day = node.split('_')] undoes [f"{sid}_{d}"]: when the
    split of a joined label has exactly two pieces, they are the two
    components and neither holds an underscore. *)
Lemma split_join_two (a b x y : string) :
  split (join_ a b) = [x; y] ->
  a = x /\ b = y /\ has_underscore a = false /\ has_underscore b = false.
Proof.
  rewrite split_join. intros H.
  destruct (split a) as [|h [|h' t]] eqn:Ea.
  - exfalso; exact (split_nonempty a Ea).
  - destruct (split b) as [|k [|k' t']] eqn:Eb; simpl in H; try discriminate.
    inversion H; subst.
    destruct (split_single _ _ Ea) as [-> ?].
    destruct (split_single _ _ Eb) as [-> ?]. auto.
  - simpl in H. inversion H as [[H1 H2 H3]].
    destruct t; [|discriminate]. simpl in H3.
    exfalso; exact (split_nonempty b H3).
Qed.

Lemma split_first_join (a b : string) :
  has_underscore a = false -> split_first (join_ a b) = Some (a, b).
Proof.
  unfold join_. induction a as [|c r IH]; simpl; intros H.
  - reflexivity.
  - apply orb_false_iff in H as [Hc Hr]. rewrite Hc, (IH Hr). reflexivity.
Qed.

Lemma split_first_spec (s h t : string) :
  split_first s = Some (h, t) -> s = join_ h t /\ has_underscore h = false.
Proof.
  unfold join_. revert h; induction s as [|c r IH]; simpl; intros h H.
  - discriminate.
  - destruct (Ascii.eqb c underscore) eqn:E.
    + inversion H; subst. apply Ascii.eqb_eq in E. subst. auto.
    + destruct (split_first r) as [[h' t']|]; [|discriminate].
      inversion H; subst. destruct (IH h' eq_refl) as [-> Hh].
      simpl. rewrite E, Hh. auto.
Qed.


Lemma join_has_underscore (a b : string) : has_underscore (join_ a b) = true.
Proof.
  unfold join_. induction a as [|c r IH]; simpl.
  - reflexivity.
  - rewrite IH. apply orb_true_r.
Qed.

Lemma join_not_source (a b : string) : join_ a b <> "source".
Proof.
  intros E. pose proof (join_has_underscore a b) as H. rewrite E in H.
  discriminate.
Qed.

Lemma join_not_sink (a b : string) : join_ a b <> "sink".
Proof.
  intros E. pose proof (join_has_underscore a b) as H. rewrite E in H.
  discriminate.
Qed.

End PyStrFacts.

(** ** Dictionaries *)

Module DictFacts.
Section WithValue.
Context {V : Type}.
Implicit Types (d : Dict.t V) (k : string) (v : V).

Lemma get_set_same k v d : Dict.get k (Dict.set k v d) = Some v.
Proof.
  induction d as [|[k' v'] r IH]; simpl.
  - rewrite String.eqb_refl. reflexivity.
  - destruct (String.eqb k k') eqn:E; simpl.
    + rewrite String.eqb_refl. reflexivity.
    + rewrite E. exact IH.
Qed.

Lemma get_set_other k k' v d :
  k' <> k -> Dict.get k' (Dict.set k v d) = Dict.get k' d.
Proof.
  intros N. induction d as [|[k0 v0] r IH]; simpl.
  - apply String.eqb_neq in N. rewrite N. reflexivity.
  - destruct (String.eqb k k0) eqn:E; simpl.
    + apply String.eqb_eq in E. subst k0.
      apply String.eqb_neq in N. rewrite N. reflexivity.
    + rewrite IH. reflexivity.
Qed.

Lemma get_In k v d : Dict.get k d = Some v -> In (k, v) d.
Proof.
  induction d as [|[k' v'] r IH]; simpl; [discriminate|].
  destruct (String.eqb k k') eqn:E.
  - apply String.eqb_eq in E. intros H; inversion H; subst. auto.
  - auto.
Qed.

Lemma get_None_keys k d : Dict.get k d = None <-> ~ In k (Dict.keys d).
Proof.
  induction d as [|[k' v'] r IH]; simpl.
  - tauto.
  - destruct (String.eqb k k') eqn:E.
    + apply String.eqb_eq in E. subst. split; [discriminate | intros H; exfalso; auto].
    + apply String.eqb_neq in E. rewrite IH. split; intros H.
      * intros [H'|H']; [congruence | auto].
      * auto.
Qed.

Lemma get_Some_keys k v d : Dict.get k d = Some v -> In k (Dict.keys d).
Proof.
  intros H. apply get_In in H. apply (in_map fst) in H. exact H.
Qed.

Lemma In_keys_get k d : In k (Dict.keys d) -> exists v, Dict.get k d = Some v.
Proof.
  intros H. destruct (Dict.get k d) eqn:E; [eauto|].
  apply get_None_keys in E. contradiction.
Qed.

Lemma In_get k v d : Dict.wf d -> In (k, v) d -> Dict.get k d = Some v.
Proof.
  unfold Dict.wf. induction d as [|[k' v'] r IH]; simpl; [tauto|].
  intros W [H|H].
  - inversion H; subst. rewrite String.eqb_refl. reflexivity.
  - inversion W; subst. destruct (String.eqb k k') eqn:E.
    + apply String.eqb_eq in E. subst. exfalso. apply H2.
      apply (in_map fst) in H. exact H.
    + auto.
Qed.

Lemma mem_true k d : Dict.mem k d = true <-> In k (Dict.keys d).
Proof.
  unfold Dict.mem. split.
  - destruct (Dict.get k d) eqn:E; [|discriminate].
    intros _. eapply get_Some_keys; eauto.
  - intros H. destruct (In_keys_get _ _ H) as [v ->]. reflexivity.
Qed.

Lemma mem_false k d : Dict.mem k d = false <-> Dict.get k d = None.
Proof.
  unfold Dict.mem. destruct (Dict.get k d); split; congruence.
Qed.

Lemma In_set k v k' v' d :
  In (k', v') (Dict.set k v d) -> (k' = k /\ v' = v) \/ In (k', v') d.
Proof.
  induction d as [|[k0 v0] r IH]; simpl.
  - intros [H|[]]. inversion H; auto.
  - destruct (String.eqb k k0) eqn:E; simpl.
    + intros [H|H]; [inversion H; auto | auto].
    + intros [H|H]; [auto | destruct (IH H); auto].
Qed.

Lemma keys_set_in k v d :
  In k (Dict.keys d) -> Dict.keys (Dict.set k v d) = Dict.keys d.
Proof.
  induction d as [|[k0 v0] r IH]; simpl; [tauto|].
  destruct (String.eqb k k0) eqn:E; simpl.
  - apply String.eqb_eq in E. subst. reflexivity.
  - apply String.eqb_neq in E. intros [H|H]; [congruence|].
    rewrite IH; auto.
Qed.

Lemma keys_set_notin k v d :
  ~ In k (Dict.keys d) -> Dict.keys (Dict.set k v d) = (Dict.keys d ++ [k])%list.
Proof.
  induction d as [|[k0 v0] r IH]; simpl; [reflexivity|].
  destruct (String.eqb k k0) eqn:E; simpl.
  - apply String.eqb_eq in E. subst. intros H. exfalso; auto.
  - intros H. rewrite IH; auto.
Qed.

Lemma In_keys_set k v k' d :
  In k' (Dict.keys (Dict.set k v d)) <-> k' = k \/ In k' (Dict.keys d).
Proof.
  destruct (in_dec string_dec k (Dict.keys d)) as [H|H].
  - rewrite keys_set_in by assumption. split; [auto|].
    intros [->|]; auto.
  - rewrite keys_set_notin by assumption. rewrite in_app_iff. simpl.
    split; intros [?|?]; auto. destruct H0; auto. contradiction.
Qed.

Lemma wf_set k v d : Dict.wf d -> Dict.wf (Dict.set k v d).
Proof.
  unfold Dict.wf. intros W.
  destruct (in_dec string_dec k (Dict.keys d)) as [H|H].
  - rewrite keys_set_in; assumption.
  - rewrite keys_set_notin by assumption.
    apply NoDup_app; [assumption | repeat constructor; simpl; tauto |].
    intros x Hx [<-|[]]. contradiction.
Qed.

Lemma wf_empty : Dict.wf (@Dict.empty V).
Proof. constructor. Qed.

Lemma get_app k d d' :
  Dict.get k (d ++ d')%list =
  match Dict.get k d with Some v => Some v | None => Dict.get k d' end.
Proof.
  induction d as [|[k0 v0] r IH]; simpl; [reflexivity|].
  destruct (String.eqb k k0); auto.
Qed.

End WithValue.

Lemma nodupb_NoDup (l : list string) : nodupb l = true <-> NoDup l.
Proof.
  induction l as [|x r IH]; simpl.
  - split; [constructor | reflexivity].
  - rewrite andb_true_iff, negb_true_iff, IH. split.
    + intros [H1 H2]. constructor; [|assumption].
      intros Hin. assert (existsb (String.eqb x) r = true) as E.
      { apply existsb_exists. exists x. split; [assumption|apply String.eqb_refl]. }
      congruence.
    + intros H. inversion H; subst. split; [|assumption].
      destruct (existsb (String.eqb x) r) eqn:E; [|reflexivity].
      apply existsb_exists in E as [y [Hy Hxy]].
      apply String.eqb_eq in Hxy. subst. contradiction.
Qed.

End DictFacts.

(** ** Loops *)

Lemma for_each_inv {A S : Type} (P : S -> Prop) (body : A -> S -> result S)
    (l : list A) (s : S) :
  P s ->
  (forall a s0, In a l -> P s0 -> P (state_of (body a s0))) ->
  P (state_of (for_each body l s)).
Proof.
  revert s. induction l as [|a r IH]; simpl; intros s Hs Hstep; [assumption|].
  pose proof (Hstep a s (or_introl eq_refl) Hs) as H1.
  destruct (body a s) as [s'|s']; simpl in *; [|assumption].
  apply IH; auto.
Qed.

Lemma fold_opt_inv {A S : Type} (P : S -> Prop) (body : S -> A -> option S)
    (l : list A) (s s' : S) :
  P s ->
  (forall a s0 s1, In a l -> P s0 -> body s0 a = Some s1 -> P s1) ->
  fold_opt body l s = Some s' -> P s'.
Proof.
  revert s. induction l as [|a r IH]; simpl; intros s Hs Hstep H.
  - inversion H; subst; assumption.
  - destruct (body s a) as [s1|] eqn:E; [|discriminate].
    apply (IH s1); eauto.
Qed.

Lemma fold_opt_app {A S : Type} (body : S -> A -> option S) (l l' : list A)
    (s : S) :
  fold_opt body (l ++ l') s =
  match fold_opt body l s with
  | Some s' => fold_opt body l' s'
  | None => None
  end.
Proof.
  revert s. induction l as [|a r IH]; simpl; intros s; [reflexivity|].
  destruct (body s a); auto.
Qed.

(** ** The assignment mapping *)

Module AssignFacts.
Import DictFacts.

Lemma set_set {V : Type} (k : string) (v v0 : V) (d : Dict.t V) :
  Dict.set k v (Dict.set k v0 d) = Dict.set k v d.
Proof.
  induction d as [|[k' v'] r IH]; simpl.
  - rewrite String.eqb_refl. reflexivity.
  - destruct (String.eqb k k') eqn:E; simpl.
    + rewrite String.eqb_refl. reflexivity.
    + rewrite E, IH. reflexivity.
Qed.

Lemma assigned_record_same (s d act : string) (a : Assignments) :
  assigned s d (record_assignment s d act a) = Some act.
Proof.
  unfold assigned, record_assignment.
  rewrite get_set_same, get_set_same. reflexivity.
Qed.

Lemma assigned_record_other (s d act s' d' : string) (a : Assignments) :
  (s', d') <> (s, d) ->
  assigned s' d' (record_assignment s d act a) = assigned s' d' a.
Proof.
  unfold assigned, record_assignment. intros N.
  destruct (string_dec s' s) as [->|Ns].
  - rewrite get_set_same.
    rewrite get_set_other by congruence.
    destruct (Dict.get s a); reflexivity.
  - rewrite get_set_other by assumption. reflexivity.
Qed.

Lemma keys_record (s d act k : string) (a : Assignments) :
  In k (Dict.keys (record_assignment s d act a)) <->
  k = s \/ In k (Dict.keys a).
Proof. unfold record_assignment. apply In_keys_set. Qed.

Lemma wf_record (s d act : string) (a : Assignments) :
  Dict.wf a -> Dict.wf (record_assignment s d act a).
Proof. apply wf_set. Qed.

Lemma In_keys_update {V : Type} (k : string) (d new : Dict.t V) :
  In k (Dict.keys (Dict.update d new)) <->
  In k (Dict.keys d) \/ In k (Dict.keys new).
Proof.
  unfold Dict.update. revert d.
  induction new as [|[k0 v0] r IH]; simpl; intros d.
  - tauto.
  - rewrite IH, In_keys_set. intuition (subst; auto).
Qed.

Lemma wf_update {V : Type} (d new : Dict.t V) :
  Dict.wf d -> Dict.wf (Dict.update d new).
Proof.
  unfold Dict.update. revert d.
  induction new as [|[k0 v0] r IH]; simpl; intros d W; [assumption|].
  apply IH, wf_set, W.
Qed.

Lemma get_update_old {V : Type} (k : string) (d new : Dict.t V) :
  ~ In k (Dict.keys new) ->
  Dict.get k (Dict.update d new) = Dict.get k d.
Proof.
  unfold Dict.update. revert d.
  induction new as [|[k0 v0] r IH]; simpl; intros d N; [reflexivity|].
  rewrite IH by tauto. apply get_set_other. intros ->. tauto.
Qed.

Lemma get_update_new {V : Type} (k : string) (v : V) (d new : Dict.t V) :
  Dict.wf new -> Dict.get k new = Some v ->
  Dict.get k (Dict.update d new) = Some v.
Proof.
  unfold Dict.update, Dict.wf. revert d.
  induction new as [|[k0 v0] r IH]; simpl; intros d W H; [discriminate|].
  inversion W; subst.
  destruct (String.eqb k k0) eqn:E.
  - apply String.eqb_eq in E. subst k0. inversion H; subst.
    change (Dict.get k (Dict.update (Dict.set k v d) r) = Some v).
    rewrite get_update_old by assumption. apply get_set_same.
  - apply IH; assumption.
Qed.

(** What one execution of lines 109-115 does to the state. *)
Lemma commit_target_cases (s d target : string) (flow : Z) (st : AllocState) :
  state_of (commit_target s d (target, flow) st) = st \/
  exists x act,
    0 < flow /\ target <> "sink" /\
    PyStr.split_first target = Some (x, act) /\
    assigned s d (group_assignments st) = None /\
    group_assignments (state_of (commit_target s d (target, flow) st)) =
      record_assignment s d act (group_assignments st) /\
    ((ledger_commit d act (ledger st) = None /\
      ledger (state_of (commit_target s d (target, flow) st)) = ledger st) \/
     ledger_commit d act (ledger st) =
       Some (ledger (state_of (commit_target s d (target, flow) st)))).
Proof.
  unfold commit_target.
  destruct ((0 <? flow) && negb (String.eqb target "sink")) eqn:Eg; [|auto].
  apply andb_true_iff in Eg as [Ef Et].
  apply Z.ltb_lt in Ef. apply negb_true_iff, String.eqb_neq in Et.
  destruct (PyStr.split_first target) as [[x act]|] eqn:Es; [|auto].
  destruct st as [ga cap]; simpl.
  destruct (Dict.mem s ga) eqn:Em.
  - destruct (Dict.get s ga) as [row|] eqn:Eg.
    2:{ apply mem_true, In_keys_get in Em as [v Hv]. congruence. }
    destruct (Dict.mem d row) eqn:Ed; [auto|].
    right. exists x, act. repeat split; auto.
    + unfold assigned. rewrite Eg. apply mem_false. assumption.
    + destruct (ledger_commit d act cap); simpl;
        unfold record_assignment; rewrite Eg; reflexivity.
    + destruct (ledger_commit d act cap); simpl; auto.
  - apply mem_false in Em. rewrite get_set_same. simpl.
    right. exists x, act. repeat split; auto.
    + unfold assigned. rewrite Em. reflexivity.
    + destruct (ledger_commit d act cap); simpl;
        unfold record_assignment; rewrite Em, set_set; reflexivity.
    + destruct (ledger_commit d act cap); simpl; auto.
Qed.

End AssignFacts.

(** ** The flow-extraction loop, lines 104-115 *)

Module CommitFacts.
Import DictFacts AssignFacts.

Lemma commit_node_student (node : string) (row : Dict.t Z) (st : AllocState) :
  (student_day_of node = None /\ state_of (commit_node (node, row) st) = st) \/
  (exists s d, student_day_of node = Some (s, d) /\
               commit_node (node, row) st = for_each (commit_target s d) row st).
Proof.
  unfold commit_node, student_day_of.
  destruct (negb (String.eqb node "source") && PyStr.has_underscore node);
    [|auto].
  destruct (PyStr.split node) as [|s [|d [|e l]]]; auto.
  destruct (PyStr.startswith_S s); [|auto].
  right. exists s, d. auto.
Qed.

(** Induction over the commitments of one pass: a property of the state
    that every single commitment preserves holds at the end of the loop,
    whether the loop ran to its end or was cut short by an exception. *)
Lemma commit_flows_inv (P : AllocState -> Prop) (fd : FlowDict)
    (st : AllocState) :
  P st ->
  (forall node row target flow s d x act st0 st1,
      In (node, row) fd -> In (target, flow) row ->
      student_day_of node = Some (s, d) ->
      0 < flow -> target <> "sink" ->
      PyStr.split_first target = Some (x, act) ->
      assigned s d (group_assignments st0) = None ->
      P st0 ->
      group_assignments st1 = record_assignment s d act (group_assignments st0) ->
      (ledger_commit d act (ledger st0) = None /\ ledger st1 = ledger st0) \/
      ledger_commit d act (ledger st0) = Some (ledger st1) ->
      P st1) ->
  P (state_of (commit_flows fd st)).
Proof.
  intros H0 Hstep. unfold commit_flows.
  apply for_each_inv; [assumption|].
  intros [node row] st0 Hin HP.
  destruct (commit_node_student node row st0) as [[_ ->]|[s [d [Hsd ->]]]];
    [assumption|].
  apply for_each_inv; [assumption|].
  intros [target flow] st1 Hin' HP'.
  destruct (commit_target_cases s d target flow st1)
    as [->|[x [act [Hf [Ht [Hs [Ha [Hg Hl]]]]]]]]; [assumption|].
  eapply (Hstep node row target flow s d x act st1); eauto.
Qed.

Lemma student_day_S (node s d : string) :
  student_day_of node = Some (s, d) ->
  PyStr.split node = [s; d] /\ PyStr.startswith_S s = true /\
  node <> "source".
Proof.
  unfold student_day_of.
  destruct (negb (String.eqb node "source")) eqn:En; simpl; [|discriminate].
  apply negb_true_iff, String.eqb_neq in En.
  destruct (PyStr.has_underscore node); [|discriminate].
  destruct (PyStr.split node) as [|s' [|d' [|e l]]]; try discriminate.
  destruct (PyStr.startswith_S s') eqn:ES; [|discriminate].
  intros H; inversion H; subst. auto.
Qed.

End CommitFacts.

Section AllocatorFacts.
Import DictFacts AssignFacts CommitFacts.

Variable maximum_flow : DiGraph -> string -> string -> option FlowDict.

(** Lifting a property of the state from one commitment to a whole tier:
    [P] may also depend on nothing but the state. *)
Lemma assign_levels_inv (P : AllocState -> Prop) (ps : Preferences)
    (levels : list string) (st st' : AllocState) :
  P st ->
  (forall level st0 G fd,
      In level levels -> P st0 ->
      create_priority_network ps (ledger st0) level = Some G ->
      maximum_flow G "source" "sink" = Some fd ->
      P (state_of (commit_flows fd st0))) ->
  assign_levels maximum_flow ps levels st = Some st' -> P st'.
Proof.
  intros H0 Hstep. unfold assign_levels.
  apply fold_opt_inv; [assumption|].
  intros level st0 st1 Hin HP. unfold assign_pref_level.
  destruct (create_priority_network ps (ledger st0) level) as [G|] eqn:EG;
    [|discriminate].
  destruct (maximum_flow G "source" "sink") as [fd|] eqn:Ef;
    intros H; inversion H; subst; eauto.
Qed.

Lemma group_keys_S (ps : Preferences) (label : string) (cap cap' : Ledger)
    (ga : Assignments) :
  assign_priority_group maximum_flow ps label cap = Some (ga, cap') ->
  forall k, In k (Dict.keys ga) -> PyStr.startswith_S k = true.
Proof.
  unfold assign_priority_group.
  destruct (assign_levels maximum_flow ps ["1st"; "2nd"; "3rd"]
                          (mkState Dict.empty cap)) as [st|] eqn:E;
    [|discriminate].
  intros H; inversion H; subst; clear H.
  revert E.
  apply (assign_levels_inv
           (fun st => forall k, In k (Dict.keys (group_assignments st)) ->
                                PyStr.startswith_S k = true)).
  - simpl. tauto.
  - intros level st0 G fd _ HP _ _.
    apply commit_flows_inv; [assumption|].
    intros node row target flow s d x act st1 st2 _ _ Hsd _ _ _ _ HP1 Hg _ k.
    rewrite Hg, keys_record. intros [->|Hk]; [|auto].
    apply student_day_S in Hsd. tauto.
Qed.

Lemma process_groups_keys_S (preferences : Preferences) (labels : list string)
    (acc acc' : Assignments * Ledger) :
  (forall k, In k (Dict.keys (fst acc)) -> PyStr.startswith_S k = true) ->
  process_groups maximum_flow preferences labels acc = Some acc' ->
  forall k, In k (Dict.keys (fst acc')) -> PyStr.startswith_S k = true.
Proof.
  intros H0. unfold process_groups.
  apply (fold_opt_inv
           (fun acc => forall k, In k (Dict.keys (fst acc)) ->
                                 PyStr.startswith_S k = true)); [assumption|].
  intros label [a cap] acc1 _ HP. unfold process_group. simpl.
  destruct (assign_priority_group maximum_flow
              (priority_group label preferences) label cap)
    as [[ga cap']|] eqn:E; [|discriminate].
  intros H; inversion H; subst; simpl. intros k.
  rewrite In_keys_update. intros [Hk|Hk]; [auto|].
  eapply group_keys_S; eauto.
Qed.

Lemma assign_allocate (G : DiGraph) (preferences : Preferences)
    (a : Assignments) (sat : Satisfaction) :
  assign_students_to_activities maximum_flow G preferences = Some (a, sat) ->
  exists cap, allocate maximum_flow preferences = Some (a, cap) /\
              preference_satisfaction preferences a = Some sat.
Proof.
  unfold assign_students_to_activities.
  destruct (allocate maximum_flow preferences) as [[a' cap]|]; [|discriminate].
  destruct a' as [|e r]; [discriminate|].
  destruct (preference_satisfaction preferences (e :: r)) as [sat'|] eqn:E;
    [|discriminate].
  intros H; inversion H; subst. exists cap. split; [reflexivity|assumption].
Qed.

(** C10. A student whose identifier does not begin with 'S' is in no
    assignment the allocator returns: the extraction of line 107 only
    records nodes whose student part starts with 'S'.  This holds for
    every answer of the flow solver. *)
Theorem non_S_student_never_assigned (G : DiGraph) (preferences : Preferences)
    (assignments : Assignments) (sat : Satisfaction) (student_id : string) :
  assign_students_to_activities maximum_flow G preferences
    = Some (assignments, sat) ->
  PyStr.startswith_S student_id = false ->
  Dict.get student_id assignments = None /\
  forall day, assigned student_id day assignments = None.
Proof.
  intros H HS. apply assign_allocate in H as [cap [H _]].
  assert (Dict.get student_id assignments = None) as E.
  { apply get_None_keys. intros Hin.
    unfold allocate in H.
    destruct (init_capacity preferences) as [cap0|]; [|discriminate].
    assert (forall k, In k (Dict.keys (fst (@Dict.empty (Dict.t string), cap0)))
                      -> PyStr.startswith_S k = true) as H0
        by (simpl; tauto).
    pose proof (process_groups_keys_S preferences _ _ _ H0 H
                  student_id Hin) as HT.
    congruence. }
  split; [assumption|]. intros day. unfold assigned. rewrite E. reflexivity.
Qed.

End AllocatorFacts.


(** ** Networks *)

Module GraphFacts.
Import DictFacts.

Lemma successors_add_node (n u : string) (G : DiGraph) :
  successors (add_node n G) u = successors G u.
Proof.
  unfold successors, add_node.
  destruct (Dict.mem n G); [reflexivity|].
  rewrite get_app. destruct (Dict.get u G); [reflexivity|].
  simpl. destruct (String.eqb u n); reflexivity.
Qed.

Lemma edge_capacity_successors (G : DiGraph) (u v : string) :
  edge_capacity G u v = option_map capacity (Dict.get v (successors G u)).
Proof.
  unfold edge_capacity, successors. destruct (Dict.get u G); reflexivity.
Qed.

Lemma edge_capacity_add_edge (u v u' v' : string) (c w : Z) (G : DiGraph) :
  edge_capacity (add_edge u v c w G) u' v' =
  if String.eqb u' u && String.eqb v' v then Some c
  else edge_capacity G u' v'.
Proof.
  rewrite (edge_capacity_successors G).
  unfold add_edge, edge_capacity.
  destruct (String.eqb u' u) eqn:Eu; simpl.
  - apply String.eqb_eq in Eu. subst u'. rewrite get_set_same.
    rewrite !successors_add_node.
    destruct (String.eqb v' v) eqn:Ev.
    + apply String.eqb_eq in Ev. subst v'. rewrite get_set_same. reflexivity.
    + apply String.eqb_neq in Ev. rewrite get_set_other by assumption.
      reflexivity.
  - apply String.eqb_neq in Eu. rewrite get_set_other by assumption.
    fold (successors (add_node v (add_node u G)) u').
    change (match Dict.get u' (add_node v (add_node u G)) with
            | Some adj => option_map capacity (Dict.get v' adj)
            | None => None
            end)
      with (edge_capacity (add_node v (add_node u G)) u' v').
    rewrite edge_capacity_successors, !successors_add_node. reflexivity.
Qed.

Lemma edge_capacity_empty (u v : string) :
  edge_capacity empty_network u v = None.
Proof.
  unfold empty_network. rewrite edge_capacity_successors.
  rewrite !successors_add_node. reflexivity.
Qed.

Section Builder.
Variables (ps : Preferences) (cap : Ledger) (level : string).

Lemma add_student_day_edges (sid : string) (st : Student) (G G' : DiGraph)
    (item : string * Prefs) :
  In (sid, st) ps -> In item (days st) ->
  only_network_edges ps cap level G ->
  add_student_day cap level sid G item = Some G' ->
  only_network_edges ps cap level G'.
Proof.
  intros Hs Hd HG. destruct item as [day prefs]. unfold add_student_day.
  destruct (prefs_get (level ++ "_preference") prefs) as [act|] eqn:Ep;
    [|discriminate].
  destruct (remaining day act cap) as [r|] eqn:Er; [|discriminate].
  intros H; inversion H; subst; clear H. intros u v c.
  rewrite edge_capacity_add_edge.
  destruct (String.eqb u (PyStr.join_ day act) && String.eqb v "sink") eqn:E1.
  { apply andb_true_iff in E1 as [E1 E2].
    apply String.eqb_eq in E1, E2. subst. intros H; inversion H; subst.
    eapply sink_edge; eauto. }
  clear E1.
  assert (edge_capacity (add_edge "source" (PyStr.join_ sid day) 1 0 G) u v
          = Some c -> network_edge ps cap level u v c) as Hsrc.
  { rewrite edge_capacity_add_edge.
    destruct (String.eqb u "source" && String.eqb v (PyStr.join_ sid day))
      eqn:E2.
    - apply andb_true_iff in E2 as [E2 E3].
      apply String.eqb_eq in E2, E3. subst. intros H; inversion H; subst.
      eapply source_edge; eauto.
    - apply HG. }
  destruct (0 <? r) eqn:Epos; [|exact Hsrc].
  rewrite edge_capacity_add_edge.
  destruct (String.eqb u (PyStr.join_ sid day) &&
            String.eqb v (PyStr.join_ day act)) eqn:E3; [|exact Hsrc].
  apply andb_true_iff in E3 as [E3 E4].
  apply String.eqb_eq in E3, E4. subst. intros H; inversion H; subst.
  apply Z.ltb_lt in Epos. eapply choice_edge; eauto.
Qed.

Lemma create_priority_network_edges (G : DiGraph) :
  create_priority_network ps cap level = Some G -> only_network_edges ps cap level G.
Proof.
  unfold create_priority_network.
  apply (fold_opt_inv (only_network_edges ps cap level)).
  - intros u v c. rewrite edge_capacity_empty. discriminate.
  - intros [sid st] G0 G1 Hin HG0. unfold add_student. simpl.
    apply (fold_opt_inv (only_network_edges ps cap level)); [assumption|].
    intros item G2 G3 Hitem HG2. eapply add_student_day_edges; eauto.
Qed.

Lemma add_student_day_keeps (u v sid : string) (G G' : DiGraph)
    (item : string * Prefs) :
  v <> "sink" ->
  keeps_unit_edge u v G ->
  add_student_day cap level sid G item = Some G' ->
  keeps_unit_edge u v G'.
Proof.
  intros Hv HG. destruct item as [day prefs]. unfold add_student_day.
  destruct (prefs_get (level ++ "_preference") prefs) as [act|];
    [|discriminate].
  destruct (remaining day act cap) as [r|]; [|discriminate].
  intros H; inversion H; subst; clear H. unfold keeps_unit_edge in *.
  rewrite edge_capacity_add_edge.
  apply String.eqb_neq in Hv. rewrite Hv, andb_false_r.
  assert (edge_capacity (add_edge "source" (PyStr.join_ sid day) 1 0 G) u v
          = Some 1) as Hsrc.
  { rewrite edge_capacity_add_edge.
    destruct (String.eqb u "source" && String.eqb v (PyStr.join_ sid day));
      [reflexivity | assumption]. }
  destruct (0 <? r); [|exact Hsrc].
  rewrite edge_capacity_add_edge.
  destruct (String.eqb u (PyStr.join_ sid day) &&
            String.eqb v (PyStr.join_ day act)); [reflexivity | exact Hsrc].
Qed.

Lemma fold_days_keeps (u v sid : string) (items : Dict.t Prefs)
    (G G' : DiGraph) :
  v <> "sink" -> keeps_unit_edge u v G ->
  fold_opt (add_student_day cap level sid) items G = Some G' ->
  keeps_unit_edge u v G'.
Proof.
  intros Hv HG. apply (fold_opt_inv (keeps_unit_edge u v)); [assumption|].
  intros item G0 G1 _ HG0. eapply add_student_day_keeps; eauto.
Qed.

Lemma fold_students_keeps (u v : string) (students : Preferences)
    (G G' : DiGraph) :
  v <> "sink" -> keeps_unit_edge u v G ->
  fold_opt (add_student cap level) students G = Some G' ->
  keeps_unit_edge u v G'.
Proof.
  intros Hv HG. apply (fold_opt_inv (keeps_unit_edge u v)); [assumption|].
  intros [sid st] G0 G1 _ HG0. unfold add_student. simpl.
  eapply fold_days_keeps; eauto.
Qed.

(** What processing one student-day leaves in the network. *)
Lemma add_student_day_adds (sid day : string) (prefs : Prefs)
    (G G' : DiGraph) :
  add_student_day cap level sid G (day, prefs) = Some G' ->
  keeps_unit_edge "source" (PyStr.join_ sid day) G' /\
  forall act r,
    prefs_get (level ++ "_preference") prefs = Some act ->
    remaining day act cap = Some r -> 0 < r ->
    keeps_unit_edge (PyStr.join_ sid day) (PyStr.join_ day act) G'.
Proof.
  unfold add_student_day, keeps_unit_edge.
  destruct (prefs_get (level ++ "_preference") prefs) as [act|];
    [|discriminate].
  destruct (remaining day act cap) as [r|] eqn:Er; [|discriminate].
  intros H; inversion H; subst; clear H.
  assert (String.eqb (PyStr.join_ sid day) "sink" = false) as N1
      by (apply String.eqb_neq, PyStrFacts.join_not_sink).
  assert (String.eqb (PyStr.join_ day act) "sink" = false) as N2
      by (apply String.eqb_neq, PyStrFacts.join_not_sink).
  split.
  - rewrite edge_capacity_add_edge, N1, andb_false_r.
    destruct (0 <? r).
    + rewrite edge_capacity_add_edge.
      destruct (String.eqb "source" (PyStr.join_ sid day)) eqn:E.
      * apply String.eqb_eq in E. symmetry in E.
        exfalso. exact (PyStrFacts.join_not_source _ _ E).
      * simpl. rewrite edge_capacity_add_edge, !String.eqb_refl. reflexivity.
    + rewrite edge_capacity_add_edge, !String.eqb_refl. reflexivity.
  - intros act' r' Ha Hr Hpos. inversion Ha; subst act'.
    rewrite Er in Hr. inversion Hr; subst r'.
    apply Z.ltb_lt in Hpos. rewrite Hpos.
    rewrite edge_capacity_add_edge, N2, andb_false_r.
    rewrite edge_capacity_add_edge, !String.eqb_refl. reflexivity.
Qed.

End Builder.
End GraphFacts.

(** ** The network of a pass and the assignment mapping *)

Lemma create_priority_network_has_edges (ps : Preferences) (cap : Ledger)
    (level : string) (G : DiGraph) (sid : string) (st : Student)
    (day : string) (prefs : Prefs) :
  create_priority_network ps cap level = Some G ->
  In (sid, st) ps -> In (day, prefs) (days st) ->
  edge_capacity G "source" (PyStr.join_ sid day) = Some 1 /\
  forall act r,
    prefs_get (level ++ "_preference") prefs = Some act ->
    remaining day act cap = Some r -> 0 < r ->
    edge_capacity G (PyStr.join_ sid day) (PyStr.join_ day act) = Some 1.
Proof.
  unfold create_priority_network. intros HG Hs Hd.
  apply in_split in Hs as [l1 [l2 ->]].
  rewrite fold_opt_app in HG.
  destruct (fold_opt (add_student cap level) l1 empty_network) as [G1|];
    [|discriminate].
  cbn [fold_opt] in HG. unfold add_student at 1 in HG. cbn [fst snd] in HG.
  apply in_split in Hd as [d1 [d2 Ed]]. rewrite Ed in HG.
  rewrite fold_opt_app in HG.
  destruct (fold_opt (add_student_day cap level sid) d1 G1) as [G2|];
    [|discriminate].
  cbn [fold_opt] in HG.
  destruct (add_student_day cap level sid G2 (day, prefs)) as [G3|] eqn:E3;
    [|discriminate].
  destruct (fold_opt (add_student_day cap level sid) d2 G3) as [G4|] eqn:E4;
    [|discriminate].
  destruct (GraphFacts.add_student_day_adds _ _ _ _ _ _ _ E3) as [Hsrc Hch].
  split.
  - eapply GraphFacts.fold_students_keeps; [| |exact HG].
    + apply PyStrFacts.join_not_sink.
    + eapply GraphFacts.fold_days_keeps; [| |exact E4]; auto.
      apply PyStrFacts.join_not_sink.
  - intros act r Ha Hr Hpos.
    eapply GraphFacts.fold_students_keeps; [| |exact HG].
    + apply PyStrFacts.join_not_sink.
    + eapply GraphFacts.fold_days_keeps; [| |exact E4]; eauto.
      apply PyStrFacts.join_not_sink.
Qed.

(** C1, as the code has it.  [create_priority_network] is not given the
    assignment mapping: the network of a pass holds the source edge of every
    (student, day) pair of the tier, and the pair's outgoing edge whenever
    the activity of the level has seats left, whether the pair is already
    committed or not.  A committed pair is protected at extraction time
    only: flow on its outgoing edge changes neither the assignments nor the
    ledger. *)
Theorem committed_pairs_stay_in_network (ps : Preferences) (cap : Ledger)
    (level : string) (G : DiGraph) (sid : string) (st : Student)
    (day : string) (prefs : Prefs) :
  create_priority_network ps cap level = Some G ->
  In (sid, st) ps -> In (day, prefs) (days st) ->
  edge_capacity G "source" (PyStr.join_ sid day) = Some 1 /\
  (forall act r,
      prefs_get (level ++ "_preference") prefs = Some act ->
      remaining day act cap = Some r -> 0 < r ->
      edge_capacity G (PyStr.join_ sid day) (PyStr.join_ day act) = Some 1) /\
  (forall (state : AllocState) (committed : string) (item : string * Z),
      assigned sid day (group_assignments state) = Some committed ->
      state_of (commit_target sid day item state) = state).
Proof.
  intros HG Hs Hd.
  destruct (create_priority_network_has_edges _ _ _ _ _ _ _ _ HG Hs Hd)
    as [H1 H2].
  repeat split; [assumption | assumption |].
  intros state committed [target flow] Ha.
  destruct (AssignFacts.commit_target_cases sid day target flow state)
    as [E|[x [act [_ [_ [_ [Hn _]]]]]]]; [assumption | congruence].
Qed.

(** ** The capacity ledger *)

Module LedgerFacts.
Import DictFacts.

Lemma ledger_commit_remaining (day act : string) (cap cap' : Ledger) :
  ledger_commit day act cap = Some cap' ->
  exists r, remaining day act cap = Some r /\
            remaining day act cap' = Some (r - 1) /\
            forall d a, (d, a) <> (day, act) ->
                        remaining d a cap' = remaining d a cap.
Proof.
  unfold ledger_commit, remaining.
  destruct (Dict.get day cap) as [row|] eqn:Ed; [|discriminate].
  destruct (Dict.get act row) as [r|] eqn:Ea; [|discriminate].
  intros H; inversion H; subst; clear H. exists r. split; [reflexivity|].
  split.
  - rewrite !get_set_same. reflexivity.
  - intros d a N. destruct (string_dec d day) as [->|Nd].
    + rewrite get_set_same, Ed. apply get_set_other. congruence.
    + rewrite get_set_other by assumption. reflexivity.
Qed.

Lemma ledger_commit_defined (day act : string) (cap : Ledger) (r : Z) :
  remaining day act cap = Some r -> exists cap', ledger_commit day act cap = Some cap'.
Proof.
  unfold ledger_commit, remaining.
  destruct (Dict.get day cap) as [row|]; [|discriminate].
  intros ->. eauto.
Qed.

End LedgerFacts.

(** C8, as the code has it.  The commit of line 115 takes exactly one seat
    off the (day, activity) entry and leaves every other entry alone; it
    does not test the value it decrements, so it succeeds at every
    remaining count, zero included.  (It raises only the [KeyError] of a
    missing entry.) *)
Theorem ledger_commit_decrements (day activity : string) (cap : Ledger) (r : Z) :
  remaining day activity cap = Some r ->
  exists cap',
    ledger_commit day activity cap = Some cap' /\
    remaining day activity cap' = Some (r - 1) /\
    forall d a, (d, a) <> (day, activity) ->
                remaining d a cap' = remaining d a cap.
Proof.
  intros Hr.
  destruct (LedgerFacts.ledger_commit_defined _ _ _ _ Hr) as [cap' Hc].
  exists cap'. split; [assumption|].
  destruct (LedgerFacts.ledger_commit_remaining _ _ _ _ Hc) as [r' [H1 [H2 H3]]].
  rewrite Hr in H1. inversion H1; subst. auto.
Qed.

(** ** A student without a record for a configured day *)

Lemma fold_opt_fails {A S : Type} (body : S -> A -> option S) (l : list A)
    (a : A) (s : S) :
  In a l -> (forall s0, body s0 a = None) -> fold_opt body l s = None.
Proof.
  revert s. induction l as [|b r IH]; simpl; intros s Hin Hf; [contradiction|].
  destruct Hin as [->|Hin].
  - rewrite Hf. reflexivity.
  - destruct (body s b); [auto | reflexivity].
Qed.

Section MissingDay.
Variable maximum_flow : DiGraph -> string -> string -> option FlowDict.

(** C6, on the code.  The initialisation of the ledger (line 167) indexes
    [student_data['days'][day]] for every configured day and every student:
    a student without a record for one of the days makes it raise
    [KeyError], the outer handler catches it and the function returns
    [(None, None)].  Nobody is assigned. *)
Theorem missing_day_aborts_run (G : DiGraph) (preferences : Preferences)
    (student_id : string) (data : Student) (day : string) :
  In (student_id, data) preferences ->
  In day DAYS ->
  Dict.get day (days data) = None ->
  assign_students_to_activities maximum_flow G preferences = None.
Proof.
  intros Hs Hd Hg.
  assert (init_capacity preferences = None) as E.
  { unfold init_capacity. apply (fold_opt_fails _ _ day); [assumption|].
    intros cap. unfold init_day.
    apply (fold_opt_fails _ _ (student_id, data)); [assumption|].
    intros cap0. unfold init_student. simpl. rewrite Hg. reflexivity. }
  unfold assign_students_to_activities, allocate. rewrite E. reflexivity.
Qed.

End MissingDay.

(** ** What a feasible flow gives *)

Module FlowFacts.
Import DictFacts.

Section Feasible.
Variables (G : DiGraph) (s t : string) (fd : FlowDict).
Hypothesis feasible : feasible_flow G s t fd = true.

Lemma feasible_parts :
  NoDup (Dict.keys fd) /\
  (forall u row, In (u, row) fd -> NoDup (Dict.keys row)) /\
  (forall u row v f, In (u, row) fd -> In (v, f) row ->
                     edge_flow_ok G u (v, f) = true) /\
  (forall x, In x (flow_nodes fd) -> x <> s -> x <> t ->
             flow_in fd x = flow_out fd x).
Proof.
  unfold feasible_flow in feasible.
  apply andb_true_iff in feasible as [H123 H4].
  apply andb_true_iff in H123 as [H12 H3].
  apply andb_true_iff in H12 as [H1 H2].
  rewrite forallb_forall in H2, H3, H4.
  split; [apply nodupb_NoDup; assumption|].
  split; [intros u row Hin; apply nodupb_NoDup; exact (H2 _ Hin)|].
  split.
  - intros u row v f Hin Hin'. specialize (H3 _ Hin). simpl in H3.
    rewrite forallb_forall in H3. exact (H3 _ Hin').
  - intros x Hx Ns Nt. specialize (H4 _ Hx).
    apply String.eqb_neq in Ns, Nt. rewrite Ns, Nt in H4. simpl in H4.
    apply Z.eqb_eq. assumption.
Qed.


Lemma feasible_edge (u v : string) (row : Dict.t Z) (f : Z) :
  In (u, row) fd -> In (v, f) row -> 0 < f ->
  exists c, edge_capacity G u v = Some c /\ f <= c.
Proof.
  intros H1 H2 Hpos. destruct feasible_parts as [_ [_ [H _]]].
  specialize (H _ _ _ _ H1 H2). unfold edge_flow_ok in H. simpl in H.
  apply orb_true_iff in H as [H|H].
  - apply Z.eqb_eq in H. lia.
  - apply andb_true_iff in H as [_ H].
    destruct (edge_capacity G u v) as [c|]; [|discriminate].
    apply Z.leb_le in H. eauto.
Qed.

End Feasible.
End FlowFacts.

(** ** One pass *)

Module PassFacts.
Import DictFacts AssignFacts CommitFacts.

Lemma level_choice (level act : string) (prefs : Prefs) :
  In level LEVELS ->
  prefs_get (level ++ "_preference") prefs = Some act ->
  act = pref_1st prefs \/ act = pref_2nd prefs \/ act = pref_3rd prefs.
Proof.
  unfold LEVELS. simpl.
  intros [<-|[<-|[<-|[]]]]; cbv; intros H; inversion H; auto.
Qed.

Section Pass.
Variables (ps : Preferences) (cap : Ledger) (level : string)
          (G : DiGraph) (fd : FlowDict).
Hypothesis network : create_priority_network ps cap level = Some G.
Hypothesis feasible : feasible_flow G "source" "sink" fd = true.

(** A flow that the extraction loop turns into a commitment runs along
    the edge that the student's own choice of the level put into the
    network, and that edge is only there when seats remained. *)
Lemma committed_edge (node target : string) (row : Dict.t Z) (flow : Z)
    (s d x act : string) :
  In (node, row) fd -> In (target, flow) row ->
  student_day_of node = Some (s, d) ->
  0 < flow -> target <> "sink" ->
  PyStr.split_first target = Some (x, act) ->
  PyStr.has_underscore d = false /\
  target = PyStr.join_ d act /\
  exists st prefs r,
    In (s, st) ps /\ In (d, prefs) (days st) /\
    prefs_get (level ++ "_preference") prefs = Some act /\
    remaining d act cap = Some r /\ 0 < r.
Proof.
  intros Hn Ht Hsd Hpos Hsink Hsplit.
  destruct (FlowFacts.feasible_edge _ _ _ _ feasible _ _ _ _ Hn Ht Hpos)
    as [c [He _]].
  apply student_day_S in Hsd as [Hsp [_ Hsrc]].
  pose proof (GraphFacts.create_priority_network_edges _ _ _ _ network
                _ _ _ He) as HE.
  inversion HE as [sid st day prefs Hs Hd E1
                  |sid st day prefs activity r Hs Hd Hp Hr Hr0 E1 E2
                  |sid st day prefs activity r Hs Hd Hp Hr E1 E2];
    subst.
  - congruence.
  - destruct (PyStrFacts.split_join_two _ _ _ _ Hsp) as [-> [-> [_ Hu]]].
    rewrite (PyStrFacts.split_first_join _ _ Hu) in Hsplit.
    inversion Hsplit; subst.
    split; [assumption|]. split; [reflexivity|].
    exists st, prefs, r. auto.
  - congruence.
Qed.

End Pass.
End PassFacts.

(** ** Counting assignments *)

Module CountFacts.
Import DictFacts AssignFacts.

Lemma dict_sum_set {V : Type} (f : string -> V -> Z) (k : string) (v : V)
    (d : Dict.t V) :
  dict_sum f (Dict.set k v d) =
  dict_sum f d
  - match Dict.get k d with Some v0 => f k v0 | None => 0 end
  + f k v.
Proof.
  induction d as [|[k' v'] r IH]; simpl.
  - lia.
  - destruct (String.eqb k k') eqn:E; simpl.
    + apply String.eqb_eq in E. subst. lia.
    + rewrite IH. lia.
Qed.

Lemma dict_sum_app {V : Type} (f : string -> V -> Z) (d d' : Dict.t V) :
  dict_sum f (d ++ d')%list = dict_sum f d + dict_sum f d'.
Proof.
  unfold dict_sum. induction d as [|kv r IH]; simpl; [reflexivity|].
  rewrite IH. lia.
Qed.

Lemma dict_sum_nonneg {V : Type} (f : string -> V -> Z) (d : Dict.t V) :
  (forall k v, 0 <= f k v) -> 0 <= dict_sum f d.
Proof.
  intros H. induction d as [|[k v] r IH]; simpl; [lia|].
  specialize (H k v). lia.
Qed.

Lemma committed_count_nonneg (day act : string) (a : Assignments) :
  0 <= committed_count day act a.
Proof.
  unfold committed_count. apply dict_sum_nonneg. intros _ row.
  apply dict_sum_nonneg. intros d a0.
  destruct (String.eqb d day && String.eqb a0 act); lia.
Qed.

(** Recording a new pair adds one to the count of its activity-day and
    leaves the other counts alone. *)
Lemma committed_count_record (s d act day activity : string)
    (a : Assignments) :
  assigned s d a = None ->
  committed_count day activity (record_assignment s d act a) =
  committed_count day activity a
  + (if String.eqb d day && String.eqb act activity then 1 else 0).
Proof.
  unfold committed_count, record_assignment, assigned. intros Hn.
  rewrite dict_sum_set.
  destruct (Dict.get s a) as [row|].
  - rewrite dict_sum_set, Hn. lia.
  - simpl. lia.
Qed.

Lemma committed_count_update (day act : string) (a new : Assignments) :
  Dict.wf new ->
  (forall k, In k (Dict.keys new) -> ~ In k (Dict.keys a)) ->
  committed_count day act (Dict.update a new) =
  committed_count day act a + committed_count day act new.
Proof.
  unfold committed_count, Dict.update, Dict.wf. revert a.
  induction new as [|[k row] r IH]; simpl; intros a W Hd; [lia|].
  inversion W; subst.
  rewrite IH; [| assumption |].
  - rewrite dict_sum_set.
    assert (Dict.get k a = None) as ->
        by (apply get_None_keys; apply Hd; auto).
    lia.
  - intros k' Hk'. rewrite In_keys_set. intros [->|Hin]; [contradiction|].
    apply (Hd k'); auto.
Qed.

Lemma entry_record (s d act s' d' act' : string) (a : Assignments) :
  entry s' d' act' (record_assignment s d act a) ->
  (s' = s /\ d' = d /\ act' = act) \/ entry s' d' act' a.
Proof.
  unfold entry, record_assignment. intros [row [H1 H2]].
  apply In_set in H1 as [[-> ->]|H1]; [|right; eauto].
  apply In_set in H2 as [[-> ->]|H2]; [auto|].
  right. destruct (Dict.get s a) as [row0|] eqn:E; [|contradiction].
  exists row0. split; [apply get_In|]; assumption.
Qed.

Lemma entry_update (s d act : string) (a new : Assignments) :
  entry s d act (Dict.update a new) -> entry s d act a \/ entry s d act new.
Proof.
  unfold entry, Dict.update. revert a.
  induction new as [|[k row0] r IH]; simpl; intros a [row [H1 H2]].
  - left; eauto.
  - destruct (IH (Dict.set k row0 a)) as [[row' [H3 H4]]|[row' [H3 H4]]];
      [eauto | |right; eauto].
    apply In_set in H3 as [[-> ->]|H3]; [right|left]; eauto.
Qed.

Lemma entry_assigned (s d act : string) (a : Assignments) :
  Dict.wf a -> (forall k row, In (k, row) a -> Dict.wf row) ->
  entry s d act a -> assigned s d a = Some act.
Proof.
  intros W Wr [row [H1 H2]]. unfold assigned.
  rewrite (In_get _ _ _ W H1). apply In_get; eauto.
Qed.

Lemma assigned_entry (s d act : string) (a : Assignments) :
  assigned s d a = Some act -> entry s d act a.
Proof.
  unfold assigned, entry. destruct (Dict.get s a) as [row|] eqn:E;
    [|discriminate].
  intros H. exists row. split; apply get_In; assumption.
Qed.

Lemma rows_wf_record (s d act : string) (a : Assignments) :
  (forall k row, In (k, row) a -> Dict.wf row) ->
  forall k row, In (k, row) (record_assignment s d act a) -> Dict.wf row.
Proof.
  unfold record_assignment. intros H k row Hin.
  apply In_set in Hin as [[-> ->]|Hin]; [|eauto].
  apply wf_set. destruct (Dict.get s a) as [row0|] eqn:E.
  - apply get_In in E. eauto.
  - apply wf_empty.
Qed.

Lemma rows_wf_update (a new : Assignments) :
  (forall k row, In (k, row) a -> Dict.wf row) ->
  (forall k row, In (k, row) new -> Dict.wf row) ->
  forall k row, In (k, row) (Dict.update a new) -> Dict.wf row.
Proof.
  unfold Dict.update. revert a.
  induction new as [|[k0 row0] r IH]; simpl; intros a Ha Hn k row Hin;
    [eauto|].
  apply (IH (Dict.set k0 row0 a)) with (k := k); [| |assumption].
  - intros k' row' H. apply In_set in H as [[-> ->]|H]; eauto.
  - eauto.
Qed.

End CountFacts.

(** ** Seats taken by one pass *)

Module SeatFacts.
Import DictFacts AssignFacts CommitFacts.

Lemma total_nonneg {A : Type} (w : A -> Z) (l : list A) :
  (forall a, In a l -> 0 <= w a) -> 0 <= total w l.
Proof.
  induction l as [|a r IH]; simpl; intros H; [lia|].
  pose proof (H a (or_introl eq_refl)).
  assert (0 <= total w r) by (apply IH; intros; apply H; auto). lia.
Qed.







(** *** Flow out of a node *)





(** *** Labels *)





End SeatFacts.

(** ** The initial ledger *)

Module InitFacts.
Import DictFacts.

Lemma get_map_const {V : Type} (v row : V) (d : string) (l : list string) :
  Dict.get d (map (fun k => (k, v)) l) = Some row -> row = v.
Proof.
  induction l as [|k r IH]; simpl; [discriminate|].
  destruct (String.eqb d k); [congruence | assumption].
Qed.

Lemma init_activity_fresh (day act : string) (cap cap' : Ledger) :
  In day DAYS -> fresh_ledger cap ->
  init_activity day cap act = Some cap' -> fresh_ledger cap'.
Proof.
  intros Hday Hcap. unfold init_activity.
  destruct (Dict.get day cap) as [row|] eqn:Er; [|discriminate].
  destruct (Dict.mem act row); intros H; inversion H; subst; clear H;
    [assumption|].
  intros d a r. unfold remaining.
  destruct (string_dec d day) as [->|Nd].
  - rewrite get_set_same.
    destruct (string_dec a act) as [->|Na].
    + rewrite get_set_same. intros E; inversion E. auto.
    + rewrite get_set_other by assumption. intros E.
      apply (Hcap day a r). unfold remaining. rewrite Er. assumption.
  - rewrite get_set_other by assumption. apply Hcap.
Qed.

Lemma init_capacity_fresh (preferences : Preferences) (cap0 : Ledger) :
  init_capacity preferences = Some cap0 -> fresh_ledger cap0.
Proof.
  unfold init_capacity. apply (fold_opt_inv fresh_ledger).
  - intros d a r. unfold remaining.
    destruct (Dict.get d (map (fun day => (day, Dict.empty)) DAYS))
      as [row|] eqn:E; [|discriminate].
    apply get_map_const in E. subst. discriminate.
  - intros day cap cap' Hday Hcap. unfold init_day.
    apply (fold_opt_inv fresh_ledger); [assumption|].
    intros [sid stu] cap1 cap2 _ Hcap1. unfold init_student. cbn [fst snd].
    destruct (Dict.get day (days stu)) as [prefs|]; [|discriminate].
    apply (fold_opt_inv fresh_ledger); [assumption|].
    intros act cap3 cap4 _ Hcap3. apply init_activity_fresh; assumption.
Qed.

End InitFacts.

(** ** One tier *)

Section Verified.
Import DictFacts AssignFacts CommitFacts CountFacts.

Variable maximum_flow : DiGraph -> string -> string -> option FlowDict.

(** The contract of the solver: what it returns is a feasible flow of the
    network it was given. *)
Hypothesis maximum_flow_feasible :
  forall G fd, maximum_flow G "source" "sink" = Some fd ->
               feasible_flow G "source" "sink" fd = true.

Lemma tier_inv_start (ps : Preferences) (cap0 : Ledger) :
  tier_inv ps cap0 (mkState Dict.empty cap0).
Proof.
  constructor; simpl.
  - apply wf_empty.
  - intros k row [].
  - intros k [].
  - intros s d act [row [[] _]].
  - intros d act. destruct (remaining d act cap0) as [r0|] eqn:E.
    + f_equal. unfold committed_count. simpl. lia.
    + auto.
  - intros s d act [row [[] _]].
Qed.

Lemma pass_keeps_tier_inv (ps : Preferences) (cap0 : Ledger)
    (st : AllocState) (level : string) (G : DiGraph) (fd : FlowDict) :
  In level LEVELS ->
  tier_inv ps cap0 st ->
  create_priority_network ps (ledger st) level = Some G ->
  feasible_flow G "source" "sink" fd = true ->
  tier_inv ps cap0 (state_of (commit_flows fd st)).
Proof.
  intros Hlevel Hst HG Hfeas.
  apply commit_flows_inv; [assumption|].
  intros node row target flow s d x act st0 st1
         Hn Ht Hsd Hpos Hsink Hsplit Hnew Hinv Hga Hled.
  destruct (PassFacts.committed_edge _ _ _ _ _ HG Hfeas _ _ _ _ _ _ _ _
              Hn Ht Hsd Hpos Hsink Hsplit)
    as [Hd [Htarget [stu [prefs [r [Hs [Hday [Hp [Hr Hr0]]]]]]]]].
  (* the ledger knows the activity-day, so line 115 does not raise *)
  pose proof (ti_accounts _ _ _ Hst d act) as Hacc.
  destruct (remaining d act cap0) as [r0|] eqn:E0;
    [|destruct Hacc; congruence].
  pose proof (ti_accounts _ _ _ Hinv d act) as Hacc0. rewrite E0 in Hacc0.
  destruct (LedgerFacts.ledger_commit_defined _ _ _ _ Hacc0) as [cap1 Hc].
  destruct Hled as [[Hnone _]|Hsome]; [congruence|].
  rewrite Hc in Hsome. inversion Hsome as [Hcap1]. clear Hsome.
  destruct (LedgerFacts.ledger_commit_remaining _ _ _ _ Hc)
    as [r1 [Hr1 [Hr1' Hother]]].
  rewrite Hacc0 in Hr1. inversion Hr1; subst r1. clear Hr1.
  constructor.
  - rewrite Hga. apply wf_record, (ti_wf _ _ _ Hinv).
  - rewrite Hga. apply rows_wf_record, (ti_rows _ _ _ Hinv).
  - intros k. rewrite Hga, keys_record. intros [->|Hk].
    + eauto.
    + apply (ti_keys _ _ _ Hinv). assumption.
  - intros s' d' act'. rewrite Hga. intros He.
    apply entry_record in He as [[-> [-> ->]]|He].
    + exists stu, prefs, level. auto.
    + apply (ti_justified _ _ _ Hinv). assumption.
  - intros d' a'. rewrite Hga, <- Hcap1.
    rewrite (committed_count_record _ _ _ _ _ _ Hnew).
    pose proof (ti_accounts _ _ _ Hinv d' a') as Hacc'.
    destruct (string_dec d' d) as [->|Nd].
    + destruct (string_dec a' act) as [->|Na].
      * rewrite E0, Hr1', !String.eqb_refl. simpl. f_equal. lia.
      * rewrite Hother by congruence.
        assert (String.eqb act a' = false) as ->
            by (apply String.eqb_neq; congruence).
        rewrite andb_false_r.
        destruct (remaining d a' cap0); [rewrite Hacc'; f_equal; lia|].
        destruct Hacc'. split; [assumption | lia].
    + rewrite Hother by congruence.
      assert (String.eqb d d' = false) as ->
          by (apply String.eqb_neq; congruence).
      simpl.
      destruct (remaining d' a' cap0); [rewrite Hacc'; f_equal; lia|].
      destruct Hacc'. split; [assumption | lia].
  - intros s' d' act'. rewrite Hga. intros He.
    apply entry_record in He as [[-> [-> ->]]|He].
    + exists r0. split; [assumption|].
      rewrite Hacc in Hr. inversion Hr.
      pose proof (committed_count_nonneg d act (group_assignments st)). lia.
    + exact (ti_seat _ _ _ Hinv _ _ _ He).
Qed.

Lemma assign_levels_tier_inv (ps : Preferences) (cap0 : Ledger)
    (levels : list string) (st st' : AllocState) :
  (forall level, In level levels -> In level LEVELS) ->
  tier_inv ps cap0 st ->
  assign_levels maximum_flow ps levels st = Some st' ->
  tier_inv ps cap0 st'.
Proof.
  intros Hl Hst.
  apply (assign_levels_inv maximum_flow (tier_inv ps cap0)); [assumption|].
  intros level st0 G fd Hin Hinv HG Hfd.
  eapply pass_keeps_tier_inv; eauto.
Qed.

(** Commitments are never undone within a tier. *)
Lemma assign_levels_keeps (ps : Preferences) (levels : list string)
    (st st' : AllocState) (s d act : string) :
  assign_levels maximum_flow ps levels st = Some st' ->
  assigned s d (group_assignments st) = Some act ->
  assigned s d (group_assignments st') = Some act.
Proof.
  intros H Ha. revert H.
  apply (assign_levels_inv maximum_flow
           (fun st0 => assigned s d (group_assignments st0) = Some act));
    [assumption|].
  intros level st0 G fd _ Hinv _ _.
  apply commit_flows_inv; [assumption|].
  intros node row target flow s' d' x act' st1 st2 _ _ _ _ _ _ Hnew H1 Hga _.
  rewrite Hga, assigned_record_other; [assumption|].
  intros E. inversion E; subst. congruence.
Qed.

(** ** No pass takes more seats than remain *)



(** ** The three tiers *)

Lemma priority_group_In (label sid : string) (stu : Student)
    (preferences : Preferences) :
  In (sid, stu) (priority_group label preferences) <->
  In (sid, stu) preferences /\ weight stu = label.
Proof.
  unfold priority_group. rewrite filter_In. simpl.
  rewrite String.eqb_eq. tauto.
Qed.

Lemma justified_group (label s d act : string) (preferences : Preferences) :
  justified (priority_group label preferences) s d act ->
  justified preferences s d act.
Proof.
  intros [stu [prefs [level [H1 H2]]]]. apply priority_group_In in H1 as [H1 _].
  exists stu, prefs, level. auto.
Qed.

Lemma In_unique {V : Type} (k : string) (v v' : V) (d : Dict.t V) :
  Dict.wf d -> In (k, v) d -> In (k, v') d -> v = v'.
Proof.
  intros W H1 H2. apply (In_get _ _ _ W) in H1, H2. congruence.
Qed.

Lemma assign_priority_group_inv (ps : Preferences) (label : string)
    (cap cap' : Ledger) (ga : Assignments) :
  assign_priority_group maximum_flow ps label cap = Some (ga, cap') ->
  tier_inv ps cap (mkState ga cap').
Proof.
  unfold assign_priority_group.
  destruct (assign_levels maximum_flow ps ["1st"; "2nd"; "3rd"]
              (mkState Dict.empty cap)) as [st|] eqn:E; [|discriminate].
  intros H; inversion H; subst; clear H.
  destruct st as [ga cap']. simpl.
  eapply assign_levels_tier_inv; [| apply tier_inv_start | exact E].
  auto.
Qed.

Lemma accounts_compose (cap0 cap cap' : Ledger) (a ga : Assignments) :
  Dict.wf ga ->
  (forall k, In k (Dict.keys ga) -> ~ In k (Dict.keys a)) ->
  accounts cap0 a cap -> accounts cap ga cap' ->
  accounts cap0 (Dict.update a ga) cap'.
Proof.
  intros W Hd H1 H2 d act. specialize (H1 d act). specialize (H2 d act).
  rewrite committed_count_update by assumption.
  destruct (remaining d act cap0) as [r0|].
  - rewrite H1 in H2. rewrite H2. f_equal. lia.
  - destruct H1 as [H1 H1']. rewrite H1 in H2. destruct H2 as [H2 H2'].
    split; [assumption | lia].
Qed.

Section Run.
Variable preferences : Preferences.
Hypothesis preferences_wf : wf_preferences preferences.

Lemma group_keys_fresh (cap0 : Ledger) (done : list string) (label : string)
    (acc : Assignments * Ledger) (st : AllocState) :
  ~ In label done ->
  run_inv preferences cap0 done acc ->
  tier_inv (priority_group label preferences) (snd acc) st ->
  forall k, In k (Dict.keys (group_assignments st)) ->
            ~ In k (Dict.keys (fst acc)).
Proof.
  intros Hfresh Hacc Hst k Hk Hk'.
  destruct (ti_keys _ _ _ Hst k Hk) as [stu Hstu].
  apply priority_group_In in Hstu as [Hstu Hw].
  destruct (ri_keys _ _ _ _ Hacc k Hk') as [stu' [Hstu' Hw']].
  destruct preferences_wf as [W _].
  rewrite (In_unique _ _ _ _ W Hstu' Hstu), Hw in Hw'. contradiction.
Qed.

Lemma process_group_inv (cap0 : Ledger) (done : list string)
    (label : string) (acc acc' : Assignments * Ledger) :
  ~ In label done ->
  run_inv preferences cap0 done acc ->
  process_group maximum_flow preferences acc label = Some acc' ->
  run_inv preferences cap0 (done ++ [label]) acc'.
Proof.
  intros Hfresh Hacc. unfold process_group.
  destruct (assign_priority_group maximum_flow
              (priority_group label preferences) label (snd acc))
    as [[ga cap']|] eqn:E; [|discriminate].
  intros H; inversion H; subst; clear H.
  apply assign_priority_group_inv in E.
  pose proof (group_keys_fresh _ _ _ _ _ Hfresh Hacc E) as Hdisj.
  simpl in Hdisj.
  constructor; simpl.
  - apply wf_update, (ri_wf _ _ _ _ Hacc).
  - apply rows_wf_update;
      [apply (ri_rows _ _ _ _ Hacc) | apply (ti_rows _ _ _ E)].
  - intros k. rewrite In_keys_update. intros [Hk|Hk].
    + destruct (ri_keys _ _ _ _ Hacc k Hk) as [stu [H1 H2]].
      exists stu. rewrite in_app_iff. auto.
    + destruct (ti_keys _ _ _ E k Hk) as [stu Hstu].
      apply priority_group_In in Hstu as [Hstu Hw].
      exists stu. rewrite in_app_iff, Hw. simpl. auto.
  - intros s d act He. apply entry_update in He as [He|He].
    + apply (ri_justified _ _ _ _ Hacc). assumption.
    + eapply justified_group, (ti_justified _ _ _ E). assumption.
  - apply accounts_compose with (cap := snd acc).
    + apply (ti_wf _ _ _ E).
    + assumption.
    + apply (ri_accounts _ _ _ _ Hacc).
    + apply (ti_accounts _ _ _ E).
Qed.

Lemma process_groups_inv (cap0 : Ledger) (labels done : list string)
    (acc acc' : Assignments * Ledger) :
  NoDup (done ++ labels) ->
  run_inv preferences cap0 done acc ->
  process_groups maximum_flow preferences labels acc = Some acc' ->
  run_inv preferences cap0 (done ++ labels) acc'.
Proof.
  unfold process_groups. revert done acc.
  induction labels as [|label r IH]; simpl; intros done acc ND Hacc H.
  - inversion H; subst. rewrite app_nil_r. assumption.
  - destruct (process_group maximum_flow preferences acc label)
      as [acc1|] eqn:E; [|discriminate].
    assert (~ In label done) as Hfresh.
    { intros Hin. apply NoDup_remove_2 in ND. apply ND.
      rewrite in_app_iff. auto. }
    pose proof (process_group_inv _ _ _ _ _ Hfresh Hacc E) as H1.
    replace (done ++ label :: r)%list with ((done ++ [label]) ++ r)%list
      by (rewrite <- app_assoc; reflexivity).
    apply IH with (acc := acc1); [|assumption|assumption].
    rewrite <- app_assoc. assumption.
Qed.

Lemma run_inv_start (cap0 : Ledger) :
  run_inv preferences cap0 [] (Dict.empty, cap0).
Proof.
  constructor; simpl.
  - apply wf_empty.
  - intros k row [].
  - intros k [].
  - intros s d act [row [[] _]].
  - intros d act. destruct (remaining d act cap0) as [r0|] eqn:E.
    + f_equal. unfold committed_count. simpl. lia.
    + auto.
Qed.

Lemma allocate_inv (a : Assignments) (cap : Ledger) :
  allocate maximum_flow preferences = Some (a, cap) ->
  exists cap0, init_capacity preferences = Some cap0 /\
               run_inv preferences cap0 TIERS (a, cap).
Proof.
  unfold allocate.
  destruct (init_capacity preferences) as [cap0|]; [|discriminate].
  intros H. exists cap0. split; [reflexivity|].
  apply (process_groups_inv cap0 TIERS [] (Dict.empty, cap0));
    [|apply run_inv_start|assumption].
  simpl. unfold TIERS.
  repeat constructor; simpl; intuition discriminate.
Qed.

Lemma classify_no_other (s d act : string) (stu : Student) (prefs : Prefs)
    (sat sat' : Satisfaction) :
  Dict.get s preferences = Some stu ->
  Dict.get d (days stu) = Some prefs ->
  act = pref_1st prefs \/ act = pref_2nd prefs \/ act = pref_3rd prefs ->
  classify preferences s sat (d, act) = Some sat' ->
  sat_other sat' = sat_other sat.
Proof.
  intros Hs Hd Hact. unfold classify. rewrite Hs, Hd.
  destruct (String.eqb act (pref_1st prefs)) eqn:E1;
    [intros H; inversion H; reflexivity|].
  destruct (String.eqb act (pref_2nd prefs)) eqn:E2;
    [intros H; inversion H; reflexivity|].
  destruct (String.eqb act (pref_3rd prefs)) eqn:E3;
    [intros H; inversion H; reflexivity|].
  apply String.eqb_neq in E1, E2, E3. exfalso. intuition congruence.
Qed.

Lemma justified_lookup (s d act : string) :
  justified preferences s d act ->
  exists stu prefs,
    Dict.get s preferences = Some stu /\
    Dict.get d (days stu) = Some prefs /\
    (act = pref_1st prefs \/ act = pref_2nd prefs \/ act = pref_3rd prefs).
Proof.
  intros [stu [prefs [level [Hs [Hd [Hl Hp]]]]]].
  destruct preferences_wf as [W Wd].
  exists stu, prefs. split; [apply In_get; assumption|].
  split; [apply In_get; eauto|].
  eapply PassFacts.level_choice; eauto.
Qed.

(** C5. Classifying the allocator's own output never counts an entry
    as 'other': every entry of the returned mapping is the student's
    1st, 2nd or 3rd choice for that day. *)
Theorem no_other_in_own_output (G : DiGraph) (assignments : Assignments)
    (sat : Satisfaction) :
  assign_students_to_activities maximum_flow G preferences
    = Some (assignments, sat) ->
  sat_other sat = 0 /\
  forall s row d act,
    In (s, row) assignments -> In (d, act) row ->
    exists stu prefs,
      Dict.get s preferences = Some stu /\
      Dict.get d (days stu) = Some prefs /\
      (act = pref_1st prefs \/ act = pref_2nd prefs \/ act = pref_3rd prefs).
Proof.
  intros H. apply assign_allocate in H as [cap [Ha Hsat]].
  destruct (allocate_inv _ _ Ha) as [cap0 [_ Hinv]].
  assert (forall s row d act,
             In (s, row) assignments -> In (d, act) row ->
             exists stu prefs,
               Dict.get s preferences = Some stu /\
               Dict.get d (days stu) = Some prefs /\
               (act = pref_1st prefs \/ act = pref_2nd prefs \/
                act = pref_3rd prefs)) as Hall.
  { intros s row d act H1 H2. apply justified_lookup.
    apply (ri_justified _ _ _ _ Hinv). exists row. auto. }
  split; [|assumption].
  revert Hsat. unfold preference_satisfaction.
  apply (fold_opt_inv (fun sat0 => sat_other sat0 = 0)); [reflexivity|].
  intros [s row] sat0 sat1 Hrow H0. simpl.
  apply (fold_opt_inv (fun sat0 => sat_other sat0 = 0)); [assumption|].
  intros [d act] sat2 sat3 Hitem H2 Hc.
  destruct (Hall _ _ _ _ Hrow Hitem) as [stu [prefs [Hs [Hd Hact]]]].
  rewrite (classify_no_other _ _ _ _ _ _ _ Hs Hd Hact Hc). assumption.
Qed.

(** Later tiers leave the merged mapping alone. *)
Lemma process_groups_keeps (cap0 : Ledger) (labels done : list string)
    (acc acc' : Assignments * Ledger) (s d act : string) :
  NoDup (done ++ labels) ->
  run_inv preferences cap0 done acc ->
  process_groups maximum_flow preferences labels acc = Some acc' ->
  assigned s d (fst acc) = Some act ->
  assigned s d (fst acc') = Some act.
Proof.
  unfold process_groups. revert done acc.
  induction labels as [|label r IH]; simpl; intros done acc ND Hacc H Ha.
  - inversion H; subst. assumption.
  - destruct (process_group maximum_flow preferences acc label)
      as [acc1|] eqn:E; [|discriminate].
    assert (~ In label done) as Hfresh.
    { intros Hin. apply NoDup_remove_2 in ND. apply ND.
      rewrite in_app_iff. auto. }
    pose proof (process_group_inv _ _ _ _ _ Hfresh Hacc E) as H1.
    apply IH with (done := (done ++ [label])%list) (acc := acc1);
      [rewrite <- app_assoc; assumption | assumption | assumption |].
    unfold process_group in E.
    destruct (assign_priority_group maximum_flow
                (priority_group label preferences) label (snd acc))
      as [[ga cap']|] eqn:Eg; [|discriminate].
    inversion E; subst; clear E. simpl.
    apply assign_priority_group_inv in Eg.
    pose proof (group_keys_fresh _ _ _ _ _ Hfresh Hacc Eg s) as Hdisj.
    simpl in Hdisj. unfold assigned in *.
    destruct (Dict.get s (fst acc)) as [row|] eqn:Er; [|discriminate].
    rewrite get_update_old, Er; [assumption|].
    intros Hin. apply (Hdisj Hin). eapply get_Some_keys; eauto.
Qed.

(** C4. The mapping the allocator returns is a dictionary of
    dictionaries without repeated keys: at most one activity per
    (student, day).  And the first commitment wins: whatever is committed
    at any point of the run, in the mapping merged from the tiers
    processed so far or in the mapping of the current tier after any
    number of its passes, is in the final mapping with the same
    activity. *)
Theorem first_commitment_wins (assignments : Assignments) (cap : Ledger) :
  allocate maximum_flow preferences = Some (assignments, cap) ->
  Dict.wf assignments /\
  (forall s row, In (s, row) assignments -> Dict.wf row) /\
  forall before label later cap0 acc,
    (before ++ label :: later)%list = TIERS ->
    init_capacity preferences = Some cap0 ->
    process_groups maximum_flow preferences before (Dict.empty, cap0)
      = Some acc ->
    (forall s d act,
        assigned s d (fst acc) = Some act ->
        assigned s d assignments = Some act) /\
    (forall passed coming st,
        (passed ++ coming)%list = LEVELS ->
        assign_levels maximum_flow (priority_group label preferences)
                      passed (mkState Dict.empty (snd acc)) = Some st ->
        forall s d act,
          assigned s d (group_assignments st) = Some act ->
          assigned s d assignments = Some act).
Proof.
  intros Ha. destruct (allocate_inv _ _ Ha) as [cap0 [Hi Hinv]].
  split; [apply (ri_wf _ _ _ _ Hinv)|].
  split; [apply (ri_rows _ _ _ _ Hinv)|].
  intros before label later cap0' acc Esplit Hi' Hbefore.
  rewrite Hi in Hi'. inversion Hi'; subst cap0'. clear Hi'.
  unfold allocate in Ha. rewrite Hi in Ha. unfold process_groups in Ha.
  change ["high"; "medium"; "low"] with TIERS in Ha.
  rewrite <- Esplit, fold_opt_app in Ha.
  unfold process_groups in Hbefore. rewrite Hbefore in Ha.
  assert (NoDup TIERS) as ND
      by (unfold TIERS; repeat constructor; simpl; intuition discriminate).
  rewrite <- Esplit in ND.
  assert (run_inv preferences cap0 before acc) as Hacc.
  { apply (process_groups_inv cap0 before [] (Dict.empty, cap0));
      [|apply run_inv_start|assumption].
    simpl. apply NoDup_app_remove_r in ND. assumption. }
  split.
  - intros s d act Hs.
    exact (process_groups_keeps cap0 (label :: later) before acc
             (assignments, cap) s d act ND Hacc Ha Hs).
  - intros passed coming st Elev Hst s d act Hs.
    cbn [fold_opt] in Ha.
    destruct (process_group maximum_flow preferences acc label)
      as [acc1|] eqn:E1; [|discriminate].
    assert (~ In label before) as Hfresh.
    { intros Hin. apply NoDup_remove_2 in ND. apply ND.
      rewrite in_app_iff. auto. }
    pose proof (process_group_inv _ _ _ _ _ Hfresh Hacc E1) as Hacc1.
    apply (process_groups_keeps cap0 later (before ++ [label])%list acc1
             (assignments, cap));
      [rewrite <- app_assoc; assumption | assumption | assumption |].
    unfold process_group in E1.
    destruct (assign_priority_group maximum_flow
                (priority_group label preferences) label (snd acc))
      as [[ga cap']|] eqn:Eg; [|discriminate].
    inversion E1; subst; clear E1. simpl.
    pose proof (assign_priority_group_inv _ _ _ _ _ Eg) as Hga.
    unfold assign_priority_group in Eg.
    change ["1st"; "2nd"; "3rd"] with LEVELS in Eg.
    rewrite <- Elev in Eg. unfold assign_levels in Eg, Hst.
    rewrite fold_opt_app, Hst in Eg.
    destruct (fold_opt (assign_pref_level maximum_flow
                          (priority_group label preferences)) coming st)
      as [st'|] eqn:Ec; [|discriminate].
    inversion Eg; subst; clear Eg.
    pose proof (assign_levels_keeps _ _ _ _ _ _ _ Ec Hs) as Hs'.
    unfold assigned in *.
    destruct (Dict.get s (group_assignments st')) as [row|] eqn:Er;
      [|discriminate].
    rewrite (get_update_new _ _ _ _ (ti_wf _ _ _ Hga) Er). assumption.
Qed.

(** *** The ledger through the three tiers *)






End Run.





End Verified.

(** ** A loop over a list split in two *)

Lemma for_each_app {A S : Type} (body : A -> S -> result S) (l l' : list A)
    (s : S) :
  for_each body (l ++ l') s =
  match for_each body l s with
  | Done s' => for_each body l' s'
  | Raised s' => Raised s'
  end.
Proof.
  revert s. induction l as [|a r IH]; simpl; intros s; [reflexivity|].
  destruct (body a s); auto.
Qed.

(** ** The solver instance meets the contract *)

Lemma solver_feasible (G : DiGraph) (fd : FlowDict) :
  Solver.maximum_flow G "source" "sink" = Some fd ->
  feasible_flow G "source" "sink" fd = true.
Proof.
  unfold Solver.maximum_flow.
  destruct (feasible_flow G "source" "sink"
              (Solver.ford_fulkerson G "source" "sink")) eqn:E;
    [|discriminate].
  destruct (Solver.saturated G "source" "sink"
              (Solver.ford_fulkerson G "source" "sink")); [|discriminate].
  intros H; inversion H; subst. assumption.
Qed.

Lemma wf_preferencesb_wf (preferences : Preferences) :
  wf_preferencesb preferences = true -> wf_preferences preferences.
Proof.
  unfold wf_preferencesb, wf_preferences, Dict.wf.
  rewrite andb_true_iff, forallb_forall. intros [H1 H2]. split.
  - apply DictFacts.nodupb_NoDup. assumption.
  - intros sid st Hin. apply DictFacts.nodupb_NoDup. exact (H2 _ Hin).
Qed.

(** ** Concrete runs *)

Lemma committed_pairs_stay_in_network_witness :
  edge_capacity second_level_network "source" (PyStr.join_ "S1" "mon") = Some 1 /\
  (forall act r,
      prefs_get ("2nd" ++ "_preference") (mkPrefs "chess" "drama" "soccer")
        = Some act ->
      remaining "mon" act ledger_after_S1 = Some r -> 0 < r ->
      edge_capacity second_level_network (PyStr.join_ "S1" "mon")
                    (PyStr.join_ "mon" act) = Some 1) /\
  (forall (state : AllocState) (committed : string) (item : string * Z),
      assigned "S1" "mon" (group_assignments state) = Some committed ->
      state_of (commit_target "S1" "mon" item state) = state).
Proof.
  apply (committed_pairs_stay_in_network S1_alone ledger_after_S1 "2nd"
           second_level_network "S1"
           (mkStudent "high" (week (mkPrefs "chess" "drama" "soccer")))
           "mon" (mkPrefs "chess" "drama" "soccer")).
  - vm_compute. reflexivity.
  - simpl. left. reflexivity.
  - simpl. left. reflexivity.
Defined.

(** C1 fails on the code: after the 1st-level pass committed (S1, mon) to
    chess, the network of the 2nd-level pass still has the source edge of
    S1_mon and its edge to mon_drama. *)
Lemma committed_pair_still_in_network :
  assign_levels Solver.maximum_flow S1_alone ["1st"]
                (mkState Dict.empty full_ledger)
    = Some (mkState S1_chess ledger_after_S1) /\
  assigned "S1" "mon" S1_chess = Some "chess" /\
  exists G,
    create_priority_network S1_alone ledger_after_S1 "2nd" = Some G /\
    edge_capacity G "source" "S1_mon" = Some 1 /\
    edge_capacity G "S1_mon" "mon_drama" = Some 1.
Proof.
  split; [vm_compute; reflexivity|].
  split; [reflexivity|].
  exists second_level_network.
  split; [vm_compute; reflexivity|].
  split; reflexivity.
Qed.



Lemma sample_run :
  assign_students_to_activities Solver.maximum_flow Dict.empty sample_roster
    = Some (sample_assignments, sample_satisfaction).
Proof. vm_compute. reflexivity. Qed.

Lemma sample_allocation :
  allocate Solver.maximum_flow sample_roster
    = Some (sample_assignments, sample_ledger).
Proof. vm_compute. reflexivity. Qed.

Lemma sample_roster_wf : wf_preferences sample_roster.
Proof. apply wf_preferencesb_wf. vm_compute. reflexivity. Qed.

Lemma first_commitment_wins_witness :
  Dict.wf sample_assignments /\
  (forall s row, In (s, row) sample_assignments -> Dict.wf row) /\
  forall before label later cap0 acc,
    (before ++ label :: later)%list = TIERS ->
    init_capacity sample_roster = Some cap0 ->
    process_groups Solver.maximum_flow sample_roster before (Dict.empty, cap0)
      = Some acc ->
    (forall s d act,
        assigned s d (fst acc) = Some act ->
        assigned s d sample_assignments = Some act) /\
    (forall passed coming st,
        (passed ++ coming)%list = LEVELS ->
        assign_levels Solver.maximum_flow (priority_group label sample_roster)
                      passed (mkState Dict.empty (snd acc)) = Some st ->
        forall s d act,
          assigned s d (group_assignments st) = Some act ->
          assigned s d sample_assignments = Some act).
Proof.
  apply (first_commitment_wins Solver.maximum_flow solver_feasible
           sample_roster sample_roster_wf sample_assignments sample_ledger).
  vm_compute. reflexivity.
Defined.

Lemma no_other_in_own_output_witness :
  sat_other sample_satisfaction = 0 /\
  forall s row d act,
    In (s, row) sample_assignments -> In (d, act) row ->
    exists stu prefs,
      Dict.get s sample_roster = Some stu /\
      Dict.get d (days stu) = Some prefs /\
      (act = pref_1st prefs \/ act = pref_2nd prefs \/ act = pref_3rd prefs).
Proof.
  apply (no_other_in_own_output Solver.maximum_flow solver_feasible
           sample_roster sample_roster_wf Dict.empty sample_assignments
           sample_satisfaction).
  vm_compute. reflexivity.
Defined.

Lemma missing_day_aborts_run_witness :
  assign_students_to_activities Solver.maximum_flow Dict.empty roster_with_gap
    = None.
Proof.
  apply (missing_day_aborts_run Solver.maximum_flow Dict.empty roster_with_gap
           "S2" (mkStudent "high" [("mon", mkPrefs "chess" "drama" "soccer")])
           "tue").
  - simpl. right. left. reflexivity.
  - simpl. right. left. reflexivity.
  - reflexivity.
Defined.

(** C7 fails on the code: of three rows whose second is cut short, the
    third is never loaded, and the number of students is not reported. *)
Lemma third_row_not_loaded :
  snd (Loader.load_student_preferences (Some Loader.three_rows))
    = Loader.LoadError /\
  Loader.find (Loader.CStr "S3")
    (fst (Loader.load_student_preferences (Some Loader.three_rows))) = None /\
  Loader.load_student_preferences (Some [Loader.good_row "S3" "mon"])
    = ([(Loader.CStr "S3",
         Loader.mkLoaded (Loader.CStr "high")
           [("mon", mkPrefs "chess" "drama" "soccer")])],
       Loader.LoadedCount 1).
Proof. repeat split; vm_compute; reflexivity. Qed.

Lemma ledger_commit_decrements_witness :
  exists cap',
    ledger_commit "mon" "chess" empty_ledger_entry = Some cap' /\
    remaining "mon" "chess" cap' = Some (0 - 1) /\
    forall d a, (d, a) <> ("mon", "chess") ->
                remaining d a cap' = remaining d a empty_ledger_entry.
Proof.
  apply (ledger_commit_decrements "mon" "chess" empty_ledger_entry 0).
  reflexivity.
Defined.

(** C8 fails on the code: a unit of flow from S1_mon to mon_chess is
    committed although no seat of chess remains on Monday; nothing is
    raised and the ledger entry becomes -1. *)
Lemma commit_at_zero_goes_negative :
  commit_flows [("S1_mon", [("mon_chess", 1)])]
               (mkState Dict.empty empty_ledger_entry)
    = Done (mkState [("S1", [("mon", "chess")])] [("mon", [("chess", -1)])]) /\
  ledger_commit "mon" "chess" empty_ledger_entry
    = Some [("mon", [("chess", -1)])].
Proof. split; reflexivity. Qed.

Lemma non_S_student_never_assigned_witness :
  Dict.get "X9" sample_assignments = None /\
  forall day, assigned "X9" day sample_assignments = None.
Proof.
  apply (non_S_student_never_assigned Solver.maximum_flow Dict.empty
           sample_roster sample_assignments sample_satisfaction "X9").
  - vm_compute. reflexivity.
  - reflexivity.
Defined.

(** Rosters whose identifiers all begin with 'S' have no clashing labels. *)
Lemma S_identifiers_clash_free (preferences : Preferences) :
  (forall sid, In sid (Dict.keys preferences) -> PyStr.startswith_S sid = true) ->
  clash_free preferences = true.
Proof.
  intros H. unfold clash_free. apply forallb_forall. intros sid Hin.
  specialize (H sid Hin). destruct sid as [|c r]; [discriminate|].
  simpl in H. apply Ascii.eqb_eq in H. subst c.
  unfold DAYS, PyStr.join_, PyStr.underscore. vm_compute. reflexivity.
Qed.

(** ** Weights *)

Module WeightFacts.
Import DictFacts.

Lemma add_node_weights (n : string) (G : DiGraph) :
  all_weights_zero G -> all_weights_zero (add_node n G).
Proof.
  unfold add_node, all_weights_zero. intros H.
  destruct (Dict.mem n G); [assumption|].
  intros u adj v e Hin Hin'. apply in_app_iff in Hin as [Hin|[Hin|[]]].
  - eauto.
  - inversion Hin; subst. contradiction.
Qed.

Lemma successors_weights (G : DiGraph) (u v : string) (e : EdgeData) :
  all_weights_zero G -> In (v, e) (successors G u) -> edge_weight e = 0.
Proof.
  unfold successors. intros H Hin.
  destruct (Dict.get u G) as [adj|] eqn:E; [|contradiction].
  apply get_In in E. eauto.
Qed.

Lemma add_edge_weights (u v : string) (c : Z) (G : DiGraph) :
  all_weights_zero G -> all_weights_zero (add_edge u v c 0 G).
Proof.
  intros H. unfold add_edge.
  pose proof (add_node_weights v _ (add_node_weights u _ H)) as H1.
  intros u' adj v' e Hin Hin'.
  apply In_set in Hin as [[-> ->]|Hin]; [|eauto].
  apply In_set in Hin' as [[-> ->]|Hin']; [reflexivity|].
  eapply successors_weights; eauto.
Qed.

Lemma create_priority_network_weights (ps : Preferences) (cap : Ledger)
    (level : string) (G : DiGraph) :
  create_priority_network ps cap level = Some G -> all_weights_zero G.
Proof.
  unfold create_priority_network. apply (fold_opt_inv all_weights_zero).
  - unfold empty_network. apply add_node_weights, add_node_weights.
    intros u adj v e [].
  - intros [sid st] G0 G1 _ HG0. unfold add_student. cbn [fst snd].
    apply (fold_opt_inv all_weights_zero); [assumption|].
    intros [day prefs] G2 G3 _ HG2. unfold add_student_day.
    destruct (prefs_get (level ++ "_preference") prefs) as [act|];
      [|discriminate].
    destruct (remaining day act cap) as [r|]; [|discriminate].
    intros E; inversion E; subst; clear E.
    apply add_edge_weights.
    destruct (0 <? r); repeat apply add_edge_weights; assumption.
Qed.

End WeightFacts.

(** C9. The weighted network [G] that [run] builds with
    [build_flow_network] and hands to [assign_students_to_activities] has
    no influence on the result: two calls that differ only in [G] return
    the same assignments and the same satisfaction counts.  The networks
    that are solved instead, one per pass, carry weight 0 on every edge. *)
Theorem weighted_network_is_dead
    (maximum_flow : DiGraph -> string -> string -> option FlowDict)
    (G1 G2 : DiGraph) (preferences : Preferences) :
  assign_students_to_activities maximum_flow G1 preferences =
  assign_students_to_activities maximum_flow G2 preferences /\
  (forall ps cap level G,
      create_priority_network ps cap level = Some G -> all_weights_zero G).
Proof.
  split.
  - reflexivity.
  - intros ps cap level G H.
    exact (WeightFacts.create_priority_network_weights ps cap level G H).
Qed.

Lemma weighted_network_is_dead_witness :
  assign_students_to_activities Solver.maximum_flow Dict.empty sample_roster =
  assign_students_to_activities Solver.maximum_flow second_level_network
                                sample_roster /\
  all_weights_zero second_level_network.
Proof.
  split.
  - apply (weighted_network_is_dead Solver.maximum_flow Dict.empty
             second_level_network sample_roster).
  - apply (proj2 (weighted_network_is_dead Solver.maximum_flow Dict.empty
                    Dict.empty sample_roster)
                 S1_alone ledger_after_S1 "2nd").
    vm_compute. reflexivity.
Defined.

(** * Further properties of the code *)

(** ** Labels of nodes *)

Module LabelFacts.
Import PyStr PyStrFacts.

Lemma split_length_underscore (s : string) :
  has_underscore s = true -> (2 <= List.length (split s))%nat.
Proof.
  induction s as [|c r IH]; simpl; [discriminate|].
  destruct (Ascii.eqb c underscore) eqn:E; simpl.
  - intros _. pose proof (split_nonempty r).
    destruct (split r); [contradiction | simpl; lia].
  - intros H. specialize (IH H).
    destruct (split r); simpl in *; lia.
Qed.

Lemma split_plain (s : string) :
  has_underscore s = false -> split s = [s].
Proof.
  induction s as [|c r IH]; simpl; [reflexivity|].
  intros H. apply orb_false_iff in H as [Hc Hr].
  rewrite Hc, (IH Hr). reflexivity.
Qed.

Lemma join_split_long (a b : string) :
  has_underscore a = true \/ has_underscore b = true ->
  (3 <= List.length (split (join_ a b)))%nat.
Proof.
  rewrite split_join, length_app. intros [H|H].
  - pose proof (split_length_underscore a H). pose proof (split_nonempty b).
    destruct (split b); [contradiction | simpl; lia].
  - pose proof (split_length_underscore b H). pose proof (split_nonempty a).
    destruct (split a); [contradiction | simpl; lia].
Qed.

End LabelFacts.

(** X1. Decoding undoes encoding exactly on plain components: the
    extraction loop reads the label [f"{sid}_{day}"] back as the pair
    (sid, day) if and only if [sid] starts with 'S' and neither [sid] nor
    [day] holds an underscore; and [target.split('_', 1)] gives back the
    activity of [f"{day}_{activity}"], underscores included, whenever [day]
    holds none. *)
Theorem label_round_trip (sid day activity : string) :
  (student_day_of (PyStr.join_ sid day) = Some (sid, day) <->
   PyStr.startswith_S sid = true /\
   PyStr.has_underscore sid = false /\ PyStr.has_underscore day = false) /\
  (PyStr.has_underscore day = false ->
   PyStr.split_first (PyStr.join_ day activity) = Some (day, activity)).
Proof.
  split; [|apply PyStrFacts.split_first_join].
  unfold student_day_of.
  assert (String.eqb (PyStr.join_ sid day) "source" = false) as ->
      by (apply String.eqb_neq, PyStrFacts.join_not_source).
  rewrite PyStrFacts.join_has_underscore. cbn [negb andb].
  split.
  - destruct (PyStr.split (PyStr.join_ sid day)) as [|s [|d [|e l]]] eqn:E;
      try discriminate.
    destruct (PyStrFacts.split_join_two _ _ _ _ E) as [-> [-> [H1 H2]]].
    destruct (PyStr.startswith_S s); [auto | discriminate].
  - intros [HS [H1 H2]].
    rewrite PyStrFacts.split_join, (LabelFacts.split_plain _ H1),
      (LabelFacts.split_plain _ H2).
    simpl. rewrite HS. reflexivity.
Qed.

Lemma label_round_trip_witness :
  student_day_of (PyStr.join_ "S1" "mon") = Some ("S1", "mon") /\
  PyStr.split_first (PyStr.join_ "mon" "table_tennis")
    = Some ("mon", "table_tennis").
Proof.
  split.
  - apply (proj1 (label_round_trip "S1" "mon" "chess")).
    repeat split; reflexivity.
  - apply (proj2 (label_round_trip "S1" "mon" "table_tennis")). reflexivity.
Defined.

(** X2. A label with two or more underscores stops the extraction: when
    the loop reaches the node of a student-day or of an activity-day one of
    whose components holds an underscore, [node.split('_')] has more than
    two pieces, the unpacking raises, and nothing of the rest of the flow
    dictionary is committed. *)
Theorem underscore_in_label_stops_extraction (a b : string) (row : Dict.t Z)
    (before later : FlowDict) (st st1 : AllocState) :
  PyStr.has_underscore a = true \/ PyStr.has_underscore b = true ->
  commit_flows before st = Done st1 ->
  commit_flows (before ++ (PyStr.join_ a b, row) :: later)%list st = Raised st1.
Proof.
  intros Hu Hb. unfold commit_flows in *.
  rewrite for_each_app, Hb. cbn [for_each].
  assert (commit_node (PyStr.join_ a b, row) st1 = Raised st1) as ->;
    [|reflexivity].
  unfold commit_node.
  assert (String.eqb (PyStr.join_ a b) "source" = false) as ->
      by (apply String.eqb_neq, PyStrFacts.join_not_source).
  rewrite PyStrFacts.join_has_underscore. cbn [negb andb].
  pose proof (LabelFacts.join_split_long a b Hu) as Hlen.
  destruct (PyStr.split (PyStr.join_ a b)) as [|s [|d [|e l]]];
    simpl in Hlen; try lia; reflexivity.
Qed.

Lemma underscore_in_label_stops_extraction_witness :
  commit_flows [("mon_table_tennis", [("sink", 1)]);
                ("S1_mon", [("mon_table_tennis", 1)])]
               (mkState Dict.empty [("mon", [("table_tennis", 15)])])
    = Raised (mkState Dict.empty [("mon", [("table_tennis", 15)])]).
Proof.
  apply (underscore_in_label_stops_extraction "mon" "table_tennis"
           [("sink", 1)] [] [("S1_mon", [("mon_table_tennis", 1)])]).
  - right. reflexivity.
  - reflexivity.
Defined.

(** ** The network of a pass *)

Lemma fold_opt_each {A S : Type} (body : S -> A -> option S) (l : list A)
    (s s' : S) (a : A) :
  fold_opt body l s = Some s' -> In a l ->
  exists s0 s1, body s0 a = Some s1.
Proof.
  revert s. induction l as [|b r IH]; simpl; intros s H Hin; [contradiction|].
  destruct (body s b) as [s1|] eqn:E; [|discriminate].
  destruct Hin as [->|Hin]; eauto.
Qed.

Lemma fold_opt_defined {A S : Type} (body : S -> A -> option S) (l : list A)
    (s : S) :
  (forall a s0, In a l -> exists s1, body s0 a = Some s1) ->
  exists s', fold_opt body l s = Some s'.
Proof.
  revert s. induction l as [|b r IH]; simpl; intros s H; [eauto|].
  destruct (H b s (or_introl eq_refl)) as [s1 ->].
  apply IH. intros; apply H; auto.
Qed.

(** X3. [create_priority_network] returns a network exactly when the
    ledger has an entry for the activity every student-day of the roster
    names at the level; otherwise the lookup of line 136 raises
    [KeyError]. *)
Theorem network_built_iff_ledger_knows (ps : Preferences) (cap : Ledger)
    (level : string) :
  (exists G, create_priority_network ps cap level = Some G) <->
  (forall sid st day prefs,
      In (sid, st) ps -> In (day, prefs) (days st) ->
      exists act r,
        prefs_get (level ++ "_preference") prefs = Some act /\
        remaining day act cap = Some r).
Proof.
  unfold create_priority_network. split.
  - intros [G HG] sid st day prefs Hs Hd.
    destruct (fold_opt_each _ _ _ _ _ HG Hs) as [G0 [G1 H1]].
    unfold add_student in H1. cbn [fst snd] in H1.
    destruct (fold_opt_each _ _ _ _ _ H1 Hd) as [G2 [G3 H2]].
    unfold add_student_day in H2.
    destruct (prefs_get (level ++ "_preference") prefs) as [act|];
      [|discriminate].
    destruct (remaining day act cap) as [r|] eqn:Er; [|discriminate].
    exists act, r. split; [reflexivity | assumption].
  - intros H. apply fold_opt_defined. intros [sid st] G0 Hs.
    unfold add_student. cbn [fst snd]. apply fold_opt_defined.
    intros [day prefs] G1 Hd.
    destruct (H sid st day prefs Hs Hd) as [act [r [Ha Hr]]].
    unfold add_student_day. rewrite Ha, Hr. eauto.
Qed.

Lemma network_built_iff_ledger_knows_witness :
  exists G, create_priority_network S1_alone ledger_after_S1 "2nd" = Some G.
Proof.
  apply (proj2 (network_built_iff_ledger_knows S1_alone ledger_after_S1 "2nd")).
  intros sid st day prefs Hs Hd.
  destruct Hs as [Hs|[]]. inversion Hs; subst. clear Hs.
  simpl in Hd.
  destruct Hd as [Hd|[Hd|[Hd|[Hd|[]]]]]; inversion Hd; subst;
    exists "drama", 15; split; reflexivity.
Defined.

(** X4. Every edge of the network of a pass is of one of three kinds: from
    the source to a student-day of the roster, with capacity 1; from a
    student-day to the activity-day of its choice at the level, with
    capacity 1 and only when seats remain; from an activity-day named at the
    level to the sink, with the remaining seats as capacity. *)
Theorem network_edges_are_of_three_kinds (ps : Preferences) (cap : Ledger)
    (level : string) (G : DiGraph) (u v : string) (c : Z) :
  create_priority_network ps cap level = Some G ->
  edge_capacity G u v = Some c ->
  network_edge ps cap level u v c.
Proof.
  intros HG He.
  exact (GraphFacts.create_priority_network_edges ps cap level G HG u v c He).
Qed.

Lemma network_edges_are_of_three_kinds_witness :
  network_edge S1_alone ledger_after_S1 "2nd" "mon_drama" "sink" 15.
Proof.
  apply (network_edges_are_of_three_kinds S1_alone ledger_after_S1 "2nd"
           second_level_network).
  - vm_compute. reflexivity.
  - reflexivity.
Defined.

(** ** The allocator under any solver *)

Module LooseFacts.
Import DictFacts AssignFacts CommitFacts.

Lemma ledger_below_refl (cap : Ledger) : ledger_below cap cap.
Proof.
  intros d a. destruct (remaining d a cap) as [r|] eqn:E; [|reflexivity].
  exists r. split; [reflexivity | lia].
Qed.

Lemma ledger_below_trans (c1 c2 c3 : Ledger) :
  ledger_below c1 c2 -> ledger_below c2 c3 -> ledger_below c1 c3.
Proof.
  intros H1 H2 d a. specialize (H1 d a). specialize (H2 d a).
  destruct (remaining d a c1) as [r|].
  - destruct H1 as [r' [E1 L1]]. rewrite E1 in H2.
    destruct H2 as [r'' [E2 L2]]. exists r''. split; [assumption | lia].
  - rewrite H1 in H2. assumption.
Qed.

Lemma ledger_commit_below (d a : string) (cap cap' : Ledger) :
  ledger_commit d a cap = Some cap' -> ledger_below cap cap'.
Proof.
  intros H. destruct (LedgerFacts.ledger_commit_remaining _ _ _ _ H)
    as [r [Hr [Hr' Hother]]].
  intros d' a'.
  destruct (string_dec d' d) as [->|Nd].
  - destruct (string_dec a' a) as [->|Na].
    + rewrite Hr. exists (r - 1). split; [assumption | lia].
    + rewrite (Hother d a') by congruence.
      destruct (remaining d a' cap) as [r0|]; [|reflexivity].
      exists r0. split; [reflexivity | lia].
  - rewrite (Hother d' a') by congruence.
    destruct (remaining d' a' cap) as [r0|]; [|reflexivity].
    exists r0. split; [reflexivity | lia].
Qed.

Lemma set_not_nil {V : Type} (k : string) (v : V) (d : Dict.t V) :
  Dict.set k v d <> [].
Proof.
  destruct d as [|[k' v'] r]; simpl; [discriminate|].
  destruct (String.eqb k k'); discriminate.
Qed.

Lemma In_update {V : Type} (k : string) (v : V) (d new : Dict.t V) :
  In (k, v) (Dict.update d new) -> In (k, v) d \/ In (k, v) new.
Proof.
  unfold Dict.update. revert d.
  induction new as [|[k0 v0] r IH]; simpl; intros d H; [auto|].
  destruct (IH _ H) as [H1|H1]; [|auto].
  apply In_set in H1 as [[-> ->]|H1]; auto.
Qed.

Lemma rows_filled_record (s d act : string) (a : Assignments) :
  rows_filled a -> rows_filled (record_assignment s d act a).
Proof.
  unfold rows_filled, record_assignment. intros H s' row Hin.
  apply In_set in Hin as [[-> ->]|Hin]; [apply set_not_nil | eauto].
Qed.

Section AnySolver.
Variable maximum_flow : DiGraph -> string -> string -> option FlowDict.

Lemma commit_flows_below (fd : FlowDict) (st : AllocState) (cap : Ledger) :
  ledger_below cap (ledger st) ->
  ledger_below cap (ledger (state_of (commit_flows fd st))).
Proof.
  intros H0. apply commit_flows_inv; [assumption|].
  intros node row target flow s d x act st0 st1 _ _ _ _ _ _ _ HP _ Hl.
  destruct Hl as [[_ ->]|Hc]; [assumption|].
  eapply ledger_below_trans; [exact HP|].
  eapply ledger_commit_below; eauto.
Qed.

Lemma assign_priority_group_below (ps : Preferences) (label : string)
    (cap cap' : Ledger) (ga : Assignments) :
  assign_priority_group maximum_flow ps label cap = Some (ga, cap') ->
  ledger_below cap cap' /\ rows_filled ga.
Proof.
  unfold assign_priority_group.
  destruct (assign_levels maximum_flow ps ["1st"; "2nd"; "3rd"]
              (mkState Dict.empty cap)) as [st|] eqn:E; [|discriminate].
  intros H; inversion H; subst; clear H. revert E.
  apply (assign_levels_inv maximum_flow
           (fun st0 => ledger_below cap (ledger st0) /\
                       rows_filled (group_assignments st0))).
  - split; [apply ledger_below_refl | intros s row []].
  - intros level st0 G fd _ [HP1 HP2] _ _. split.
    + apply commit_flows_below. assumption.
    + apply commit_flows_inv; [assumption|].
      intros node row target flow s d x act st1 st2 _ _ _ _ _ _ _ HP Hg _.
      rewrite Hg. apply rows_filled_record. assumption.
Qed.

Lemma allocate_rows_filled (preferences : Preferences) (a : Assignments)
    (cap : Ledger) :
  allocate maximum_flow preferences = Some (a, cap) -> rows_filled a.
Proof.
  unfold allocate.
  destruct (init_capacity preferences) as [cap0|]; [|discriminate].
  unfold process_groups. intros Hrun.
  change (rows_filled (fst (a, cap))).
  eapply (fold_opt_inv (fun acc => rows_filled (fst acc))); [| |exact Hrun].
  - intros s row [].
  - intros label [a0 c0] acc1 _ HP. unfold process_group. cbn [fst snd] in *.
    destruct (assign_priority_group maximum_flow
                (priority_group label preferences) label c0)
      as [[ga c1]|] eqn:E; [|discriminate].
    intros H; inversion H; subst; clear H. cbn [fst].
    apply assign_priority_group_below in E as [_ E].
    intros s row Hin. apply In_update in Hin as [Hin|Hin]; eauto.
Qed.

End AnySolver.
End LooseFacts.

(** X5. Whatever the flow solver answers, a tier only ever takes seats:
    the ledger [assign_priority_group] leaves has exactly the entries of the
    ledger it received, and none of them is larger. *)
Theorem tier_only_takes_seats
    (maximum_flow : DiGraph -> string -> string -> option FlowDict)
    (ps : Preferences) (label : string) (cap cap' : Ledger) (ga : Assignments) :
  assign_priority_group maximum_flow ps label cap = Some (ga, cap') ->
  ledger_below cap cap'.
Proof.
  intros H.
  exact (proj1 (LooseFacts.assign_priority_group_below maximum_flow
                  ps label cap cap' ga H)).
Qed.

Lemma tier_only_takes_seats_witness : ledger_below full_ledger ledger_after_S1.
Proof.
  apply (tier_only_takes_seats Solver.maximum_flow S1_alone "high"
           full_ledger ledger_after_S1 S1_chess).
  vm_compute. reflexivity.
Defined.

(** X6. When the call of the flow solver raises in every pass, every pass
    is skipped and [assign_students_to_activities] returns [(None, None)],
    whatever the preferences. *)
Theorem failing_solver_gives_no_result
    (maximum_flow : DiGraph -> string -> string -> option FlowDict)
    (G : DiGraph) (preferences : Preferences) :
  (forall network s t, maximum_flow network s t = None) ->
  assign_students_to_activities maximum_flow G preferences = None.
Proof.
  intros Hfail. unfold assign_students_to_activities.
  destruct (allocate maximum_flow preferences) as [[a cap]|] eqn:E;
    [|reflexivity].
  assert (a = []) as ->; [|reflexivity].
  unfold allocate in E.
  destruct (init_capacity preferences) as [cap0|]; [|discriminate].
  unfold process_groups in E.
  change (fst (a, cap) = []).
  eapply (fold_opt_inv (fun acc : Assignments * Ledger => fst acc = []));
    [| |exact E].
  - reflexivity.
  - intros label [a0 c0] acc1 _ HP. cbn [fst] in HP. subst a0.
    unfold process_group, assign_priority_group. cbn [fst snd].
    destruct (assign_levels maximum_flow (priority_group label preferences)
                ["1st"; "2nd"; "3rd"] (mkState Dict.empty c0)) as [st|] eqn:El;
      [|discriminate].
    intros H; inversion H; subst; clear H. cbn [fst].
    assert (group_assignments st = []) as ->; [|reflexivity].
    revert El.
    apply (assign_levels_inv maximum_flow
             (fun st0 => group_assignments st0 = [])); [reflexivity|].
    intros level st0 network fd _ _ _ Hfd. rewrite Hfail in Hfd. discriminate.
Qed.

Lemma failing_solver_gives_no_result_witness :
  assign_students_to_activities (fun _ _ _ => None) Dict.empty sample_roster
    = None.
Proof.
  apply (failing_solver_gives_no_result (fun _ _ _ => None) Dict.empty
           sample_roster).
  reflexivity.
Defined.

(** ** The satisfaction counts *)

Module TallyFacts.

Lemma classify_adds_one (preferences : Preferences) (s : string)
    (sat sat' : Satisfaction) (item : string * string) :
  classify preferences s sat item = Some sat' ->
  sat_total sat' = sat_total sat + 1.
Proof.
  unfold classify, sat_total. destruct item as [d act].
  destruct (Dict.get s preferences) as [data|]; [|discriminate].
  destruct (Dict.get d (days data)) as [p|]; [|discriminate].
  destruct (String.eqb act (pref_1st p));
    [intros H; inversion H; simpl; lia|].
  destruct (String.eqb act (pref_2nd p));
    [intros H; inversion H; simpl; lia|].
  destruct (String.eqb act (pref_3rd p));
    intros H; inversion H; simpl; lia.
Qed.

Lemma classify_row (preferences : Preferences) (s : string)
    (row : Dict.t string) (sat sat' : Satisfaction) :
  fold_opt (classify preferences s) row sat = Some sat' ->
  sat_total sat' = sat_total sat + Z.of_nat (List.length row).
Proof.
  revert sat. induction row as [|item r IH]; intros sat H.
  - inversion H; subst. simpl. lia.
  - cbn [fold_opt] in H.
    destruct (classify preferences s sat item) as [sat1|] eqn:E;
      [|discriminate].
    rewrite (IH _ H), (classify_adds_one _ _ _ _ _ E).
    cbn [List.length]. lia.
Qed.

Lemma entries_cons (s : string) (row : Dict.t string) (r : Assignments) :
  entries ((s, row) :: r) = Z.of_nat (List.length row) + entries r.
Proof. reflexivity. Qed.

Lemma classify_all (preferences : Preferences) (a : Assignments)
    (sat sat' : Satisfaction) :
  fold_opt (fun sat0 (item : string * Dict.t string) =>
              fold_opt (classify preferences (fst item)) (snd item) sat0)
           a sat = Some sat' ->
  sat_total sat' = sat_total sat + entries a.
Proof.
  revert sat. induction a as [|[s row] r IH]; intros sat H.
  - inversion H; subst. unfold entries. simpl. lia.
  - cbn [fold_opt fst snd] in H.
    destruct (fold_opt (classify preferences s) row sat) as [sat1|] eqn:E;
      [|discriminate].
    rewrite (IH _ H), (classify_row _ _ _ _ _ E), entries_cons. lia.
Qed.

Lemma entries_positive (a : Assignments) :
  a <> [] -> rows_filled a -> 1 <= entries a.
Proof.
  destruct a as [|[s row] r]; [contradiction|]. intros _ H.
  assert (row <> []) as Hrow by (apply (H s); left; reflexivity).
  rewrite entries_cons.
  assert (0 <= entries r)
    by (apply SeatFacts.total_nonneg; intros; lia).
  destruct row; [contradiction|]. cbn [List.length]. lia.
Qed.

End TallyFacts.

Lemma satisfaction_counts_total
    (maximum_flow : DiGraph -> string -> string -> option FlowDict)
    (G : DiGraph) (preferences : Preferences) (assignments : Assignments)
    (sat : Satisfaction) :
  assign_students_to_activities maximum_flow G preferences
    = Some (assignments, sat) ->
  sat_total sat = entries assignments /\ 1 <= entries assignments.
Proof.
  unfold assign_students_to_activities.
  destruct (allocate maximum_flow preferences) as [[a cap]|] eqn:Ea;
    [|discriminate].
  destruct a as [|e r] eqn:Enil; [discriminate|].
  destruct (preference_satisfaction preferences (e :: r)) as [sat'|] eqn:Es;
    [|discriminate].
  intros H; inversion H; subst; clear H. split.
  - unfold preference_satisfaction in Es.
    rewrite (TallyFacts.classify_all _ _ _ _ Es). reflexivity.
  - apply TallyFacts.entries_positive; [discriminate|].
    eapply LooseFacts.allocate_rows_filled; eauto.
Qed.

(** X7. The four satisfaction counts partition the assignments: whenever
    the allocator returns a result, the counts of 1st, 2nd, 3rd and other
    add up to the number of (student, day) items of the returned mapping,
    and there is at least one.  This holds for every flow solver. *)
Theorem satisfaction_counts_add_up
    (maximum_flow : DiGraph -> string -> string -> option FlowDict)
    (G : DiGraph) (preferences : Preferences) (assignments : Assignments)
    (sat : Satisfaction) :
  assign_students_to_activities maximum_flow G preferences
    = Some (assignments, sat) ->
  sat_total sat = entries assignments /\ 1 <= entries assignments.
Proof.
  intros H.
  exact (satisfaction_counts_total maximum_flow G preferences assignments
           sat H).
Qed.

Lemma satisfaction_counts_add_up_witness :
  sat_total sample_satisfaction = entries sample_assignments /\
  1 <= entries sample_assignments.
Proof.
  apply (satisfaction_counts_add_up Solver.maximum_flow Dict.empty
           sample_roster).
  vm_compute. reflexivity.
Defined.

(** ** Who is assigned, and on which days *)

Module TierFacts.
Import DictFacts CountFacts.

Lemma dict_sum_cons {V : Type} (f : string -> V -> Z) (k : string) (v : V)
    (r : Dict.t V) :
  dict_sum f ((k, v) :: r) = f k v + dict_sum f r.
Proof. reflexivity. Qed.

Lemma row_count_entry (d act : string) (row : Dict.t string) :
  In (d, act) row ->
  1 <= dict_sum (fun d0 act0 =>
                   if String.eqb d0 d && String.eqb act0 act then 1 else 0) row.
Proof.
  set (f := fun d0 act0 : string =>
              if String.eqb d0 d && String.eqb act0 act then 1 else 0).
  assert (forall k v, 0 <= f k v) as Hf
      by (intros k v; unfold f;
          destruct (String.eqb k d && String.eqb v act); lia).
  induction row as [|[d0 a0] r IH]; [contradiction|].
  rewrite dict_sum_cons. pose proof (dict_sum_nonneg f r Hf) as Hr.
  pose proof (Hf d0 a0) as H0.
  intros [H|H].
  - inversion H; subst. assert (f d act = 1) as ->; [|lia].
    unfold f. rewrite !String.eqb_refl. reflexivity.
  - specialize (IH H). lia.
Qed.

Lemma entry_counted (s d act : string) (a : Assignments) :
  entry s d act a -> 1 <= committed_count d act a.
Proof.
  intros [row [H1 H2]]. unfold committed_count.
  set (g := fun (_ : string) (row0 : Dict.t string) =>
              dict_sum (fun d0 act0 : string =>
                          if String.eqb d0 d && String.eqb act0 act
                          then 1 else 0) row0).
  assert (forall k v, 0 <= g k v) as Hg.
  { intros k v. unfold g. apply dict_sum_nonneg. intros k0 v0.
    destruct (String.eqb k0 d && String.eqb v0 act); lia. }
  induction a as [|[s0 row0] r IH]; [contradiction|].
  rewrite dict_sum_cons. pose proof (dict_sum_nonneg g r Hg) as Hr.
  pose proof (Hg s0 row0) as H0.
  destruct H1 as [H1|H1].
  - inversion H1; subst. pose proof (row_count_entry d act row H2) as Hrow.
    fold (g s row) in Hrow. lia.
  - specialize (IH H1). lia.
Qed.

End TierFacts.

Section Tiered.
Import DictFacts.

Variable maximum_flow : DiGraph -> string -> string -> option FlowDict.
Hypothesis maximum_flow_feasible :
  forall G fd, maximum_flow G "source" "sink" = Some fd ->
               feasible_flow G "source" "sink" fd = true.
Variable preferences : Preferences.
Hypothesis preferences_wf : wf_preferences preferences.

Lemma allocated_students_known (assignments : Assignments) (cap : Ledger) :
  allocate maximum_flow preferences = Some (assignments, cap) ->
  forall s row,
    In (s, row) assignments ->
    exists stu,
      Dict.get s preferences = Some stu /\ In (weight stu) TIERS /\
      forall d act,
        In (d, act) row ->
        In d DAYS /\ exists prefs, Dict.get d (days stu) = Some prefs.
Proof.
  intros Ha s row Hrow.
  destruct (allocate_inv maximum_flow maximum_flow_feasible preferences
              preferences_wf _ _ Ha) as [cap0 [Hi Hinv]].
  destruct (ri_keys _ _ _ _ Hinv s (in_map fst _ _ Hrow)) as [stu [Hs Hw]].
  destruct preferences_wf as [W Wd].
  exists stu. split; [apply In_get; assumption|]. split; [assumption|].
  intros d act Hitem.
  assert (entry s d act assignments) as He by (exists row; auto).
  split.
  - pose proof (TierFacts.entry_counted _ _ _ _ He) as Hc.
    pose proof (ri_accounts _ _ _ _ Hinv d act) as Hacc. cbn [fst snd] in Hacc.
    destruct (remaining d act cap0) as [r0|] eqn:E0.
    + apply (InitFacts.init_capacity_fresh _ _ Hi d act r0 E0).
    + destruct Hacc as [_ Hz]. lia.
  - destruct (ri_justified _ _ _ _ Hinv _ _ _ He)
      as [stu' [prefs [level [Hs' [Hd _]]]]].
    rewrite (In_unique _ _ _ _ W Hs Hs').
    exists prefs. apply In_get; eauto.
Qed.

(** X8. Every student of the returned mapping is a student of the input
    whose tier is 'high', 'medium' or 'low', and every day the student is
    assigned is a configured day for which the student has a record. *)
Theorem assigned_students_are_tiered (G : DiGraph) (assignments : Assignments)
    (sat : Satisfaction) :
  assign_students_to_activities maximum_flow G preferences
    = Some (assignments, sat) ->
  forall s row,
    In (s, row) assignments ->
    exists stu,
      Dict.get s preferences = Some stu /\ In (weight stu) TIERS /\
      forall d act,
        In (d, act) row ->
        In d DAYS /\ exists prefs, Dict.get d (days stu) = Some prefs.
Proof.
  intros H. apply assign_allocate in H as [cap [Ha _]].
  exact (allocated_students_known assignments cap Ha).
Qed.

(** X9. When no student of the input has one of the three tiers (an empty
    input in particular), the allocator returns [(None, None)]. *)
Theorem no_tiered_student_no_result (G : DiGraph) :
  (forall sid stu, In (sid, stu) preferences -> ~ In (weight stu) TIERS) ->
  assign_students_to_activities maximum_flow G preferences = None.
Proof.
  intros Hnone. unfold assign_students_to_activities.
  destruct (allocate maximum_flow preferences) as [[a cap]|] eqn:Ea;
    [|reflexivity].
  destruct a as [|[s row] r]; [reflexivity|]. exfalso.
  destruct (allocate_inv maximum_flow maximum_flow_feasible preferences
              preferences_wf _ _ Ea) as [cap0 [_ Hinv]].
  destruct (ri_keys _ _ _ _ Hinv s (or_introl eq_refl)) as [stu [Hs Hw]].
  exact (Hnone s stu Hs Hw).
Qed.

End Tiered.

Lemma assigned_students_are_tiered_witness :
  assign_students_to_activities Solver.maximum_flow Dict.empty sample_roster
    = Some (sample_assignments, sample_satisfaction) /\
  (forall s row,
     In (s, row) sample_assignments ->
     exists stu,
       Dict.get s sample_roster = Some stu /\ In (weight stu) TIERS /\
       forall d act,
         In (d, act) row ->
         In d DAYS /\ exists prefs, Dict.get d (days stu) = Some prefs).
Proof.
  assert (assign_students_to_activities Solver.maximum_flow Dict.empty
            sample_roster = Some (sample_assignments, sample_satisfaction))
    as Hrun by (vm_compute; reflexivity).
  split; [exact Hrun|].
  exact (assigned_students_are_tiered Solver.maximum_flow solver_feasible
           sample_roster sample_roster_wf Dict.empty sample_assignments
           sample_satisfaction Hrun).
Defined.

Lemma no_tiered_student_no_result_witness :
  assign_students_to_activities Solver.maximum_flow Dict.empty
    [("S1", mkStudent "urgent" (week (mkPrefs "chess" "drama" "soccer")))]
  = None.
Proof.
  apply (no_tiered_student_no_result Solver.maximum_flow solver_feasible).
  - apply wf_preferencesb_wf. vm_compute. reflexivity.
  - intros sid stu [H|[]]. inversion H; subst. simpl.
    intuition discriminate.
Defined.

(** ** The initial ledger *)

Module InitMore.
Import DictFacts.

Lemma fold_opt_defined_inv {A S : Type} (P : S -> Prop)
    (body : S -> A -> option S) (l : list A) (s : S) :
  P s ->
  (forall a s0, In a l -> P s0 -> exists s1, body s0 a = Some s1 /\ P s1) ->
  exists s', fold_opt body l s = Some s' /\ P s'.
Proof.
  revert s. induction l as [|b r IH]; simpl; intros s Hs H; [eauto|].
  destruct (H b s (or_introl eq_refl) Hs) as [s1 [-> H1]].
  apply IH; [assumption|]. intros; apply H; auto.
Qed.

Lemma get_map_present {V : Type} (v : V) (d : string) (l : list string) :
  In d l -> Dict.get d (map (fun k => (k, v)) l) = Some v.
Proof.
  induction l as [|k r IH]; simpl; [contradiction|].
  destruct (String.eqb d k) eqn:E; [reflexivity|].
  apply String.eqb_neq in E. intros [H|H]; [congruence | auto].
Qed.

Lemma init_activity_defined (day act : string) (cap : Ledger) :
  days_present cap ->
  In day DAYS ->
  exists cap', init_activity day cap act = Some cap' /\ days_present cap' /\
               (exists r, remaining day act cap' = Some r) /\
               forall d a r, remaining d a cap = Some r ->
                             remaining d a cap' = Some r.
Proof.
  intros HP Hday. unfold init_activity.
  destruct (Dict.get day cap) as [row|] eqn:Er;
    [|exfalso; exact (HP day Hday Er)].
  destruct (Dict.mem act row) eqn:Em.
  - exists cap. split; [reflexivity|]. split; [assumption|]. split; [|auto].
    apply mem_true, In_keys_get in Em as [r Hr]. exists r.
    unfold remaining. rewrite Er. assumption.
  - eexists. split; [reflexivity|]. split; [|split].
    + intros d Hd. destruct (string_dec d day) as [->|N].
      * rewrite get_set_same. discriminate.
      * rewrite get_set_other by assumption. apply HP. assumption.
    + exists 15. unfold remaining. rewrite !get_set_same. reflexivity.
    + intros d a r. unfold remaining.
      destruct (string_dec d day) as [->|N].
      * rewrite get_set_same, Er. intros Hr.
        rewrite get_set_other; [assumption|].
        intros ->. apply mem_false in Em. congruence.
      * rewrite get_set_other by assumption. auto.
Qed.

Lemma fold_opt_grows {A S I : Type} (P : S -> Prop) (E : I -> S -> Prop)
    (tag : A -> I -> Prop) (body : S -> A -> option S) (l : list A) (s : S) :
  P s ->
  (forall a s0, In a l -> P s0 ->
                exists s1, body s0 a = Some s1 /\ P s1 /\
                           (forall i, E i s0 -> E i s1) /\
                           (forall i, tag a i -> E i s1)) ->
  exists s', fold_opt body l s = Some s' /\ P s' /\
             (forall i, E i s -> E i s') /\
             (forall a i, In a l -> tag a i -> E i s').
Proof.
  revert s. induction l as [|b r IH]; intros s Hs H.
  - exists s. simpl. repeat split; auto. intros a i [].
  - destruct (H b s (or_introl eq_refl) Hs) as [s1 [Hb [H1 [Hk Ht]]]].
    destruct (IH s1 H1) as [s' [Hf [HP [Hk' Ht']]]].
    { intros; apply H; auto. right; assumption. }
    exists s'. cbn [fold_opt]. rewrite Hb. split; [assumption|].
    split; [assumption|]. split; [auto|].
    intros a i [->|Hin] Hti; [apply Hk', Ht; assumption | eauto].
Qed.

Lemma init_activity_new (day act d a : string) (cap cap' : Ledger) (r : Z) :
  init_activity day cap act = Some cap' ->
  remaining d a cap' = Some r ->
  remaining d a cap = Some r \/ (d = day /\ a = act).
Proof.
  unfold init_activity.
  destruct (Dict.get day cap) as [row|] eqn:Er; [|discriminate].
  destruct (Dict.mem act row); intros H; inversion H; subst; clear H;
    [auto|].
  unfold remaining.
  destruct (string_dec d day) as [->|Nd].
  - rewrite get_set_same, Er.
    destruct (string_dec a act) as [->|Na]; [auto|].
    rewrite get_set_other by assumption. auto.
  - rewrite get_set_other by assumption. auto.
Qed.

Lemma init_capacity_listed (preferences : Preferences) (cap0 : Ledger) :
  init_capacity preferences = Some cap0 ->
  forall d a r, remaining d a cap0 = Some r -> listed preferences d a.
Proof.
  unfold init_capacity.
  apply (fold_opt_inv (fun cap => forall d a r, remaining d a cap = Some r ->
                                                listed preferences d a)).
  - intros d a r. unfold remaining.
    destruct (Dict.get d (map (fun day => (day, Dict.empty)) DAYS))
      as [row|] eqn:E; [|discriminate].
    apply InitFacts.get_map_const in E. subst. discriminate.
  - intros day cap cap' _ Hcap. unfold init_day.
    apply (fold_opt_inv (fun cap => forall d a r, remaining d a cap = Some r ->
                                                  listed preferences d a));
      [assumption|].
    intros [sid st] cap1 cap2 Hs Hcap1. unfold init_student. cbn [fst snd].
    destruct (Dict.get day (days st)) as [p|] eqn:Ep; [|discriminate].
    apply (fold_opt_inv (fun cap => forall d a r, remaining d a cap = Some r ->
                                                  listed preferences d a));
      [assumption|].
    intros act cap3 cap4 Hact Hcap3 Hi d a r Hr.
    destruct (init_activity_new _ _ _ _ _ _ _ Hi Hr) as [Hold|[-> ->]].
    + eauto.
    + exists sid, st, p. auto.
Qed.

Lemma init_capacity_defined (preferences : Preferences) :
  (forall sid st d, In (sid, st) preferences -> In d DAYS ->
                    Dict.get d (days st) <> None) ->
  exists cap0,
    init_capacity preferences = Some cap0 /\
    forall d a, In d DAYS -> listed preferences d a -> has_entry (d, a) cap0.
Proof.
  intros Hall. unfold init_capacity.
  destruct (fold_opt_grows days_present has_entry
              (fun day i => fst i = day /\ listed preferences day (snd i))
              (init_day preferences) DAYS
              (map (fun day => (day, Dict.empty)) DAYS))
    as [cap0 [Hf [_ [_ Ht]]]].
  - intros d Hd. rewrite (get_map_present _ _ _ Hd). discriminate.
  - intros day cap Hday HP. unfold init_day.
    destruct (fold_opt_grows days_present has_entry
                (fun (item : string * Student) i =>
                   fst i = day /\
                   exists p, Dict.get day (days (snd item)) = Some p /\
                             In (snd i) (prefs_values p))
                (init_student day) preferences cap)
      as [cap1 [Hf1 [HP1 [Hk1 Ht1]]]]; [assumption| |].
    + intros [sid st] cap2 Hs HP2. unfold init_student. cbn [fst snd].
      destruct (Dict.get day (days st)) as [p|] eqn:Ep;
        [|exfalso; exact (Hall sid st day Hs Hday Ep)].
      destruct (fold_opt_grows days_present has_entry
                  (fun act i => fst i = day /\ snd i = act)
                  (init_activity day) (prefs_values p) cap2)
        as [cap3 [Hf3 [HP3 [Hk3 Ht3]]]]; [assumption| |].
      * intros act cap4 _ HP4.
        destruct (init_activity_defined day act cap4 HP4 Hday)
          as [cap5 [Hi [HP5 [Hnew Hold]]]].
        exists cap5. split; [assumption|]. split; [assumption|]. split.
        -- intros [d a] [r Hr]. exists r. apply Hold. assumption.
        -- intros [d a] [Hd Ha]. cbn [fst snd] in *. subst. assumption.
      * exists cap3. split; [assumption|]. split; [assumption|].
        split; [assumption|].
        intros [d a] [Hd [p' [Hp' Ha]]]. cbn [fst snd] in *. subst d.
        inversion Hp'; subst p'.
        apply (Ht3 a (day, a)); auto.
    + exists cap1. split; [assumption|]. split; [assumption|].
      split; [assumption|].
      intros [d a] [Hd [sid [st [p [Hs [Hp Ha]]]]]]. cbn [fst snd] in *.
      subst d. apply (Ht1 (sid, st) (day, a)); [assumption|].
      split; [reflexivity|]. exists p. auto.
  - exists cap0. split; [assumption|].
    intros d a Hd Hl. apply (Ht d (d, a)); auto.
Qed.

End InitMore.

(** ** The tiers, one after the other *)

Module TwoRuns.
Import DictFacts AssignFacts CommitFacts.





Lemma same_seats_refl (ps : Preferences) (cap : Ledger) : same_seats ps cap cap.
Proof. intros sid stu d prefs a _ _ _. reflexivity. Qed.



Section Pass.
Variables (ps : Preferences) (cap0 : Ledger) (level : string)
          (G : DiGraph) (fd : FlowDict).
Hypothesis network : create_priority_network ps cap0 level = Some G.
Hypothesis feasible : feasible_flow G "source" "sink" fd = true.




End Pass.

Section Tier.
Variable maximum_flow : DiGraph -> string -> string -> option FlowDict.
Hypothesis maximum_flow_feasible :
  forall G fd, maximum_flow G "source" "sink" = Some fd ->
               feasible_flow G "source" "sink" fd = true.




End Tier.
End TwoRuns.

Section StrictOrder.
Import DictFacts.

Variable maximum_flow : DiGraph -> string -> string -> option FlowDict.
Hypothesis maximum_flow_feasible :
  forall G fd, maximum_flow G "source" "sink" = Some fd ->
               feasible_flow G "source" "sink" fd = true.









End StrictOrder.



(** The high tier of [sample_roster] run alone: S1 is assigned what it is
    assigned in the run on the whole roster. *)
Lemma high_tier_alone :
  allocate Solver.maximum_flow (priority_group "high" sample_roster)
    = Some (S1_chess, ledger_after_S1) /\
  Dict.get "S1" S1_chess = Dict.get "S1" sample_assignments.
Proof. split; vm_compute; reflexivity. Qed.


(** X10. When every student has a record for each of the four configured
    days, the ledger initialisation succeeds, and the initial ledger has an
    entry for exactly the activities some student lists among the three
    choices of a configured day, each with 15 seats. *)
Theorem initial_ledger_is_complete (preferences : Preferences) :
  (forall sid st d, In (sid, st) preferences -> In d DAYS ->
                    Dict.get d (days st) <> None) ->
  exists cap0,
    init_capacity preferences = Some cap0 /\
    forall d a,
      (In d DAYS /\ listed preferences d a -> remaining d a cap0 = Some 15) /\
      (forall r, remaining d a cap0 = Some r ->
                 r = 15 /\ In d DAYS /\ listed preferences d a).
Proof.
  intros Hall.
  destruct (InitMore.init_capacity_defined preferences Hall)
    as [cap0 [Hi Hentry]].
  exists cap0. split; [assumption|]. intros d a. split.
  - intros [Hd Hl]. destruct (Hentry d a Hd Hl) as [r Hr].
    cbn [fst snd] in Hr.
    destruct (InitFacts.init_capacity_fresh _ _ Hi d a r Hr) as [_ ->].
    assumption.
  - intros r Hr.
    destruct (InitFacts.init_capacity_fresh _ _ Hi d a r Hr) as [Hd ->].
    split; [reflexivity|]. split; [assumption|].
    eapply InitMore.init_capacity_listed; eauto.
Qed.

Lemma initial_ledger_is_complete_witness :
  exists cap0,
    init_capacity S1_alone = Some cap0 /\
    forall d a,
      (In d DAYS /\ listed S1_alone d a -> remaining d a cap0 = Some 15) /\
      (forall r, remaining d a cap0 = Some r ->
                 r = 15 /\ In d DAYS /\ listed S1_alone d a).
Proof.
  apply (initial_ledger_is_complete S1_alone).
  intros sid st d [H|[]] Hd. inversion H; subst.
  simpl in Hd. destruct Hd as [<-|[<-|[<-|[<-|[]]]]]; discriminate.
Defined.

(** ** More on the loader *)

Module LoaderFacts.
Import Loader.

Lemma cell_eqb_eq (a b : Cell) : cell_eqb a b = true <-> a = b.
Proof.
  destruct a as [|x], b as [|y]; simpl; split; try congruence; try reflexivity.
  - intros H. apply String.eqb_eq in H. congruence.
  - intros H. inversion H. apply String.eqb_refl.
Qed.

Lemma cell_eqb_refl (a : Cell) : cell_eqb a a = true.
Proof. apply cell_eqb_eq. reflexivity. Qed.

Lemma cell_eqb_neq (a b : Cell) : a <> b -> cell_eqb a b = false.
Proof.
  intros N. destruct (cell_eqb a b) eqn:E; [|reflexivity].
  apply cell_eqb_eq in E. contradiction.
Qed.

Lemma cell_dec (a b : Cell) : {a = b} + {a <> b}.
Proof. decide equality. apply string_dec. Qed.

Lemma find_store_same (k : Cell) (v : Loaded) (t : Table) :
  find k (store k v t) = Some v.
Proof.
  induction t as [|[k' v'] r IH]; simpl.
  - rewrite cell_eqb_refl. reflexivity.
  - destruct (cell_eqb k k') eqn:E; simpl.
    + rewrite cell_eqb_refl. reflexivity.
    + rewrite E. assumption.
Qed.

Lemma find_store_other (k k' : Cell) (v : Loaded) (t : Table) :
  k' <> k -> find k' (store k v t) = find k' t.
Proof.
  intros N. induction t as [|[k0 v0] r IH]; simpl.
  - rewrite (cell_eqb_neq _ _ N). reflexivity.
  - destruct (cell_eqb k k0) eqn:E; simpl.
    + apply cell_eqb_eq in E. subst k0.
      rewrite (cell_eqb_neq _ _ N). reflexivity.
    + rewrite IH. reflexivity.
Qed.

Lemma find_None_keys (k : Cell) (t : Table) :
  find k t = None <-> ~ In k (map fst t).
Proof.
  induction t as [|[k' v'] r IH]; simpl; [tauto|].
  destruct (cell_eqb k k') eqn:E.
  - apply cell_eqb_eq in E. subst. split; [discriminate | intros H; exfalso; auto].
  - rewrite IH. split; intros H.
    + intros [H'|H']; [|auto]. subst. rewrite cell_eqb_refl in E. discriminate.
    + auto.
Qed.

Lemma keys_store (k : Cell) (v : Loaded) (t : Table) :
  map fst (store k v t) =
  match find k t with
  | Some _ => map fst t
  | None => (map fst t ++ [k])%list
  end.
Proof.
  induction t as [|[k' v'] r IH]; simpl; [reflexivity|].
  destruct (cell_eqb k k') eqn:E; simpl.
  - apply cell_eqb_eq in E. subst. reflexivity.
  - rewrite IH. destruct (find k r); reflexivity.
Qed.

Lemma store_keeps_NoDup (k : Cell) (v : Loaded) (t : Table) :
  NoDup (map fst t) -> NoDup (map fst (store k v t)).
Proof.
  intros H. rewrite keys_store. destruct (find k t) eqn:E; [assumption|].
  apply find_None_keys in E.
  apply NoDup_app; [assumption | repeat constructor; simpl; tauto |].
  intros x Hx [<-|[]]. contradiction.
Qed.

Lemma In_keys_store (k k' : Cell) (v : Loaded) (t : Table) :
  In k' (map fst (store k v t)) <-> k' = k \/ In k' (map fst t).
Proof.
  rewrite keys_store. destruct (find k t) eqn:E.
  - split; [auto|]. intros [->|H]; [|assumption].
    destruct (in_dec cell_dec k (map fst t)) as [H|H]; [assumption|].
    apply find_None_keys in H. congruence.
  - rewrite in_app_iff. simpl. intuition.
Qed.

Lemma store_store (k : Cell) (v v0 : Loaded) (t : Table) :
  store k v (store k v0 t) = store k v t.
Proof.
  induction t as [|[k' v'] r IH]; simpl.
  - rewrite cell_eqb_refl. reflexivity.
  - destruct (cell_eqb k k') eqn:E; simpl.
    + rewrite cell_eqb_refl. reflexivity.
    + rewrite E, IH. reflexivity.
Qed.

Lemma stripped_complete (key s : string) (row : Row) :
  Dict.get key row = Some (CStr s) -> stripped key row = Some (strip s).
Proof. unfold stripped. intros ->. reflexivity. Qed.

(** What a complete row does to the table. *)
Lemma load_complete_row (row : Row) (sid : Cell) (d p1 p2 p3 : string)
    (t : Table) :
  complete_row row sid d p1 p2 p3 ->
  load_row row t =
  Done (store sid
          (mkLoaded
             (match find sid t with
              | Some rec => loaded_weight rec
              | None => priority_of row
              end)
             (Dict.set (lower (strip d))
                (mkPrefs (strip p1) (strip p2) (strip p3))
                (match find sid t with
                 | Some rec => loaded_days rec
                 | None => Dict.empty
                 end)))
          t).
Proof.
  intros [Hs [Hd [H1 [H2 H3]]]]. unfold load_row.
  rewrite Hs, (stripped_complete _ _ _ Hd), (stripped_complete _ _ _ H1),
    (stripped_complete _ _ _ H2), (stripped_complete _ _ _ H3).
  destruct (find sid t) as [rec|] eqn:Ef.
  - rewrite Ef. reflexivity.
  - rewrite find_store_same. cbn [loaded_weight loaded_days].
    rewrite store_store. reflexivity.
Qed.

Lemma load_complete_rows (rows : list Row) (t0 : Table) :
  (forall row, In row rows -> complete row) ->
  NoDup (map fst t0) ->
  exists t,
    for_each load_row rows t0 = Done t /\ NoDup (map fst t) /\
    forall k, In k (map fst t) <->
              In k (map fst t0) \/
              exists row, In row rows /\ Dict.get "student_id" row = Some k.
Proof.
  revert t0. induction rows as [|row r IH]; intros t0 Hall ND.
  - exists t0. simpl. split; [reflexivity|]. split; [assumption|].
    intros k. split; [auto|]. intros [H|[row [[] _]]]. assumption.
  - destruct (Hall row (or_introl eq_refl)) as [sid [d [p1 [p2 [p3 Hc]]]]].
    cbn [for_each]. rewrite (load_complete_row _ _ _ _ _ _ t0 Hc).
    set (t1 := store sid _ t0).
    destruct (IH t1) as [t [Hf [NDt Hk]]].
    + intros; apply Hall; right; assumption.
    + apply store_keeps_NoDup. assumption.
    + exists t. split; [assumption|]. split; [assumption|].
      intros k. rewrite Hk. unfold t1. rewrite In_keys_store.
      destruct Hc as [Hs _]. split.
      * intros [[->|H]|[row' [Hin Hrow]]]; [right| left | right]; eauto.
        -- exists row. split; [left; reflexivity | assumption].
        -- exists row'. split; [right; assumption | assumption].
      * intros [H|[row' [[<-|Hin] Hrow]]]; [auto | | eauto].
        left. left. congruence.
Qed.

Lemma has_text_stripped (key : string) (row : Row) :
  has_text key row = true <-> exists s, Dict.get key row = Some (CStr s).
Proof.
  unfold has_text. destruct (Dict.get key row) as [[|s]|]; split;
    try discriminate; try (intros [s' H]; discriminate); eauto.
Qed.

Lemma stripped_has_text (key : string) (row : Row) :
  has_text key row = false <-> stripped key row = None.
Proof.
  unfold has_text, stripped.
  destruct (Dict.get key row) as [[|s]|]; split; congruence.
Qed.

(** The rows that are not malformed are the complete rows. *)
Lemma malformed_complete (row : Row) :
  malformed row = false <-> complete row.
Proof.
  unfold malformed, complete, complete_row. split.
  - destruct (Dict.get "student_id" row) as [sid|]; [|discriminate].
    intros H. apply negb_false_iff in H.
    repeat (apply andb_true_iff in H as [H ?]).
    repeat match goal with
           | H : has_text _ _ = true |- _ =>
               apply has_text_stripped in H as [? ?]
           end.
    eauto 10.
  - intros [sid [d [p1 [p2 [p3 [Hs [Hd [H1 [H2 H3]]]]]]]]].
    rewrite Hs. unfold has_text. rewrite Hd, H1, H2, H3. reflexivity.
Qed.

(** A malformed row raises, and leaves the table as lines 27-32 made it. *)
Lemma load_malformed_row (row : Row) (t : Table) :
  malformed row = true -> load_row row t = Raised (table_at_failure row t).
Proof.
  unfold malformed, table_at_failure, load_row.
  destruct (Dict.get "student_id" row) as [sid|]; [|reflexivity].
  intros H. apply negb_true_iff in H.
  destruct (has_text "day" row) eqn:Ed.
  - destruct (stripped "day" row) as [d|] eqn:Sd.
    2:{ apply stripped_has_text in Sd. congruence. }
    destruct (has_text "1st_preference" row) eqn:E1.
    + destruct (has_text "2nd_preference" row) eqn:E2.
      * destruct (has_text "3rd_preference" row) eqn:E3; [discriminate|].
        apply stripped_has_text in E3. rewrite E3.
        destruct (stripped "1st_preference" row),
                 (stripped "2nd_preference" row);
          destruct (find sid t); reflexivity.
      * apply stripped_has_text in E2. rewrite E2.
        destruct (stripped "1st_preference" row); destruct (find sid t);
          reflexivity.
    + apply stripped_has_text in E1. rewrite E1.
      destruct (find sid t); reflexivity.
  - apply stripped_has_text in Ed. rewrite Ed.
    destruct (find sid t); reflexivity.
Qed.

(** The body of the loop raises on the malformed rows and on no others. *)
Lemma load_row_raises_iff (row : Row) (t : Table) :
  (exists t', load_row row t = Raised t') <-> malformed row = true.
Proof.
  split.
  - intros [t' H]. destruct (malformed row) eqn:E; [reflexivity|].
    apply malformed_complete in E as [sid [d [p1 [p2 [p3 Hc]]]]].
    rewrite (load_complete_row _ _ _ _ _ _ t Hc) in H. discriminate.
  - intros H. eexists. apply load_malformed_row. assumption.
Qed.

End LoaderFacts.

(** C7, as the code has it.  The loop over the rows sits in a single
    [try].  A row is malformed when it lacks the column [student_id], or
    when its day or one of its three choices is absent or [None]; a
    [student_id] of [None] is filed like any other.  At the first malformed
    row the loading stops: the table holds what the rows before it loaded
    and, when the malformed row names a student that was not known, an entry
    without days for that student; the malformed row raises in the body of
    the loop; none of the rows after it is read; and the error is printed in
    place of the number of students. *)
Theorem load_stops_at_malformed_row (before later : list Loader.Row)
    (bad : Loader.Row) :
  (forall row, In row before -> malformed row = false) ->
  malformed bad = true ->
  exists t1,
    Loader.load_student_preferences (Some before)
      = (t1, Loader.LoadedCount (List.length t1)) /\
    Loader.load_row bad t1 = Raised (table_at_failure bad t1) /\
    Loader.load_student_preferences (Some (before ++ bad :: later)%list)
      = (table_at_failure bad t1, Loader.LoadError).
Proof.
  intros Hbefore Hbad.
  destruct (LoaderFacts.load_complete_rows before [])
    as [t1 [Hf _]].
  - intros row Hin. apply LoaderFacts.malformed_complete. auto.
  - constructor.
  - exists t1. unfold Loader.load_student_preferences.
    rewrite for_each_app, Hf. cbn [for_each].
    rewrite (LoaderFacts.load_malformed_row bad t1 Hbad). auto.
Qed.

Lemma load_stops_at_malformed_row_witness :
  exists t1,
    Loader.load_student_preferences (Some [Loader.good_row "S1" " Mon "])
      = (t1, Loader.LoadedCount (List.length t1)) /\
    Loader.load_row (Loader.short_row "S2") t1
      = Raised (table_at_failure (Loader.short_row "S2") t1) /\
    Loader.load_student_preferences (Some Loader.three_rows)
      = (table_at_failure (Loader.short_row "S2") t1, Loader.LoadError).
Proof.
  apply (load_stops_at_malformed_row
           [Loader.good_row "S1" " Mon "] [Loader.good_row "S3" "mon"]
           (Loader.short_row "S2")).
  - intros row [<-|[]]. reflexivity.
  - reflexivity.
Defined.

(** X11. When every row holds the five fields the loader reads, no row
    is lost: the loader reports, without error, the number of students of
    its table, and the table has exactly one entry per distinct value of
    the [student_id] field. *)
Theorem complete_rows_all_load (rows : list Loader.Row) :
  (forall row, In row rows -> complete row) ->
  exists t,
    Loader.load_student_preferences (Some rows)
      = (t, Loader.LoadedCount (List.length t)) /\
    NoDup (map fst t) /\
    forall k, In k (map fst t) <->
              exists row, In row rows /\ Dict.get "student_id" row = Some k.
Proof.
  intros Hall.
  destruct (LoaderFacts.load_complete_rows rows [] Hall (NoDup_nil _))
    as [t [Hf [ND Hk]]].
  exists t. unfold Loader.load_student_preferences. rewrite Hf.
  split; [reflexivity|]. split; [assumption|].
  intros k. rewrite Hk. simpl. tauto.
Qed.

Lemma complete_rows_all_load_witness :
  exists t,
    Loader.load_student_preferences
      (Some [Loader.good_row "S1" " Mon "; Loader.good_row "S3" "mon"])
      = (t, Loader.LoadedCount (List.length t)) /\
    NoDup (map fst t) /\
    forall k, In k (map fst t) <->
              exists row,
                In row [Loader.good_row "S1" " Mon "; Loader.good_row "S3" "mon"]
                /\ Dict.get "student_id" row = Some k.
Proof.
  apply (complete_rows_all_load
           [Loader.good_row "S1" " Mon "; Loader.good_row "S3" "mon"]).
  intros row [<-|[<-|[]]].
  - exists (Loader.CStr "S1"), " Mon ", "chess", "drama", "soccer".
    repeat split; reflexivity.
  - exists (Loader.CStr "S3"), "mon", "chess", "drama", "soccer".
    repeat split; reflexivity.
Defined.

(** X12. A complete row whose day and three choices are ASCII text is
    filed under the stripped, lower-cased day, with the three choices
    stripped.  The priority of a student is the one of the student's first
    row: a later row of a known student leaves the priority alone and
    replaces the record of its day, whatever its own priority field holds.
    The other students are untouched. *)
Theorem later_row_keeps_first_priority (row : Loader.Row) (sid : Loader.Cell)
    (d p1 p2 p3 : string) (t : Loader.Table) :
  complete_row row sid d p1 p2 p3 ->
  ascii_text d = true -> ascii_text p1 = true ->
  ascii_text p2 = true -> ascii_text p3 = true ->
  exists t',
    Loader.load_row row t = Done t' /\
    (exists rec',
        Loader.find sid t' = Some rec' /\
        Dict.get (Loader.lower (Loader.strip d)) (Loader.loaded_days rec')
          = Some (mkPrefs (Loader.strip p1) (Loader.strip p2)
                          (Loader.strip p3)) /\
        Loader.loaded_weight rec' =
          match Loader.find sid t with
          | Some rec => Loader.loaded_weight rec
          | None => Loader.priority_of row
          end /\
        forall day, day <> Loader.lower (Loader.strip d) ->
                    Dict.get day (Loader.loaded_days rec') =
                    match Loader.find sid t with
                    | Some rec => Dict.get day (Loader.loaded_days rec)
                    | None => None
                    end) /\
    forall k, k <> sid -> Loader.find k t' = Loader.find k t.
Proof.
  intros Hc _ _ _ _.
  eexists. split; [apply (LoaderFacts.load_complete_row _ _ _ _ _ _ t Hc)|].
  split.
  - eexists. split; [apply LoaderFacts.find_store_same|].
    cbn [Loader.loaded_days Loader.loaded_weight].
    split; [apply DictFacts.get_set_same|]. split; [reflexivity|].
    intros day N. rewrite DictFacts.get_set_other by assumption.
    destruct (Loader.find sid t); reflexivity.
  - intros k N. apply LoaderFacts.find_store_other. assumption.
Qed.

Lemma later_row_keeps_first_priority_witness :
  exists t',
    Loader.load_row
      [("student_id", Loader.CStr "S1"); ("priority", Loader.CStr "low");
       ("day", Loader.CStr "MON"); ("1st_preference", Loader.CStr "art");
       ("2nd_preference", Loader.CStr "drama");
       ("3rd_preference", Loader.CStr "soccer")]
      [(Loader.CStr "S1",
        Loader.mkLoaded (Loader.CStr "high")
          [("mon", mkPrefs "chess" "drama" "soccer")])]
      = Done t' /\
    Loader.find (Loader.CStr "S1") t'
      = Some (Loader.mkLoaded (Loader.CStr "high")
                [("mon", mkPrefs "art" "drama" "soccer")]).
Proof.
  destruct (later_row_keeps_first_priority
              [("student_id", Loader.CStr "S1"); ("priority", Loader.CStr "low");
               ("day", Loader.CStr "MON"); ("1st_preference", Loader.CStr "art");
               ("2nd_preference", Loader.CStr "drama");
               ("3rd_preference", Loader.CStr "soccer")]
              (Loader.CStr "S1") "MON" "art" "drama" "soccer"
              [(Loader.CStr "S1",
                Loader.mkLoaded (Loader.CStr "high")
                  [("mon", mkPrefs "chess" "drama" "soccer")])])
    as [t' [Hl _]]; try reflexivity.
  - repeat split; reflexivity.
  - exists t'. split; [assumption|].
    vm_compute in Hl. inversion Hl. reflexivity.
Defined.

(** ** build_flow_network *)

Module WeightedFacts.
Import DictFacts.

Lemma fold_opt_each_inv {A S : Type} (P : S -> Prop)
    (body : S -> A -> option S) (l : list A) (s s' : S) (a : A) :
  P s ->
  (forall b s0 s1, In b l -> P s0 -> body s0 b = Some s1 -> P s1) ->
  fold_opt body l s = Some s' -> In a l ->
  exists s0 s1, P s0 /\ body s0 a = Some s1.
Proof.
  revert s. induction l as [|b r IH]; simpl; intros s Hs Hstep H Hin;
    [contradiction|].
  destruct (body s b) as [s1|] eqn:E; [|discriminate].
  destruct Hin as [->|Hin]; [eauto|].
  apply (IH s1); eauto.
Qed.

Lemma note_activities_keyed (days_ : list string)
    (acts acts' : Dict.t (list string)) (item : string * Prefs) :
  keyed days_ acts -> note_activities acts item = Some acts' ->
  keyed days_ acts'.
Proof.
  unfold keyed, note_activities. destruct item as [day prefs]. intros HK.
  destruct (Dict.get day acts) as [known|] eqn:E; [|discriminate].
  intros H; inversion H as [H1]. rewrite keys_set_in; [assumption|].
  eapply get_Some_keys; eauto.
Qed.

Lemma note_student_keyed (days_ : list string)
    (acts acts' : Dict.t (list string)) (item : string * Student) :
  keyed days_ acts ->
  fold_opt note_activities (days (snd item)) acts = Some acts' ->
  keyed days_ acts'.
Proof.
  intros HK. apply (fold_opt_inv (keyed days_)); [assumption|].
  intros it a0 a1 _ H0. apply note_activities_keyed. assumption.
Qed.

Lemma keyed_start (days_ : list string) :
  keyed days_ (map (fun day => (day, [])) days_).
Proof.
  unfold keyed, Dict.keys. rewrite map_map. simpl. apply map_id.
Qed.

Lemma add_weighted_day_defined (sid : string) (w : Z) (G : DiGraph)
    (item : string * Prefs) :
  exists G', add_weighted_day sid w G item = Some G'.
Proof.
  destruct item as [day prefs]. unfold add_weighted_day, prefs_items.
  cbn [fold_opt]. unfold add_weighted_choice.
  assert (Dict.get (hd EmptyString (PyStr.split "1st_preference"))
                   PREFERENCE_WEIGHTS = Some 0) as -> by reflexivity.
  assert (Dict.get (hd EmptyString (PyStr.split "2nd_preference"))
                   PREFERENCE_WEIGHTS = Some 1) as -> by reflexivity.
  assert (Dict.get (hd EmptyString (PyStr.split "3rd_preference"))
                   PREFERENCE_WEIGHTS = Some 2) as -> by reflexivity.
  eauto.
Qed.

End WeightedFacts.

(** X13. [build_flow_network] returns a network exactly when every
    student's tier is a key of [STUDENT_WEIGHTS] and every day of every
    student's record is one of the days it was given; otherwise a
    [KeyError] leaves the function. *)
Theorem weighted_network_built_iff (preferences : Preferences)
    (days_ : list string) (max_capacity_per_activity : Z) :
  (exists G,
      build_flow_network preferences days_ max_capacity_per_activity = Some G)
  <->
  (forall sid st,
      In (sid, st) preferences ->
      (exists w, Dict.get (weight st) STUDENT_WEIGHTS = Some w) /\
      forall day p, In (day, p) (days st) -> In day days_).
Proof.
  unfold build_flow_network. split.
  - intros [G HG] sid st Hs.
    destruct (fold_opt (fun acts (item : string * Student) =>
                          fold_opt note_activities (days (snd item)) acts)
                       preferences (map (fun day => (day, [])) days_))
      as [acts|] eqn:E1; [|discriminate].
    destruct (fold_opt add_weighted_student preferences empty_network)
      as [G0|] eqn:E2; [|discriminate].
    split.
    + destruct (fold_opt_each _ _ _ _ _ E2 Hs) as [G1 [G2 H]].
      unfold add_weighted_student in H. cbn [fst snd] in H.
      destruct (Dict.get (weight st) STUDENT_WEIGHTS) as [w|];
        [eauto | discriminate].
    + intros day p Hd.
      destruct (WeightedFacts.fold_opt_each_inv
                  (keyed days_) _ _ _ _ (sid, st)
                  (WeightedFacts.keyed_start days_)
                  (fun b s0 s1 _ => WeightedFacts.note_student_keyed days_ s0 s1 b)
                  E1 Hs) as [a0 [a1 [HK H]]].
      cbn [snd] in H.
      destruct (WeightedFacts.fold_opt_each_inv
                  (keyed days_) _ _ _ _ (day, p) HK
                  (fun b s0 s1 _ => WeightedFacts.note_activities_keyed
                                      days_ s0 s1 b)
                  H Hd) as [a2 [a3 [HK2 H2]]].
      unfold note_activities in H2.
      destruct (Dict.get day a2) as [known|] eqn:Eg; [|discriminate].
      rewrite <- HK2. eapply DictFacts.get_Some_keys; eauto.
  - intros Hall.
    destruct (InitMore.fold_opt_defined_inv (keyed days_)
                (fun acts (item : string * Student) =>
                   fold_opt note_activities (days (snd item)) acts)
                preferences (map (fun day => (day, [])) days_)
                (WeightedFacts.keyed_start days_))
      as [acts [-> _]].
    { intros [sid st] a0 Hs HK. cbn [snd].
      apply InitMore.fold_opt_defined_inv; [assumption|].
      intros [day p] a1 Hd HK1.
      destruct (Hall sid st Hs) as [_ Hdays].
      pose proof (Hdays day p Hd) as Hin. rewrite <- HK1 in Hin.
      destruct (DictFacts.In_keys_get _ _ Hin) as [known Hk].
      unfold note_activities. rewrite Hk. eexists. split; [reflexivity|].
      unfold keyed. rewrite DictFacts.keys_set_in; assumption. }
    destruct (fold_opt_defined add_weighted_student preferences empty_network)
      as [G0 ->]; [|eauto].
    intros [sid st] G1 Hs. unfold add_weighted_student. cbn [fst snd].
    destruct (Hall sid st Hs) as [[w ->] _].
    apply fold_opt_defined. intros item G2 _.
    apply WeightedFacts.add_weighted_day_defined.
Qed.

Lemma weighted_network_built_iff_witness :
  exists G, build_flow_network sample_roster DAYS 15 = Some G.
Proof.
  apply (proj2 (weighted_network_built_iff sample_roster DAYS 15)).
  intros sid st Hs. simpl in Hs.
  destruct Hs as [Hs|[Hs|[Hs|[Hs|[]]]]]; inversion Hs; subst;
    (split; [eexists; reflexivity|]);
    intros day p Hd; simpl in Hd;
    destruct Hd as [Hd|[Hd|[Hd|[Hd|[]]]]]; inversion Hd; subst;
    simpl; auto.
Defined.

(** ** The figures of print_results *)

Module SummaryFacts.
Import DictFacts.

Lemma sat_total_incr (level : string) (sat : Satisfaction) :
  sat_total (sat_incr level sat) = sat_total sat + 1.
Proof.
  unfold sat_incr, sat_total.
  destruct (String.eqb level "1st"); [simpl; lia|].
  destruct (String.eqb level "2nd"); [simpl; lia|].
  destruct (String.eqb level "3rd"); simpl; lia.
Qed.

Lemma classify_is_incr (preferences : Preferences) (s d act : string)
    (data : Student) (p : Prefs) (sat : Satisfaction) :
  Dict.get s preferences = Some data ->
  Dict.get d (days data) = Some p ->
  classify preferences s sat (d, act) = Some (sat_incr (level_of act p) sat).
Proof.
  intros Hs Hd. unfold classify, level_of. rewrite Hs, Hd.
  destruct (String.eqb act (pref_1st p)); [reflexivity|].
  destruct (String.eqb act (pref_2nd p)); [reflexivity|].
  destruct (String.eqb act (pref_3rd p)); reflexivity.
Qed.

Lemma count_activity_seats (day act d' a' : string)
    (counts counts' : Dict.t (Dict.t Z)) :
  count_activity day act counts = Some counts' ->
  seats d' a' counts' =
  seats d' a' counts +
  (if String.eqb day d' && String.eqb act a' then 1 else 0).
Proof.
  unfold count_activity, seats, remaining.
  destruct (Dict.get day counts) as [row|] eqn:Er; [|discriminate].
  destruct (Dict.mem act row) eqn:Em.
  - destruct (Dict.get act row) as [c|] eqn:Ec; [|discriminate].
    intros H; inversion H; subst; clear H.
    destruct (string_dec d' day) as [->|Nd].
    + rewrite get_set_same, Er, String.eqb_refl. cbn [andb].
      destruct (string_dec a' act) as [->|Na].
      * rewrite get_set_same, Ec, String.eqb_refl. lia.
      * rewrite get_set_other by assumption.
        assert (String.eqb act a' = false) as ->
            by (apply String.eqb_neq; congruence).
        lia.
    + rewrite get_set_other by assumption.
      assert (String.eqb day d' = false) as ->
          by (apply String.eqb_neq; congruence).
      cbn [andb]. lia.
  - rewrite get_set_same. intros H; inversion H; subst; clear H.
    apply mem_false in Em.
    destruct (string_dec d' day) as [->|Nd].
    + rewrite get_set_same, Er, String.eqb_refl. cbn [andb].
      destruct (string_dec a' act) as [->|Na].
      * rewrite get_set_same, Em, String.eqb_refl. lia.
      * rewrite !get_set_other by assumption.
        assert (String.eqb act a' = false) as ->
            by (apply String.eqb_neq; congruence).
        lia.
    + rewrite get_set_other by assumption.
      assert (String.eqb day d' = false) as ->
          by (apply String.eqb_neq; congruence).
      cbn [andb]. lia.
Qed.

Lemma count_activity_defined (day act : string) (counts : Dict.t (Dict.t Z)) :
  Dict.get day counts <> None ->
  exists counts',
    count_activity day act counts = Some counts' /\
    forall d, Dict.get d counts <> None -> Dict.get d counts' <> None.
Proof.
  unfold count_activity. intros H.
  destruct (Dict.get day counts) as [row|] eqn:Er; [|contradiction].
  assert (exists c, Dict.get act (if Dict.mem act row then row
                                  else Dict.set act 0 row) = Some c)
    as [c ->].
  { destruct (Dict.mem act row) eqn:Em.
    - apply mem_true, In_keys_get in Em. assumption.
    - rewrite get_set_same. eauto. }
  eexists. split; [reflexivity|].
  intros d Hd. destruct (string_dec d day) as [->|N].
  - rewrite get_set_same. discriminate.
  - rewrite get_set_other by assumption. assumption.
Qed.

Lemma tally_item_effect (preferences : Preferences) (student prio : string)
    (s s' : Summary) (d act : string) :
  tally_item preferences student prio s (d, act) = Some s' ->
  total_assignments s' = total_assignments s + 1 /\
  classify preferences student (overall_satisfaction s) (d, act)
    = Some (overall_satisfaction s') /\
  tier_total s' = tier_total s + 1 /\
  forall d' a',
    seats d' a' (activity_count s') =
    seats d' a' (activity_count s) +
    (if String.eqb d d' && String.eqb act a' then 1 else 0).
Proof.
  unfold tally_item.
  destruct (Dict.get student preferences) as [data|] eqn:Es; [|discriminate].
  destruct (Dict.get d (days data)) as [p|] eqn:Ed; [|discriminate].
  destruct (Dict.get prio (priority_satisfaction s)) as [tc|] eqn:Ep;
    [|discriminate].
  destruct (count_activity d act (activity_count s)) as [counts|] eqn:Ec;
    [|discriminate].
  intros H; inversion H; subst; clear H.
  cbn [total_assignments overall_satisfaction priority_satisfaction
       activity_count].
  split; [reflexivity|].
  split; [apply (classify_is_incr _ _ _ _ _ _ _ Es Ed)|].
  split.
  - unfold tier_total. cbn [priority_satisfaction].
    rewrite CountFacts.dict_sum_set, Ep, sat_total_incr. lia.
  - intros d' a'. apply count_activity_seats. assumption.
Qed.

Lemma tally_row_effect (preferences : Preferences) (student prio : string)
    (row : Dict.t string) (s s' : Summary) :
  fold_opt (tally_item preferences student prio) row s = Some s' ->
  total_assignments s' = total_assignments s + Z.of_nat (List.length row) /\
  fold_opt (classify preferences student) row (overall_satisfaction s)
    = Some (overall_satisfaction s') /\
  tier_total s' = tier_total s + Z.of_nat (List.length row) /\
  forall d' a',
    seats d' a' (activity_count s') =
    seats d' a' (activity_count s) +
    dict_sum (fun d act =>
                if String.eqb d d' && String.eqb act a' then 1 else 0) row.
Proof.
  revert s. induction row as [|[d act] r IH]; intros s H.
  - inversion H; subst. simpl.
    repeat split; intros; first [lia | reflexivity].
  - cbn [fold_opt] in H.
    destruct (tally_item preferences student prio s (d, act)) as [s1|] eqn:E;
      [|discriminate].
    destruct (tally_item_effect _ _ _ _ _ _ _ E) as [H1 [H2 [H3 H4]]].
    destruct (IH _ H) as [I1 [I2 [I3 I4]]].
    cbn [fold_opt]. rewrite H2.
    split; [rewrite I1, H1; cbn [List.length]; lia|].
    split; [assumption|].
    split; [rewrite I3, H3; cbn [List.length]; lia|].
    intros d' a'. rewrite I4, H4, TierFacts.dict_sum_cons. lia.
Qed.

Lemma tally_all_effect (preferences : Preferences) (a : Assignments)
    (s s' : Summary) :
  fold_opt (tally_student preferences) a s = Some s' ->
  total_assignments s' = total_assignments s + entries a /\
  fold_opt (fun sat0 (item : string * Dict.t string) =>
              fold_opt (classify preferences (fst item)) (snd item) sat0)
           a (overall_satisfaction s) = Some (overall_satisfaction s') /\
  tier_total s' = tier_total s + entries a /\
  forall d' a',
    seats d' a' (activity_count s') =
    seats d' a' (activity_count s) + committed_count d' a' a.
Proof.
  revert s. induction a as [|[student row] r IH]; intros s H.
  - inversion H; subst. unfold entries, committed_count. simpl.
    repeat split; intros; first [lia | reflexivity].
  - cbn [fold_opt] in H. unfold tally_student at 1 in H. cbn [fst snd] in H.
    destruct (Dict.get student preferences) as [data|]; [|discriminate].
    destruct (fold_opt (tally_item preferences student (weight data)) row s)
      as [s1|] eqn:E; [|discriminate].
    destruct (tally_row_effect _ _ _ _ _ _ E) as [H1 [H2 [H3 H4]]].
    destruct (IH _ H) as [I1 [I2 [I3 I4]]].
    cbn [fold_opt fst snd]. rewrite H2.
    rewrite TallyFacts.entries_cons.
    split; [lia|]. split; [assumption|]. split; [lia|].
    intros d' a'. rewrite I4, H4. unfold committed_count.
    rewrite TierFacts.dict_sum_cons. lia.
Qed.

Lemma empty_summary_seats (d a : string) :
  seats d a (activity_count empty_summary) = 0.
Proof.
  unfold seats, remaining, empty_summary. cbn [activity_count].
  destruct (Dict.get d (map (fun day => (day, Dict.empty)) DAYS))
    as [row|] eqn:E; [|reflexivity].
  apply InitFacts.get_map_const in E. subst. reflexivity.
Qed.

Lemma tally_item_defined (preferences : Preferences) (student prio : string)
    (s : Summary) (d act : string) (data : Student) (p : Prefs) :
  summary_rows s ->
  Dict.get student preferences = Some data ->
  Dict.get d (days data) = Some p ->
  In prio TIERS -> In d DAYS ->
  exists s', tally_item preferences student prio s (d, act) = Some s' /\
             summary_rows s'.
Proof.
  intros [HP HD] Hs Hd Hprio Hday. unfold tally_item. rewrite Hs, Hd.
  destruct (Dict.get prio (priority_satisfaction s)) as [tc|] eqn:Ep;
    [|exfalso; exact (HP prio Hprio Ep)].
  destruct (count_activity_defined d act (activity_count s) (HD d Hday))
    as [counts [-> Hk]].
  eexists. split; [reflexivity|]. split; cbn.
  - intros q Hq. destruct (string_dec q prio) as [->|N].
    + rewrite get_set_same. discriminate.
    + rewrite get_set_other by assumption. auto.
  - intros d0 Hd0. apply Hk. auto.
Qed.

Lemma empty_summary_rows : summary_rows empty_summary.
Proof.
  split.
  - unfold TIERS. simpl. intros p [<-|[<-|[<-|[]]]]; discriminate.
  - unfold DAYS. simpl. intros d [<-|[<-|[<-|[<-|[]]]]]; discriminate.
Qed.

End SummaryFacts.

(** X14. Whenever the summary of [print_results] is computed without a
    [KeyError], its figures agree with the assignment mapping it was given:
    the total is the number of (student, day) items, the overall counts are
    the ones [assign_students_to_activities] computes for the same mapping,
    the counts of the three tiers add up to the total, and the participation
    count of every (day, activity) is the number of items assigned to it. *)
Theorem summary_agrees_with_assignments (preferences : Preferences)
    (assignments : Assignments) (s : Summary) :
  summary_statistics preferences assignments = Some s ->
  total_assignments s = entries assignments /\
  preference_satisfaction preferences assignments
    = Some (overall_satisfaction s) /\
  dict_sum (fun _ sat => sat_total sat) (priority_satisfaction s)
    = entries assignments /\
  forall day activity,
    seats day activity (activity_count s)
    = committed_count day activity assignments.
Proof.
  unfold summary_statistics. intros H.
  destruct (SummaryFacts.tally_all_effect _ _ _ _ H) as [H1 [H2 [H3 H4]]].
  split; [rewrite H1; reflexivity|].
  split; [exact H2|].
  split; [exact H3|].
  intros day activity. rewrite H4, SummaryFacts.empty_summary_seats. lia.
Qed.

Lemma summary_agrees_with_assignments_witness :
  exists s,
    summary_statistics sample_roster sample_assignments = Some s /\
    total_assignments s = entries sample_assignments /\
    preference_satisfaction sample_roster sample_assignments
      = Some (overall_satisfaction s) /\
    dict_sum (fun _ sat => sat_total sat) (priority_satisfaction s)
      = entries sample_assignments /\
    forall day activity,
      seats day activity (activity_count s)
      = committed_count day activity sample_assignments.
Proof.
  destruct (summary_statistics sample_roster sample_assignments) as [s|] eqn:E.
  - exists s. split; [reflexivity|].
    apply (summary_agrees_with_assignments sample_roster sample_assignments s).
    exact E.
  - vm_compute in E. discriminate.
Defined.

Lemma non_S_absent
    (maximum_flow : DiGraph -> string -> string -> option FlowDict)
    (G : DiGraph) (preferences : Preferences) (assignments : Assignments)
    (sat : Satisfaction) :
  assign_students_to_activities maximum_flow G preferences
    = Some (assignments, sat) ->
  forall sid, PyStr.startswith_S sid = false ->
              Dict.get sid assignments = None.
Proof.
  intros H sid HS. apply assign_allocate in H as [cap [H _]].
  apply DictFacts.get_None_keys. intros Hin.
  unfold allocate in H.
  destruct (init_capacity preferences) as [cap0|]; [|discriminate].
  assert (forall k, In k (Dict.keys (fst (@Dict.empty (Dict.t string), cap0)))
                    -> PyStr.startswith_S k = true) as H0
      by (simpl; tauto).
  pose proof (process_groups_keys_S maximum_flow preferences _ _ _ H0 H
                sid Hin) as HT.
  congruence.
Qed.

Section OwnOutput.
Import DictFacts.

Variable maximum_flow : DiGraph -> string -> string -> option FlowDict.
Hypothesis maximum_flow_feasible :
  forall G fd, maximum_flow G "source" "sink" = Some fd ->
               feasible_flow G "source" "sink" fd = true.
Variable preferences : Preferences.
Hypothesis preferences_wf : wf_preferences preferences.

(** X15. On the allocator's own result [print_results] raises nothing:
    no look-up fails and the total it divides by is positive.  The overall
    counts it prints are the ones the allocator returned, and the students
    it lists as unassigned are exactly the students of the input without a
    row in the mapping; every student whose identifier does not start with
    'S' is among them. *)
Theorem print_results_on_own_output (G : DiGraph) (assignments : Assignments)
    (sat : Satisfaction) :
  assign_students_to_activities maximum_flow G preferences
    = Some (assignments, sat) ->
  exists s unassigned,
    print_results (Some assignments) preferences = Report s unassigned /\
    overall_satisfaction s = sat /\
    0 < total_assignments s /\
    (forall sid, In sid unassigned <->
                 In sid (Dict.keys preferences) /\
                 Dict.get sid assignments = None) /\
    (forall sid, In sid (Dict.keys preferences) ->
                 PyStr.startswith_S sid = false -> In sid unassigned).
Proof.
  intros H.
  destruct (satisfaction_counts_total maximum_flow G preferences assignments
              sat H) as [_ Hpos].
  pose proof (non_S_absent maximum_flow G preferences assignments sat H)
    as HnonS.
  apply assign_allocate in H as [cap [Ha Hsat]].
  pose proof (allocated_students_known maximum_flow maximum_flow_feasible
                preferences preferences_wf assignments cap Ha) as Hknown.
  destruct (InitMore.fold_opt_defined_inv summary_rows
              (tally_student preferences) assignments empty_summary
              SummaryFacts.empty_summary_rows) as [s [Hs _]].
  { intros [student row] s0 Hrow HP. unfold tally_student. cbn [fst snd].
    destruct (Hknown student row Hrow) as [stu [Hget [Hw Hitems]]].
    rewrite Hget.
    apply InitMore.fold_opt_defined_inv; [assumption|].
    intros [d act] s1 Hitem HP1.
    destruct (Hitems d act Hitem) as [Hd [p Hp]].
    eapply SummaryFacts.tally_item_defined; eauto. }
  destruct (SummaryFacts.tally_all_effect _ _ _ _ Hs) as [H1 [H2 _]].
  cbn in H1.
  exists s.
  exists (filter (fun sid => negb (Dict.mem sid assignments))
                 (Dict.keys preferences)).
  unfold print_results, summary_statistics. rewrite Hs.
  assert ((total_assignments s =? 0) = false) as -> by (apply Z.eqb_neq; lia).
  split; [reflexivity|].
  split.
  { unfold preference_satisfaction in Hsat. cbn in H2. congruence. }
  split; [lia|].
  split.
  - intros sid. rewrite filter_In, negb_true_iff, mem_false. tauto.
  - intros sid Hin HS. rewrite filter_In, negb_true_iff, mem_false.
    split; [assumption | apply HnonS; assumption].
Qed.

End OwnOutput.

Lemma print_results_on_own_output_witness :
  exists s unassigned,
    print_results (Some sample_assignments) sample_roster
      = Report s unassigned /\
    overall_satisfaction s = sample_satisfaction /\
    0 < total_assignments s /\
    (forall sid, In sid unassigned <->
                 In sid (Dict.keys sample_roster) /\
                 Dict.get sid sample_assignments = None) /\
    (forall sid, In sid (Dict.keys sample_roster) ->
                 PyStr.startswith_S sid = false -> In sid unassigned).
Proof.
  apply (print_results_on_own_output Solver.maximum_flow solver_feasible
           sample_roster sample_roster_wf Dict.empty sample_assignments
           sample_satisfaction).
  vm_compute. reflexivity.
Defined.
